(** * Bounded external-API adapters of the open_web_ui tool collection

    A shallow embedding of the tool modules under [src/tools]: the arXiv
    search, the Semantic Scholar and Congress.gov adapters built on httpx,
    the Research Organization Registry (ROR) adapter and the Yahoo Finance
    fan-out.  Every tool is an [async] Python function; the embedding keeps
    the order of its observable actions (status events sent to the host's
    event emitter, outbound network calls) in a trace and keeps Python
    exceptions as data. *)

From Stdlib Require Import ZArith Lia Ascii String DecimalString.
From stdpp Require Import base option list strings gmap fin_maps.

Open Scope string_scope.
Open Scope list_scope.
Set Warnings "-register-all,-clear-no-such-hyp".

(** ** Python values *)

Module Py.

(** The values that flow through the tools.  [PFrame] and [PSeries] stand for
    the pandas objects handed out by the market-data library; they are
    opaque, known by a number, and only the pandas operations (parameters of
    the model) look inside.  [PObject] is an object of some other class that
    is neither a container nor a pandas object, known by the name of its
    class: a bound method has the class [method]. *)
Inductive pyval : Type :=
  | PNone
  | PBool (b : bool)
  | PInt (z : Z)
  | PStr (s : string)
  | PList (l : list pyval)
  | PDict (d : list (string * pyval))
  | PFrame (df : nat)
  | PSeries (s : nat)
  | PObject (class_name : string).

(** [v is not None] *)
Definition is_not_None (v : pyval) : Prop :=
  match v with PNone => False | _ => True end.

#[global] Instance is_not_None_dec v : Decision (is_not_None v).
Proof. destruct v; simpl; apply _. Defined.

Definition is_None (v : pyval) : bool :=
  match v with PNone => true | _ => false end.

(** Python truthiness, as used by [if x:], for the values that the tools
    test: what a caller passes.  A bound method is true. *)
Definition truthy (v : pyval) : bool :=
  match v with
  | PNone => false
  | PBool b => b
  | PInt z => negb (Z.eqb z 0)
  | PStr s => negb (String.eqb s "")
  | PList l => match l with [] => false | _ => true end
  | PDict d => match d with [] => false | _ => true end
  | PFrame _ => true
  | PSeries _ => true
  | PObject _ => true
  end.

(** [str(n)] for an integer. *)
Definition str_of_Z (z : Z) : string := NilZero.string_of_int (Z.to_int z).
Definition str_of_nat (n : nat) : string := str_of_Z (Z.of_nat n).

(** [repr(s)] for a text.  Python writes the text between single quotes, or
    between double quotes when it holds a single quote and no double quote;
    it escapes the backslash, the quote in use, tab, newline and carriage
    return by a backslash, and the other control characters as [\xhh].
    Text is held as UTF-8 here, and the characters beyond ASCII are taken
    as printable. *)
Definition squote : ascii := ascii_of_nat 39.
Definition dquote : ascii := ascii_of_nat 34.
Definition backslash : ascii := ascii_of_nat 92.

Fixpoint occurs (c : ascii) (s : string) : bool :=
  match s with
  | EmptyString => false
  | String x rest => Ascii.eqb x c || occurs c rest
  end.

Definition hex_digit (n : nat) : ascii :=
  ascii_of_nat (if Nat.ltb n 10 then 48 + n else 87 + n).

Definition repr_char (quote c : ascii) : string :=
  let n := nat_of_ascii c in
  if Ascii.eqb c quote || Ascii.eqb c backslash
  then String backslash (String c EmptyString)
  else if Nat.eqb n 9 then String backslash "t"
  else if Nat.eqb n 10 then String backslash "n"
  else if Nat.eqb n 13 then String backslash "r"
  else if Nat.ltb n 32 || Nat.eqb n 127
  then String backslash
         (String "x" (String (hex_digit (n / 16))
                        (String (hex_digit (n mod 16)) EmptyString)))
  else String c EmptyString.

Fixpoint repr_chars (quote : ascii) (s : string) : string :=
  match s with
  | EmptyString => EmptyString
  | String c rest => repr_char quote c +:+ repr_chars quote rest
  end.

Definition repr_str (s : string) : string :=
  let quote := if occurs squote s && negb (occurs dquote s)
               then dquote else squote in
  String quote (repr_chars quote s) +:+ String quote EmptyString.

(** [repr(v)].  A list or dictionary is written with the [repr] of its
    members; no caller passes a pandas object or a method, which are written
    by their class name here. *)
Fixpoint repr (v : pyval) : string :=
  match v with
  | PNone => "None"
  | PBool true => "True"
  | PBool false => "False"
  | PInt z => str_of_Z z
  | PStr s => repr_str s
  | PList l =>
      "[" +:+ String.concat ", " (map repr l) +:+ "]"
  | PDict d =>
      "{" +:+ String.concat ", "
                (map (λ '(k, x), repr_str k +:+ ": " +:+ repr x) d) +:+ "}"
  | PFrame _ => "<DataFrame>"
  | PSeries _ => "<Series>"
  | PObject class_name => "<" +:+ class_name +:+ ">"
  end.

(** [str(v)] inside an f-string: the text itself for a text, [repr(v)] for
    the other values. *)
Definition fmt (v : pyval) : string :=
  match v with
  | PStr s => s
  | _ => repr v
  end.

(** The tagged error value [{"error": description}]. *)
Definition error_value (description : string) : pyval :=
  PDict [("error", PStr description)].

(** [{k: v for k, v in d.items() if v is not None}] *)
Definition drop_None (d : gmap string pyval) : gmap string pyval :=
  filter (λ kv, is_not_None kv.2) d.

(** [params.update(d)]: the entries of [d] win. *)
Definition update (params d : gmap string pyval) : gmap string pyval :=
  d ∪ params.

(** Python exceptions that the tools meet. *)
Inductive exn : Type :=
  | TypeError (msg : string)
  | ValueError (msg : string)
  | JSONDecodeError
  | HTTPStatusError (status_code : Z)
  | RequestError (msg : string)
  | OtherException (msg : string).

(** [str(e)] and [f"{e}"]. *)
Definition str_of_exn (e : exn) : string :=
  match e with
  | TypeError m | ValueError m | RequestError m | OtherException m => m
  | JSONDecodeError => "Expecting value"
  | HTTPStatusError c => "HTTP status " +:+ str_of_Z c
  end.

Definition NoneType_not_callable : exn :=
  TypeError "'NoneType' object is not callable".

End Py.
Export Py.

(** ** The host side: status events, network calls, the trace *)

Module Host.

(** The [data] part of [{"type": "status", "data": {...}}].  [hidden] is
    optional in the source. *)
Record status_event : Type := Status {
  description : string;
  done : bool;
  hidden : option bool
}.

Inductive http_method : Type := GET | POST.

(** One outbound request: what is passed to [client.get], [client.post] or
    the feed parser. *)
Record request : Type := Request {
  method : http_method;
  url : string;
  rparams : gmap string pyval;
  json_body : option pyval
}.

(** What the transport answers: a response with a status code whose body
    decodes to JSON or not, or no response at all. *)
Inductive net_outcome : Type :=
  | Response (status_code : Z) (body : option pyval)
  | NoResponse (msg : string).

(** Observable actions of one invocation, oldest first: a status event
    handed to the emitter, an HTTP request (or feed download), a call into
    the market-data library for one ticker, a line printed. *)
Inductive action : Type :=
  | Emit (e : status_event)
  | Net (r : request)
  | Lib (ticker attribute : string) (kwargs : gmap string pyval)
  | Stdout (line : string).

Definition trace := list action.

Definition net_calls (t : trace) : list request :=
  omap (λ a, match a with Net r => Some r | _ => None end) t.

Definition lib_calls (t : trace) : list (string * string) :=
  omap (λ a, match a with Lib ticker attribute _ => Some (ticker, attribute)
             | _ => None end) t.

Definition emitted (t : trace) : list status_event :=
  omap (λ a, match a with Emit e => Some e | _ => None end) t.

(** A call either returns or raises. *)
Inductive result (A : Type) : Type :=
  | Ret (a : A)
  | Raise (e : exn).
Arguments Ret {A} a.
Arguments Raise {A} e.

(** Computations that extend the trace. *)
Definition M (A : Type) : Type := trace → result A * trace.

Definition ret {A} (a : A) : M A := λ t, (Ret a, t).
Definition raise {A} (e : exn) : M A := λ t, (Raise e, t).
Definition bind {A B} (m : M A) (k : A → M B) : M B :=
  λ t, match m t with
       | (Ret a, t') => k a t'
       | (Raise e, t') => (Raise e, t')
       end.

(** [try: m except Exception as e: h e] *)
Definition try_except {A} (m : M A) (h : exn → M A) : M A :=
  λ t, match m t with
       | (Ret a, t') => (Ret a, t')
       | (Raise e, t') => h e t'
       end.

#[global] Instance M_ret : MRet M := @ret.
#[global] Instance M_bind : MBind M := λ A B k m, bind m k.

Definition log (a : action) : M unit := λ t, (Ret tt, t ++ [a]).

Definition run {A} (m : M A) : result A * trace := m [].

(** The progress sink.  A tool whose signature requires [__event_emitter__]
    is always handed the host's sink; [await __event_emitter__(e)] records
    [e]. *)
Definition emit (e : status_event) : M unit := log (Emit e).

(** Where [__event_emitter__] defaults to [None] the argument is optional,
    and awaiting a call of [None] raises. *)
Inductive sink : Type := HostSink.

Definition emit_to (em : option sink) (e : status_event) : M unit :=
  match em with
  | Some HostSink => emit e
  | None => raise NoneType_not_callable
  end.

(** A computation that leaves the trace alone and does not look at it. *)
Definition pure {A} (m : M A) : Prop := ∃ r, ∀ t, m t = (r, t).

End Host.
Export Host.

(** ** The httpx client calls shared by three tools *)

Module Httpx.
Section Client.

(** The remote side: the answer to the [n]-th network call of an
    invocation (counting from 0), given the request. *)
Variable transport : nat → request → net_outcome.

(** [await client.get(url, params=...)] / [await client.post(...)]: one
    network call; no response at all (connection failure, timeout) is an
    [httpx.RequestError]. *)
Definition send (r : request) : M (Z * option pyval) :=
  λ t, match transport (length (net_calls t)) r with
       | Response c b => (Ret (c, b), t ++ [Net r])
       | NoResponse msg => (Raise (RequestError msg), t ++ [Net r])
       end.

Definition is_success (status_code : Z) : bool :=
  (200 <=? status_code)%Z && (status_code <=? 299)%Z.

(** [response.raise_for_status()] *)
Definition raise_for_status (resp : Z * option pyval) : M unit :=
  if is_success resp.1 then ret tt else raise (HTTPStatusError resp.1).

(** [response.json()] *)
Definition json (resp : Z * option pyval) : M pyval :=
  match resp.2 with
  | Some v => ret v
  | None => raise JSONDecodeError
  end.

End Client.
End Httpx.

(** ** semantic_scholar/semantic_scholar_tool.py *)

Module SemanticScholar.
Section Tools.

Variable transport : nat → request → net_outcome.

Definition base_url : string := "https://api.semanticscholar.org/graph/v1/".

(** The dictionary [optional_params] of [fetch_paper], source lines
    85-96. *)
Definition fetch_paper_optional
    (limit fields publicationTypes openAccessPdf minCitationCount
     publicationDateOrYear year venue fieldsOfStudy offset : pyval)
    : gmap string pyval :=
  list_to_map
    [ ("limit", limit); ("fields", fields);
      ("publicationTypes", publicationTypes);
      ("openAccessPdf", openAccessPdf);
      ("minCitationCount", minCitationCount);
      ("publicationDateOrYear", publicationDateOrYear);
      ("year", year); ("venue", venue);
      ("fieldsOfStudy", fieldsOfStudy); ("offset", offset) ].

(** [params] of [fetch_paper] after its [update], source lines 81-98. *)
Definition fetch_paper_params
    (query limit fields publicationTypes openAccessPdf minCitationCount
     publicationDateOrYear year venue fieldsOfStudy offset : pyval)
    : gmap string pyval :=
  let params : gmap string pyval := {[ "query" := query ]} in
  let optional_params :=
    fetch_paper_optional limit fields publicationTypes openAccessPdf
      minCitationCount publicationDateOrYear year venue fieldsOfStudy
      offset in
  update params (drop_None optional_params).

(** [Tools.fetch_paper] *)
Definition fetch_paper
    (query limit fields publicationTypes openAccessPdf minCitationCount
     publicationDateOrYear year venue fieldsOfStudy offset : pyval)
    : M pyval :=
  let url := base_url +:+ "paper/search" in
  let params :=
    fetch_paper_params query limit fields publicationTypes openAccessPdf
      minCitationCount publicationDateOrYear year venue fieldsOfStudy
      offset in
  emit (Status "Searching for papers..." false (Some true));;
  try_except
    (response ← Httpx.send transport (Request GET url params None);
     Httpx.raise_for_status response;;
     Httpx.json response)
    (λ exc,
       match exc with
       | HTTPStatusError status_code =>
           emit (Status ("HTTP error: " +:+ str_of_Z status_code) true None);;
           ret (error_value ("HTTP error: " +:+ str_of_Z status_code))
       | RequestError msg =>
           emit (Status ("Request error: " +:+ msg) true None);;
           ret (error_value ("Request error: " +:+ msg))
       | _ => raise exc
       end).

(** [Tools.fetch_papers_partial_match].  The [RequestError] handler ends
    after its status event, so the function falls off its end and yields
    [None]. *)
Definition fetch_papers_partial_match (query : pyval) : M pyval :=
  let url := base_url +:+ "paper/autocomplete" in
  let params : gmap string pyval := {[ "query" := query ]} in
  emit (Status "Searching for papers using partial match..." false (Some true));;
  try_except
    (response ← Httpx.send transport (Request GET url params None);
     Httpx.raise_for_status response;;
     Httpx.json response)
    (λ exc,
       match exc with
       | HTTPStatusError status_code =>
           emit (Status ("HTTP error: " +:+ str_of_Z status_code) true None);;
           ret (error_value ("HTTP error: " +:+ str_of_Z status_code))
       | RequestError msg =>
           emit (Status ("Request error: " +:+ msg) true None);;
           ret PNone
       | _ => raise exc
       end).

(** [Tools.fetch_papers_batch]: a POST whose body carries the ids. *)
Definition fetch_papers_batch (ids fields : pyval) : M pyval :=
  let url := base_url +:+ "paper/batch" in
  let data := PDict [("ids", ids)] in
  let params : gmap string pyval := {[ "fields" := fields ]} in
  emit (Status "Searching for batch of papers..." false (Some true));;
  try_except
    (response ← Httpx.send transport (Request POST url params (Some data));
     Httpx.raise_for_status response;;
     Httpx.json response)
    (λ exc,
       match exc with
       | HTTPStatusError status_code =>
           emit (Status ("HTTP error: " +:+ str_of_Z status_code) true None);;
           ret (error_value ("HTTP error: " +:+ str_of_Z status_code))
       | RequestError msg =>
           emit (Status ("Request error: " +:+ msg) true None);;
           ret PNone
       | _ => raise exc
       end).

(** [Tools.fetch_paper_citations].  The parameter [offset] is accepted and
    not used. *)
Definition fetch_paper_citations
    (paper_id offset limit fields publicationDateOrYear : pyval) : M pyval :=
  let url := base_url +:+ "paper/" +:+ fmt paper_id +:+ "/citations" in
  let params : gmap string pyval := ∅ in
  let optional_params : gmap string pyval :=
    list_to_map
      [ ("limit", limit); ("fields", fields);
        ("publicationDateOrYear", publicationDateOrYear) ] in
  let params := update params (drop_None optional_params) in
  emit (Status "Searching for paper citations..." false (Some true));;
  try_except
    (response ← Httpx.send transport (Request GET url params None);
     Httpx.raise_for_status response;;
     Httpx.json response)
    (λ exc,
       match exc with
       | HTTPStatusError status_code =>
           emit (Status ("HTTP error: " +:+ str_of_Z status_code) true None);;
           ret (error_value ("HTTP error: " +:+ str_of_Z status_code))
       | RequestError msg =>
           emit (Status ("Request error: " +:+ msg) true None);;
           ret PNone
       | _ => raise exc
       end).

(** [Tools.fetch_author_batch]: a POST whose body carries the ids when they
    are given. *)
Definition fetch_author_batch (fields ids : pyval) : M pyval :=
  let url := base_url +:+ "author/batch" in
  let params : gmap string pyval := ∅ in
  let params := if is_None fields then params
                else <["fields" := fields]> params in
  let data : list (string * pyval) := [] in
  let data := if is_None ids then data else data ++ [("ids", ids)] in
  emit (Status "Searching for batch of authors..." false (Some true));;
  try_except
    (response ← Httpx.send transport (Request POST url params (Some (PDict data)));
     Httpx.raise_for_status response;;
     Httpx.json response)
    (λ exc,
       match exc with
       | HTTPStatusError status_code =>
           emit (Status ("HTTP error: " +:+ str_of_Z status_code) true None);;
           ret (error_value ("HTTP error: " +:+ str_of_Z status_code))
       | RequestError msg =>
           emit (Status ("Request error: " +:+ msg) true None);;
           ret PNone
       | _ => raise exc
       end).

(** [Tools.fetch_author_details] *)
Definition fetch_author_details (author_id fields : pyval) : M pyval :=
  let url := base_url +:+ "author/" +:+ fmt author_id in
  let params : gmap string pyval := ∅ in
  let params := if is_None fields then params
                else <["fields" := fields]> params in
  emit (Status "Searching for author details..." false (Some true));;
  try_except
    (response ← Httpx.send transport (Request GET url params None);
     Httpx.raise_for_status response;;
     Httpx.json response)
    (λ exc,
       match exc with
       | HTTPStatusError status_code =>
           emit (Status ("HTTP error: " +:+ str_of_Z status_code) true None);;
           ret (error_value ("HTTP error: " +:+ str_of_Z status_code))
       | RequestError msg =>
           emit (Status ("Request error: " +:+ msg) true None);;
           ret PNone
       | _ => raise exc
       end).

End Tools.
End SemanticScholar.

(** ** research_organization_registry/ror_tool.py *)

Module Ror.

(** What can be bound to the [msg] parameter of [call_api]: nothing, a text,
    or (when the caller passes its emitter in second position) the sink. *)
Inductive msg_arg : Type :=
  | MsgNone
  | MsgText (s : string)
  | MsgObject (o : sink).

Definition fmt_msg (m : msg_arg) : string :=
  match m with
  | MsgNone => "None"
  | MsgText s => s
  | MsgObject _ => "<function>"
  end.

Definition as_msg (em : option sink) : msg_arg :=
  match em with
  | Some o => MsgObject o
  | None => MsgNone
  end.

Section Tools.

Variable transport : nat → request → net_outcome.

Definition BASE_URL : string := "https://api.ror.org/v2/organizations".

(** [Tools.call_api(params=None, msg=None, __event_emitter__=None)].
    [None] for [params] sends no query parameters. *)
Definition call_api (params : option (gmap string pyval)) (msg : msg_arg)
    (__event_emitter__ : option sink) : M pyval :=
  (if __event_emitter__ is Some _ then
     emit_to __event_emitter__
       (Status ("Executing " +:+ fmt_msg msg +:+ " ROR query...") false (Some true))
   else ret tt);;
  try_except
    (response ← Httpx.send transport
                  (Request GET BASE_URL (default ∅ params) None);
     Httpx.raise_for_status response;;
     Httpx.json response)
    (λ exc,
       match exc with
       | HTTPStatusError status_code =>
           emit_to __event_emitter__
             (Status ("HTTP error: " +:+ str_of_Z status_code) true None);;
           ret (error_value ("HTTP error: " +:+ str_of_Z status_code))
       | RequestError msg =>
           emit_to __event_emitter__
             (Status ("Request error: " +:+ msg) true None);;
           ret (error_value ("Request error: " +:+ msg))
       | _ => raise exc
       end).

(** [if v: filters.append(f"{name}:{v}")] *)
Definition append_filter (name : string) (v : pyval) (filters : list string)
    : list string :=
  if truthy v then filters ++ [name +:+ ":" +:+ fmt v] else filters.

(** The list [filters] of [Tools.query], source lines 150-164. *)
Definition filter_terms
    (status types country_code country_name continent_code
     continent_name : pyval) : list string :=
  let filters : list string := [] in
  let filters := append_filter "status" status filters in
  let filters := append_filter "types" types filters in
  let filters := append_filter "country_code" country_code filters in
  let filters := append_filter "country_name" country_name filters in
  let filters := append_filter "continent_code" continent_code filters in
  append_filter "continent_name" continent_name filters.

(** The part of [Tools.query] that fills [params], source lines 148-168. *)
Definition query_params
    (organization status types country_code country_name
     continent_code continent_name : pyval) : gmap string pyval :=
  let params : gmap string pyval := ∅ in
  let params := if truthy organization
                then <["query" := organization]> params else params in
  let filters := filter_terms status types country_code country_name
                   continent_code continent_name in
  if decide (0 < length filters)
  then <["filter" := PStr (String.concat "," filters)]> params
  else params.

(** The loop of the multi-organization path.  [org_params = params] is an
    alias, so the one dictionary is threaded through the iterations; the
    call binds the emitter to [msg] and leaves [__event_emitter__] at its
    default. *)
Fixpoint query_each (__event_emitter__ : option sink)
    (organizations : list pyval) (params : gmap string pyval)
    (results : list pyval) : M (list pyval) :=
  match organizations with
  | [] => ret results
  | org :: rest =>
      let params := <["query" := org]> params in
      r ← call_api (Some params) (as_msg __event_emitter__) None;
      query_each __event_emitter__ rest params (results ++ [r])
  end.

(** [isinstance(organization, list) and len(organization) > 1] *)
Definition several (organization : pyval) : option (list pyval) :=
  match organization with
  | PList l => if decide (1 < length l) then Some l else None
  | _ => None
  end.

(** [Tools.query] *)
Definition query
    (organization status types country_code country_name
     continent_code continent_name : pyval)
    (__event_emitter__ : option sink) : M pyval :=
  let msg := "basic" in
  let params := query_params organization status types country_code
                  country_name continent_code continent_name in
  match several organization with
  | Some organizations =>
      results ← query_each __event_emitter__ organizations params [];
      ret (PDict [("results", PList results)])
  | None => call_api (Some params) (MsgText msg) __event_emitter__
  end.

(** [Tools.advanced_query] *)
Definition advanced_query (advanced_query : pyval)
    (__event_emitter__ : option sink) : M pyval :=
  let msg := "advanced" in
  let params : gmap string pyval := ∅ in
  let params := if truthy advanced_query
                then <["query.advanced" := advanced_query]> params
                else params in
  call_api (Some params) (MsgText msg) __event_emitter__.

(** [Tools.get_affiliation_matches] *)
Definition get_affiliation_matches (affiliation : pyval)
    (__event_emitter__ : option sink) : M pyval :=
  let msg := "affiliation" in
  let params : gmap string pyval := {[ "affiliation" := affiliation ]} in
  call_api (Some params) (MsgText msg) __event_emitter__.

End Tools.
End Ror.

(** ** The date check used by the Congress.gov tool *)

Module Datetime.
Local Open Scope nat_scope.

(** [datetime.datetime.strptime(s, '%Y-%m-%dT%H:%M:%SZ')] belongs to the
    Python library.  The tool model takes the check as a parameter; this is
    the library's behaviour for that one format on ASCII text, used for the
    concrete runs.  The library matches the text against the pattern
    [(\d\d\d\d)-(1[0-2]|0[1-9]|[1-9])-(3[0-1]|[1-2]\d|0[1-9]|[1-9]| [1-9])]
    [T(2[0-3]|[0-1]\d|\d):([0-5]\d|\d):(6[0-1]|[0-5]\d|\d)Z], letters in
    either case, refuses text that is left over, and then builds the date
    and time, which refuses a year 0, a day that the month does not have
    and a second above 59. *)

Definition digit (c : ascii) : option nat :=
  let n := nat_of_ascii c in
  if decide (48 ≤ n ∧ n ≤ 57) then Some (n - 48) else None.

(** The leading digits of [l], at most [most] of them, as a list, and the
    rest. *)
Fixpoint digits (most : nat) (l : list ascii) : list nat * list ascii :=
  match most, l with
  | S most, c :: rest =>
      match digit c with
      | Some d => let '(ds, rest') := digits most rest in (d :: ds, rest')
      | None => ([], l)
      end
  | _, _ => ([], l)
  end.

(** One alternative of a field: which texts of one or two digits it takes. *)
Definition year_field (ds : list nat) : option nat :=
  match ds with
  | [a; b; c; d] => Some (1000 * a + 100 * b + 10 * c + d)
  | _ => None
  end.

Definition month_field (ds : list nat) : option nat :=
  match ds with
  | [a; b] => if bool_decide (1 ≤ 10 * a + b ∧ 10 * a + b ≤ 12)
              then Some (10 * a + b) else None
  | [a] => if bool_decide (1 ≤ a) then Some a else None
  | _ => None
  end.

Definition day_field (ds : list nat) : option nat :=
  match ds with
  | [a; b] => if bool_decide (1 ≤ 10 * a + b ∧ 10 * a + b ≤ 31)
              then Some (10 * a + b) else None
  | [a] => if bool_decide (1 ≤ a) then Some a else None
  | _ => None
  end.

Definition upto (bound : nat) (ds : list nat) : option nat :=
  match ds with
  | [a; b] => if bool_decide (10 * a + b ≤ bound)
              then Some (10 * a + b) else None
  | [a] => Some a
  | _ => None
  end.

(** The character [c], in either case when it is a letter. *)
Definition is_char (c x : ascii) : bool :=
  let n := nat_of_ascii c in
  Ascii.eqb x c
  || (bool_decide (65 ≤ n ∧ n ≤ 90) && Ascii.eqb x (ascii_of_nat (n + 32))).

(** A field is the run of digits up to the separator. *)
Definition field (most : nat) (alternatives : list nat → option nat)
    (sep : ascii) (l : list ascii) : option (nat * list ascii) :=
  let '(ds, rest) := digits most l in
  match alternatives ds, rest with
  | Some value, x :: rest' => if is_char sep x then Some (value, rest')
                              else None
  | _, _ => None
  end.

(** The day may also be written as a space and one digit. *)
Definition day (l : list ascii) : option (nat * list ascii) :=
  match l with
  | " "%char :: c :: x :: rest =>
      match digit c with
      | Some d => if bool_decide (1 ≤ d) && is_char "T" x
                  then Some (d, rest) else None
      | None => None
      end
  | _ => field 2 day_field "T" l
  end.

Definition leap (y : nat) : bool :=
  ((y mod 4 =? 0) && negb (y mod 100 =? 0)) || (y mod 400 =? 0).

Definition days_in_month (y m : nat) : nat :=
  match m with
  | 2 => if leap y then 29 else 28
  | 4 | 6 | 9 | 11 => 30
  | _ => 31
  end.

Definition strptime_Ymd_HMS_Z (s : string) : bool :=
  let l := list_ascii_of_string s in
  match field 4 year_field "-" l with
  | Some (year, l) =>
    match field 2 month_field "-" l with
    | Some (month, l) =>
      match day l with
      | Some (d, l) =>
        match field 2 (upto 23) ":" l with
        | Some (hour, l) =>
          match field 2 (upto 59) ":" l with
          | Some (minute, l) =>
            match field 2 (upto 61) "Z" l with
            | Some (second, []) =>
                bool_decide (1 ≤ year) &&
                bool_decide (d ≤ days_in_month year month) &&
                bool_decide (second ≤ 59)
            | _ => false
            end
          | None => false
          end
        | None => false
        end
      | None => false
      end
    | None => false
    end
  | None => false
  end.

End Datetime.

(** ** us_congress/us_congress_tool.py *)

Module Congress.
Section Tools.

Variable transport : nat → request → net_outcome.

(** [os.getenv("API_KEY_GOV")], read when the module is loaded. *)
Variable api_key : pyval.

(** Whether the library's [strptime] accepts a text for the format
    ['%Y-%m-%dT%H:%M:%SZ']. *)
Variable strptime_ok : string → bool.

Definition BASE_URL : string := "https://api.congress.gov/v3".
Definition format : string := "application/json".

Definition fmt_opt (msg : option string) : string :=
  match msg with Some s => s | None => "None" end.

(** [Tools.call_api(__event_emitter__, endpoint, params=None, msg=None)] *)
Definition call_api (endpoint : option string)
    (params : option (gmap string pyval)) (msg : option string) : M pyval :=
  match endpoint with
  | None =>
      emit (Status "API call unsuccessful, model did not select an endpoint."
              true (Some false));;
      ret (error_value "endpoint not supplied")
  | Some endpoint =>
      emit (Status ("Searching for " +:+ fmt_opt msg +:+ "...") false (Some true));;
      let params := default ∅ params in
      let params := <["format" := PStr format]> params in
      let params := <["api_key" := api_key]> params in
      try_except
        (let url := BASE_URL +:+ endpoint in
         response ← Httpx.send transport (Request GET url params None);
         Httpx.raise_for_status response;;
         Httpx.json response)
        (λ exc,
           match exc with
           | HTTPStatusError status_code =>
               emit (Status ("HTTP error: " +:+ str_of_Z status_code) true None);;
               ret (error_value ("HTTP error: " +:+ str_of_Z status_code))
           | RequestError msg =>
               emit (Status ("Request error: " +:+ msg) true None);;
               ret (error_value ("Request error: " +:+ msg))
           | _ => raise exc
           end)
  end.

(** [datetime.datetime.strptime(v, '%Y-%m-%dT%H:%M:%SZ')], for its
    exception only. *)
Definition strptime (v : pyval) : M unit :=
  match v with
  | PStr s => if strptime_ok s then ret tt
              else raise (ValueError "time data does not match format")
  | _ => raise (TypeError "strptime() argument 1 must be str")
  end.

(** The [if fromDateTime: try: ... except ValueError: print(...); return
    None] block.  [inl params] goes on, [inr v] returns [v] from the
    operation. *)
Definition checked_date (name : string) (v : pyval)
    (params : gmap string pyval) : M (gmap string pyval + pyval) :=
  if truthy v then
    try_except
      (strptime v;;
       ret (inl (<[name := v]> params)))
      (λ exc,
         match exc with
         | ValueError _ =>
             log (Stdout ("Incorrect " +:+ name +:+
                         " format, should be YYYY-MM-DDT00:00:00Z"));;
             ret (inr PNone)
         | _ => raise exc
         end)
  else ret (inl params).

(** Source lines 110-131, which the three bill listings share but for the
    endpoint and the message. *)
Definition bill_listing (endpoint msg : string)
    (offset limit fromDateTime toDateTime sort : pyval) : M pyval :=
  let params : gmap string pyval := ∅ in
  let params := <["offset" := offset]> params in
  let params := <["limit" := limit]> params in
  from ← checked_date "fromDateTime" fromDateTime params;
  match from with
  | inr v => ret v
  | inl params =>
      to ← checked_date "toDateTime" toDateTime params;
      match to with
      | inr v => ret v
      | inl params =>
          let params := if truthy sort then <["sort" := sort]> params
                        else params in
          call_api (Some endpoint) (Some params) (Some msg)
      end
  end.

(** [Tools.get_bills] *)
Definition get_bills (offset limit fromDateTime toDateTime sort : pyval)
    : M pyval :=
  bill_listing "/bill" "bills" offset limit fromDateTime toDateTime sort.

(** [Tools.get_bills_by_congress] *)
Definition get_bills_by_congress
    (congress offset limit fromDateTime toDateTime sort : pyval) : M pyval :=
  bill_listing ("/bill/" +:+ fmt congress) "bills by congress"
    offset limit fromDateTime toDateTime sort.

(** [Tools.get_bills_by_congress_billtype] *)
Definition get_bills_by_congress_billtype
    (congress bill_type offset limit fromDateTime toDateTime sort : pyval)
    : M pyval :=
  bill_listing ("/bill/" +:+ fmt congress +:+ "/" +:+ fmt bill_type)
    "bill types" offset limit fromDateTime toDateTime sort.

(** [Tools.get_bill_details] *)
Definition get_bill_details (congress bill_type bill_number : pyval)
    : M pyval :=
  let params : gmap string pyval := ∅ in
  let endpoint := "/bill/" +:+ fmt congress +:+ "/" +:+ fmt bill_type
                  +:+ "/" +:+ fmt bill_number in
  call_api (Some endpoint) (Some params) (Some "bill details").

(** The parameter block of [Tools.get_members]: every guard is a
    truthiness test. *)
Definition get_members_params
    (offset limit fromDateTime toDateTime currentMember : pyval)
    : gmap string pyval :=
  let params : gmap string pyval := ∅ in
  let params := if truthy offset then <["offset" := offset]> params
                else params in
  let params := if truthy limit then <["limit" := limit]> params
                else params in
  let params := if truthy fromDateTime
                then <["fromDateTime" := fromDateTime]> params else params in
  let params := if truthy toDateTime
                then <["toDateTime" := toDateTime]> params else params in
  if truthy currentMember then <["currentMember" := currentMember]> params
  else params.

(** [Tools.get_members] *)
Definition get_members
    (offset limit fromDateTime toDateTime currentMember : pyval) : M pyval :=
  call_api (Some "/member")
    (Some (get_members_params offset limit fromDateTime toDateTime
             currentMember))
    (Some "members").

(** [Tools.crsreport_by_report_number] *)
Definition crsreport_by_report_number (reportNumber : pyval) : M pyval :=
  if negb (truthy reportNumber)
  then raise (ValueError "reportNumber is a required argument.")
  else
    let params : gmap string pyval := ∅ in
    let endpoint := "/crsreport/" +:+ fmt reportNumber in
    call_api (Some endpoint) (Some params)
      (Some "Congressional Research Service (CRS) report data by number").

(** [Tools.get_laws_by_congress]: [call_api] without a message. *)
Definition get_laws_by_congress (congress offset limit : pyval) : M pyval :=
  let params : gmap string pyval := ∅ in
  let params := <["offset" := offset]> params in
  let params := <["limit" := limit]> params in
  let endpoint := "/law/" +:+ fmt congress in
  call_api (Some endpoint) (Some params) None.

(** The parameter block of [Tools.crsreport]: paging by [is not None],
    dates by truthiness and without a format check. *)
Definition crsreport_params (offset limit fromDateTime toDateTime : pyval)
    : gmap string pyval :=
  let params : gmap string pyval := ∅ in
  let params := if is_None offset then params
                else <["offset" := offset]> params in
  let params := if is_None limit then params
                else <["limit" := limit]> params in
  let params := if truthy fromDateTime
                then <["fromDateTime" := fromDateTime]> params else params in
  if truthy toDateTime then <["toDateTime" := toDateTime]> params else params.

(** [Tools.crsreport] *)
Definition crsreport (offset limit fromDateTime toDateTime : pyval) : M pyval :=
  call_api (Some "/crsreport")
    (Some (crsreport_params offset limit fromDateTime toDateTime))
    (Some "Congressional Research Service (CRS) report data").

(** [Tools.get_hearings].  The path segments are appended to [endpoint]
    before [endpoint] is assigned, which Python refuses with an
    [UnboundLocalError]; the assignment that follows would discard them. *)
Definition get_hearings
    (congress chamber jacket_number format offset limit : pyval) : M pyval :=
  let params : gmap string pyval := ∅ in
  let params := if truthy offset then <["offset" := offset]> params
                else params in
  let params := if truthy limit then <["limit" := limit]> params
                else params in
  if truthy congress then
    raise (OtherException
             "cannot access local variable 'endpoint' where it is not associated with a value")
  else
    let endpoint := "/hearing" in
    let msg := "hearings" in
    call_api (Some endpoint) (Some params) (Some msg).

(** The parameter block of [Tools.get_congressional_record]; the parameter
    [format] is accepted and not used. *)
Definition congressional_record_params (year month day offset limit : pyval)
    : gmap string pyval :=
  let params : gmap string pyval := ∅ in
  let params := if truthy year then <["y" := year]> params else params in
  let params := if truthy month then <["m" := month]> params else params in
  let params := if truthy day then <["d" := day]> params else params in
  let params := if truthy offset then <["offset" := offset]> params
                else params in
  if truthy limit then <["limit" := limit]> params else params.

(** [Tools.get_congressional_record] *)
Definition get_congressional_record
    (year month day format offset limit : pyval) : M pyval :=
  call_api (Some "/congressional-record/")
    (Some (congressional_record_params year month day offset limit))
    (Some "Congressional Record data for a specific date").

End Tools.
End Congress.

(** ** arxiv/arxiv_tool.py *)

Module Arxiv.

Record UserValves : Type := {
  use_valves : bool;
  start : pyval;
  max_results : pyval;
  sort_by : pyval;
  sort_order : pyval
}.

(** [UserValves()] with the declared defaults. *)
Definition default_valves : UserValves :=
  {| use_valves := false; start := PInt 0; max_results := PInt 10;
     sort_by := PStr "relevance"; sort_order := PStr "ascending" |}.

Record Tools : Type := {
  base_url : string;
  max_retries : nat;
  user_valves : UserValves
}.

(** [Tools.__init__] *)
Definition init : Tools :=
  {| base_url := "http://export.arxiv.org/api/query";
     max_retries := 3;
     user_valves := default_valves |}.

(** What [feedparser.parse(url)] hands back: the HTTP status it saw, if any,
    and the entries, each a dictionary. *)
Record feed : Type := Feed {
  status : option Z;
  entries : list (gmap string pyval)
}.

Inductive feed_outcome : Type :=
  | Parsed (f : feed)
  | ParseRaises (e : exn).

(** What [search] passes to [json.dumps(_, indent=2)]; the text it returns
    is the library's rendering of this value.  The feed library hands out
    texts, lists and dictionaries, all of which the encoder knows. *)
Inductive dumped : Type :=
  | Papers (papers : list (gmap string pyval))
  | Value (v : pyval).

(** Key lookup in a dictionary value. *)
Fixpoint dict_get (name : string) (d : list (string * pyval)) : option pyval :=
  match d with
  | [] => None
  | (k, v) :: rest => if String.eqb k name then Some v else dict_get name rest
  end.

(** [obj.name] on a feed dictionary. *)
Definition getattr (obj : pyval) (name : string) : M pyval :=
  match obj with
  | PDict d =>
      match dict_get name d with
      | Some v => ret v
      | None => raise (OtherException ("object has no attribute '" +:+ name +:+ "'"))
      end
  | _ => raise (OtherException ("object has no attribute '" +:+ name +:+ "'"))
  end.

Fixpoint each_attr (name : string) (l : list pyval) : M (list pyval) :=
  match l with
  | [] => ret []
  | x :: rest =>
      v ← getattr x name;
      vs ← each_attr name rest;
      ret (v :: vs)
  end.

(** [[x.name for x in entry.key] if hasattr(entry, "key") else None] *)
Definition attr_list (entry : gmap string pyval) (key name : string) : M pyval :=
  match entry !! key with
  | Some (PList l) => vs ← each_attr name l; ret (PList vs)
  | Some _ => raise (TypeError "object is not iterable")
  | None => ret PNone
  end.

(** [entry.get(key)], also behind a [hasattr(entry, key)] test: both read the
    same key. *)
Definition get (entry : gmap string pyval) (key : string) : pyval :=
  default PNone (entry !! key).

(** [entry.get("arxiv_primary_category", {}).get("term") if hasattr(...)] *)
Definition primary_category (entry : gmap string pyval) : M pyval :=
  match entry !! "arxiv_primary_category" with
  | Some (PDict d) => ret (default PNone (dict_get "term" d))
  | Some _ => raise (OtherException "object has no attribute 'get'")
  | None => ret PNone
  end.

(** The dictionary literal [paper] of source lines 146-160. *)
Definition candidate (entry : gmap string pyval) : M (gmap string pyval) :=
  authors ← attr_list entry "authors" "name";
  categories ← attr_list entry "tags" "term";
  primary ← primary_category entry;
  links ← attr_list entry "links" "href";
  ret (list_to_map
         [ ("id", get entry "id");
           ("title", get entry "title");
           ("summary", get entry "summary");
           ("published", get entry "published");
           ("updated", get entry "updated");
           ("authors", authors);
           ("categories", categories);
           ("doi", get entry "arxiv_doi");
           ("journal_ref", get entry "arxiv_journal_ref");
           ("comment", get entry "arxiv_comment");
           ("primary_category", primary);
           ("affiliation", get entry "arxiv_affiliation");
           ("links", links) ]).

(** One record of the result: [{k: v for k, v in paper.items() if v is not
    None}]. *)
Definition record_of (entry : gmap string pyval) : M (gmap string pyval) :=
  paper ← candidate entry;
  ret (drop_None paper).

(** [for entry in feed.entries: ... papers.append(...)] *)
Fixpoint records (entries : list (gmap string pyval)) (papers : list (gmap string pyval))
    : M (list (gmap string pyval)) :=
  match entries with
  | [] => ret papers
  | entry :: rest =>
      r ← record_of entry;
      records rest (papers ++ [r])
  end.

Section Tool.

(** The feed library: outcome of the [n]-th download of an invocation. *)
Variable feedparser_parse : nat → request → feed_outcome.

(** [f"{params}"] *)
Variable repr : gmap string pyval → string.

Definition parse (r : request) : M feed :=
  λ t, match feedparser_parse (length (net_calls t)) r with
       | Parsed f => (Ret f, t ++ [Net r])
       | ParseRaises e => (Raise e, t ++ [Net r])
       end.

(** The dictionary [optional_params], source lines 111-127: the caller's
    paging and sorting arguments when the valve [use_valves] is on, the
    valves' own values when it is off. *)
Definition search_optional (self : Tools)
    (search_query id_list start max_results sort_by sort_order : pyval)
    : gmap string pyval :=
  let optional_params : gmap string pyval :=
    list_to_map [ ("search_query", search_query); ("id_list", id_list) ] in
  if use_valves (user_valves self) then
    update optional_params
      (list_to_map [ ("start", start); ("max_results", max_results);
                     ("sortBy", sort_by); ("sort_order", sort_order) ])
  else
    let optional_params :=
      <["start" := Arxiv.start (user_valves self)]> optional_params in
    let optional_params :=
      <["max_results" := Arxiv.max_results (user_valves self)]> optional_params in
    let optional_params :=
      <["sortBy" := Arxiv.sort_by (user_valves self)]> optional_params in
    <["sortOrder" := Arxiv.sort_order (user_valves self)]> optional_params.

(** [params] after its [update], source lines 110-129. *)
Definition search_params (self : Tools)
    (search_query id_list start max_results sort_by sort_order : pyval)
    : gmap string pyval :=
  let params : gmap string pyval := ∅ in
  update params
    (drop_None (search_optional self search_query id_list start max_results
                  sort_by sort_order)).

(** The loop [while attempt < self.max_retries], by the number of attempts
    that remain ([max_retries - attempt]); an attempt that raises sends a
    status event and uses one up. *)
Fixpoint attempts (remaining : nat) (r : request) : M dumped :=
  match remaining with
  | 0 => ret (Value (error_value "Failed to fetch data after multiple attempts."))
  | S remaining =>
      try_except
        (feed ← parse r;
         papers ← records (entries feed) [];
         ret (Papers papers))
        (λ e,
           emit (Status ("Exception: " +:+ str_of_exn e) false (Some true));;
           attempts remaining r)
  end.

(** [Tools.search] *)
Definition search (self : Tools)
    (search_query id_list start max_results sort_by sort_order : pyval)
    : M dumped :=
  let params := search_params self search_query id_list start max_results
                  sort_by sort_order in
  emit (Status ("Searching ArXiv with the following parameters " +:+ repr params)
          false (Some true));;
  attempts (max_retries self) (Request GET (base_url self) params None).

End Tool.

(** An attempt raises when the feed library raises or when building the
    records from the parsed entries raises. *)
Definition attempt_raises (o : feed_outcome) : Prop :=
  match o with
  | ParseRaises _ => True
  | Parsed f => ∃ e, ∀ t, records (entries f) [] t = (Raise e, t)
  end.

Definition exhausted : dumped :=
  Value (error_value "Failed to fetch data after multiple attempts.").

(** The keys of the dictionary literal [paper]. *)
Definition record_keys : list string :=
  [ "id"; "title"; "summary"; "published"; "updated"; "authors";
    "categories"; "doi"; "journal_ref"; "comment"; "primary_category";
    "affiliation"; "links" ].

(** [paper] is the candidate record that the source computes for [entry]. *)
Definition computes_to (entry paper : gmap string pyval) : Prop :=
  ∀ t, candidate entry t = (Ret paper, t).

(** What the retry loop can return: the error of exhausted retries, or the
    filtered candidates of a feed that the library handed back. *)
Definition from_some_feed (feedparser_parse : nat → request → feed_outcome)
    (r : request) (res : dumped) : Prop :=
  res = exhausted ∨
  ∃ n f cs, feedparser_parse n r = Parsed f
            ∧ Forall2 computes_to (entries f) cs
            ∧ res = Papers (map drop_None cs).

(** The downloads [first], ..., [first + k - 1] of an invocation, all for
    the request [r], are attempts that raise. *)
Definition attempts_raise (feedparser_parse : nat → request → feed_outcome)
    (r : request) (first k : nat) : Prop :=
  ∀ i, i < k → attempt_raises (feedparser_parse (first + i) r).

(** What the retry loop returns when it starts with download number [first]
    and [remaining] attempts, and the downloads it makes: the error after
    [remaining] attempts that all raise, or the filtered candidates of the
    feed of the first attempt that does not raise. *)
Definition loop_outcome (feedparser_parse : nat → request → feed_outcome)
    (r : request) (first remaining : nat) (res : dumped) (downloads : nat)
    : Prop :=
  (attempts_raise feedparser_parse r first remaining
   ∧ res = exhausted ∧ downloads = remaining)
  ∨ ∃ k f cs,
      k < remaining
      ∧ attempts_raise feedparser_parse r first k
      ∧ feedparser_parse (first + k) r = Parsed f
      ∧ Forall2 computes_to (entries f) cs
      ∧ res = Papers (map drop_None cs)
      ∧ downloads = S k.

(** [r] holds exactly the entries of [c] whose value is not [None], with
    the values as they are in [c]. *)
Definition top_level_filtered (c r : gmap string pyval) : Prop :=
  dom c = list_to_set record_keys ∧
  ∀ k v, r !! k = Some v ↔ c !! k = Some v ∧ v ≠ PNone.

End Arxiv.

(** ** yahoo_finance/yfinance_tool.py *)

Module YFinance.

Record UserValves : Type := {
  include_dividends : bool;
  include_splits : bool;
  auto_adjust : bool;
  include_prepost : bool
}.

Definition default_valves : UserValves :=
  {| include_dividends := true; include_splits := true;
     auto_adjust := false; include_prepost := false |}.

(** What an access to the market-data library yields for one ticker. *)
Inductive lib_outcome : Type :=
  | LibValue (v : pyval)
  | LibRaises (e : exn)
  | LibNoAttr.

(** The pandas library.  What its calls make of a frame or a series is a
    parameter; each call returns or raises.  A frame is a value here:
    [df = obj.copy()] and the in-place steps on the copy are steps from
    frame to frame. *)
Record Pandas : Type := {
  (** [df.index.tz] as the condition of source line 46 reads it; an index
      without [tz] raises *)
  index_tz : nat → result bool;
  (** [df.index = df.index.tz_convert("US/Eastern").tz_localize(None)] *)
  index_to_eastern : nat → result nat;
  (** [df.reset_index(inplace=True)] *)
  reset_index : nat → result nat;
  (** [df.rename(columns={"index": "Datetime"}, inplace=True)] *)
  rename_index_to_Datetime : nat → result nat;
  (** [df.columns] *)
  columns : nat → list pyval;
  (** [pd.api.types.is_datetime64_any_dtype(df[col])] *)
  is_datetime64_any_dtype : nat → pyval → bool;
  (** [df[col] = df[col].astype(str)] *)
  astype_str : nat → pyval → result nat;
  (** [df.to_dict(orient="records")] *)
  to_dict_records : nat → result pyval;
  (** [obj.apply(lambda x: str(x) if is_datetime64_any_dtype(x) else x).to_dict()]
      for a series *)
  series_apply_to_dict : nat → result pyval;
  (** [json.loads(x.to_json(orient="records", date_format="iso"))] for a
      frame and for a series *)
  frame_to_json : nat → result pyval;
  series_to_json : nat → result pyval
}.

(** Sequencing of calls that return or raise. *)
Definition and_then {A B} (r : result A) (k : A → result B) : result B :=
  match r with
  | Ret a => k a
  | Raise e => Raise e
  end.

(** A call that returns or raises, as a step that leaves the trace alone. *)
Definition lift {A} (r : result A) : M A := λ t, (r, t).

Section Normalize.

Variable pd : Pandas.

(** [for col in df.columns: if is_datetime64_any_dtype(df[col]): df[col] =
    df[col].astype(str)] *)
Fixpoint stringify_datetimes (cols : list pyval) (df : nat) : result nat :=
  match cols with
  | [] => Ret df
  | col :: rest =>
      and_then (if is_datetime64_any_dtype pd df col
                then astype_str pd df col else Ret df)
        (stringify_datetimes rest)
  end.

(** Source lines 45-52. *)
Definition frame_records (obj : nat) : result pyval :=
  let df := obj in
  and_then (index_tz pd df) (λ tz,
  and_then (if tz then index_to_eastern pd df else Ret df) (λ df,
  and_then (reset_index pd df) (λ df,
  and_then (rename_index_to_Datetime pd df) (λ df,
  and_then (stringify_datetimes (columns pd df) df) (λ df,
  to_dict_records pd df))))).

(** [Tools.make_json_serializable] *)
Fixpoint make_json_serializable (obj : pyval) : result pyval :=
  match obj with
  | PFrame df => frame_records df
  | PSeries s => series_apply_to_dict pd s
  | PDict d =>
      and_then
        ((fix items (d : list (string * pyval)) : result (list (string * pyval)) :=
            match d with
            | [] => Ret []
            | (k, v) :: rest =>
                and_then (make_json_serializable v) (λ v',
                and_then (items rest) (λ rest', Ret ((k, v') :: rest')))
            end) d)
        (λ d', Ret (PDict d'))
  | PList l =>
      and_then
        ((fix members (l : list pyval) : result (list pyval) :=
            match l with
            | [] => Ret []
            | v :: rest =>
                and_then (make_json_serializable v) (λ v',
                and_then (members rest) (λ rest', Ret (v' :: rest')))
            end) l)
        (λ l', Ret (PList l'))
  | _ => Ret obj
  end.

(** [json.loads(x.to_json(orient="records", date_format="iso"))] when [x]
    has a [to_json], which the pandas objects have, else [x]. *)
Definition through_to_json (x : pyval) : result pyval :=
  match x with
  | PFrame df => frame_to_json pd df
  | PSeries s => series_to_json pd s
  | _ => Ret x
  end.

End Normalize.

(** The class name of the first object, in the order in which the encoder
    writes a value, that [json.dumps] does not know. *)
Fixpoint unknown_to_json (v : pyval) : option string :=
  match v with
  | PFrame _ => Some "DataFrame"
  | PSeries _ => Some "Series"
  | PObject class_name => Some class_name
  | PList l =>
      (fix members (l : list pyval) : option string :=
         match l with
         | [] => None
         | x :: rest =>
             match unknown_to_json x with
             | Some c => Some c
             | None => members rest
             end
         end) l
  | PDict d =>
      (fix items (d : list (string * pyval)) : option string :=
         match d with
         | [] => None
         | (_, x) :: rest =>
             match unknown_to_json x with
             | Some c => Some c
             | None => items rest
             end
         end) d
  | _ => None
  end.

(** The same for a mapping whose keys were inserted in the order [keys]. *)
Fixpoint first_unknown_to_json (keys : list string)
    (combined : gmap string pyval) : option string :=
  match keys with
  | [] => None
  | k :: rest =>
      match combined !! k ≫= unknown_to_json with
      | Some c => Some c
      | None => first_unknown_to_json rest combined
      end
  end.

(** [json.dumps(combined, indent=2)].  The text is the library's rendering
    of the mapping, which stands for it; an object that the encoder does
    not know makes it raise. *)
Definition json_dumps (keys : list string) (combined : gmap string pyval)
    : M (gmap string pyval) :=
  match first_unknown_to_json keys combined with
  | Some class_name =>
      raise (TypeError ("Object of type " +:+ class_name
                        +:+ " is not JSON serializable"))
  | None => ret combined
  end.

Section Tools.

Variable user_valves : UserValves.

Variable pd : Pandas.

(** The library: outcome of the [n]-th access of an invocation.  A call
    carries its keyword arguments; reading an attribute carries none. *)
Variable yf : nat → string → string → gmap string pyval → lib_outcome.

(** [(datetime.now() - timedelta(days=n)).strftime('%Y-%m-%d')] *)
Variable days_ago : nat → string.

Definition access (ticker attribute : string) (kwargs : gmap string pyval)
    : M (option pyval) :=
  λ t, match yf (length (lib_calls t)) ticker attribute kwargs with
       | LibValue v => (Ret (Some v), t ++ [Lib ticker attribute kwargs])
       | LibRaises e => (Raise e, t ++ [Lib ticker attribute kwargs])
       | LibNoAttr => (Ret None, t ++ [Lib ticker attribute kwargs])
       end.

(** The keyword arguments of [t.history], source lines 68-85. *)
Definition history_kwargs (start_date end_date period interval : pyval)
    : gmap string pyval :=
  let kwargs : gmap string pyval :=
    list_to_map
      [ ("interval", interval);
        ("actions", PBool (include_dividends user_valves
                           || include_splits user_valves));
        ("auto_adjust", PBool (auto_adjust user_valves));
        ("prepost", PBool (include_prepost user_valves)) ] in
  if truthy start_date && truthy end_date then
    <["end" := end_date]> (<["start" := start_date]> kwargs)
  else if truthy start_date && truthy period then
    <["period" := period]> (<["start" := start_date]> kwargs)
  else if truthy end_date && truthy period then
    <["period" := period]> (<["end" := end_date]> kwargs)
  else if truthy period then
    <["period" := period]> kwargs
  else
    <["end" := PStr (days_ago 1)]> (<["start" := PStr (days_ago 2)]> kwargs).

Definition plain_types : list string :=
  ["info"; "fast_info"; "financials"; "balance_sheet"; "cashflow"].

(** The [try] body of [fetch_single_ticker], up to the value stored under
    the ticker.  [inr] is the early return for an unknown [data_type]. *)
Definition fetch_body (ticker : string)
    (start_date end_date : pyval) (data_type : string)
    (period interval extra : pyval) : M (pyval + pyval) :=
  main ←
    (if String.eqb data_type "history" then
       data ← access ticker "history"
                (history_kwargs start_date end_date period interval);
       ret (inl (default PNone data))
     else if bool_decide (data_type ∈ plain_types) then
       data ← access ticker data_type ∅;
       match data with
       | Some data => ret (inl data)
       | None => raise (OtherException
                          ("'Ticker' object has no attribute '" +:+ data_type +:+ "'"))
       end
     else
       ret (inr (error_value ("Unknown data_type '" +:+ data_type +:+ "'"))));
  match main with
  | inr early => ret (inr early)
  | inl data =>
      data ←
        (match extra with
         | PStr name =>
             if truthy extra then
               found ← access ticker name ∅;
               match found with
               | Some extra_data =>
                   extra_data ← lift (through_to_json pd extra_data);
                   if String.eqb name "main"
                   then ret (PDict [("main", extra_data)])
                   else ret (PDict [("main", data); (name, extra_data)])
               | None => ret data
               end
             else ret data
         | _ =>
             if truthy extra
             then raise (TypeError "attribute name must be string")
             else ret data
         end);
      data ← lift (make_json_serializable pd data);
      ret (inl data)
  end.

(** [Tools.fetch_single_ticker] *)
Definition fetch_single_ticker (ticker : string)
    (start_date end_date : pyval) (data_type : string)
    (period interval extra : pyval) : M (gmap string pyval) :=
  emit (Status ("Fetching " +:+ ticker +:+ " (" +:+ data_type +:+ ")...")
          false None);;
  try_except
    (r ← fetch_body ticker start_date end_date data_type period interval extra;
     match r with
     | inr early => ret {[ ticker := early ]}
     | inl data =>
         emit (Status ("Fetched " +:+ ticker +:+ " successfully") true None);;
         ret {[ ticker := data ]}
     end)
    (λ e,
       emit (Status ("Error fetching " +:+ ticker +:+ ": " +:+ str_of_exn e)
               true None);;
       ret {[ ticker := error_value (str_of_exn e) ]}).

(** [await asyncio.gather] over the tasks: the sub-calls in list order,
    their results in list order. *)
Fixpoint gather {A} (tasks : list (M A)) : M (list A) :=
  match tasks with
  | [] => ret []
  | task :: rest =>
      r ← task;
      rs ← gather rest;
      ret (r :: rs)
  end.

(** [for r in results: combined.update(r)] *)
Definition combine (results : list (gmap string pyval)) : gmap string pyval :=
  foldl update ∅ results.

(** [Tools.fetch_yfinance_data].  The keys of [combined] were inserted in
    the order of the tickers. *)
Definition fetch_yfinance_data (tickers : list string)
    (start_date end_date : pyval) (data_type : string)
    (period interval extra : pyval) : M (gmap string pyval) :=
  emit (Status ("Fetching " +:+ data_type +:+ " for "
                +:+ str_of_nat (length tickers) +:+ " tickers...")
          false None);;
  let tasks :=
    map (λ t, fetch_single_ticker t start_date end_date data_type period
                interval extra) tickers in
  results ← gather tasks;
  let combined := combine results in
  emit (Status "Stock data retrieved successfully" true (Some false));;
  json_dumps tickers combined.

End Tools.
End YFinance.

(** ** Vocabulary of the adapter contract *)

Module Contract.

(** The remote side answers the first network call with [status_code]. *)
Definition first_answer (transport : nat → request → net_outcome)
    (status_code : Z) : Prop :=
  ∀ r, ∃ body, transport 0 r = Response status_code body.

(** The call returns [{"error": "HTTP error: <status_code>"}] after exactly
    one network call. *)
Definition one_shot_http_error (status_code : Z) (m : M pyval) : Prop :=
  ∃ r t, run m = (Ret (error_value ("HTTP error: " +:+ str_of_Z status_code)), t)
         ∧ net_calls t = [r].

(** A date argument that lets a Congress listing go on: not given, or a text
    that the date check accepts. *)
Definition date_passes (strptime_ok : string → bool) (v : pyval) : Prop :=
  truthy v = false ∨ ∃ s, v = PStr s ∧ strptime_ok s = true.

(** The operations built on httpx, each answering a non-2xx response in one
    shot. *)
Definition httpx_one_shot (transport : nat → request → net_outcome)
    (status_code : Z) : Prop :=
  (∀ query limit fields publicationTypes openAccessPdf minCitationCount
     publicationDateOrYear year venue fieldsOfStudy offset,
     one_shot_http_error status_code
       (SemanticScholar.fetch_paper transport query limit fields
          publicationTypes openAccessPdf minCitationCount
          publicationDateOrYear year venue fieldsOfStudy offset))
  ∧ (∀ query,
       one_shot_http_error status_code
         (SemanticScholar.fetch_papers_partial_match transport query))
  ∧ (∀ ids fields,
       one_shot_http_error status_code
         (SemanticScholar.fetch_papers_batch transport ids fields))
  ∧ (∀ api_key endpoint params msg,
       one_shot_http_error status_code
         (Congress.call_api transport api_key (Some endpoint) params msg))
  ∧ (∀ api_key strptime_ok offset limit fromDateTime toDateTime sort,
       date_passes strptime_ok fromDateTime →
       date_passes strptime_ok toDateTime →
       one_shot_http_error status_code
         (Congress.get_bills transport api_key strptime_ok offset limit
            fromDateTime toDateTime sort))
  ∧ (∀ api_key offset limit fromDateTime toDateTime currentMember,
       one_shot_http_error status_code
         (Congress.get_members transport api_key offset limit fromDateTime
            toDateTime currentMember))
  ∧ (∀ params msg o,
       one_shot_http_error status_code
         (Ror.call_api transport params msg (Some o)))
  ∧ (∀ organization status types country_code country_name continent_code
       continent_name o,
       Ror.several organization = None →
       one_shot_http_error status_code
         (Ror.query transport organization status types country_code
            country_name continent_code continent_name (Some o)))
  ∧ (∀ advanced_query o,
       one_shot_http_error status_code
         (Ror.advanced_query transport advanced_query (Some o)))
  ∧ (∀ affiliation o,
       one_shot_http_error status_code
         (Ror.get_affiliation_matches transport affiliation (Some o))).

(** Every network call is answered with a 2xx status and a JSON body. *)
Definition all_answers_succeed (transport : nat → request → net_outcome)
    : Prop :=
  ∀ n r, ∃ c v, transport n r = Response c (Some v)
                ∧ Httpx.is_success c = true.

(** A date argument that stops a Congress listing: a non-empty text that
    the date check refuses. *)
Definition date_fails (strptime_ok : string → bool) (v : pyval) : Prop :=
  ∃ s, v = PStr s ∧ truthy v = true ∧ strptime_ok s = false.

Definition rejected_dates (strptime_ok : string → bool)
    (fromDateTime toDateTime : pyval) : Prop :=
  date_fails strptime_ok fromDateTime
  ∨ (date_passes strptime_ok fromDateTime ∧ date_fails strptime_ok toDateTime).

(** The date argument that a listing refuses: [fromDateTime] when it
    fails the check, [toDateTime] when [fromDateTime] passes it. *)
Definition refused (strptime_ok : string → bool)
    (fromDateTime toDateTime : pyval) (name : string) : Prop :=
  (name = "fromDateTime" ∧ date_fails strptime_ok fromDateTime)
  ∨ (name = "toDateTime" ∧ date_passes strptime_ok fromDateTime
     ∧ date_fails strptime_ok toDateTime).

(** The call prints the line that names the argument [name] and returns
    [None]; it does nothing else, so it makes no network call and sends no
    status event. *)
Definition returns_None_offline (name : string) (m : M pyval) : Prop :=
  ∃ t, run m = (Ret PNone, t)
       ∧ t = [Stdout ("Incorrect " +:+ name +:+
                      " format, should be YYYY-MM-DDT00:00:00Z")]
       ∧ net_calls t = [] ∧ emitted t = [].

(** The window arguments that reach [t.history]. *)
Definition window (kwargs : gmap string pyval)
    : option pyval * option pyval * option pyval :=
  (kwargs !! "start", kwargs !! "end", kwargs !! "period").

(** The market-data library raises [e] whatever is asked about [ticker]. *)
Definition raises_for
    (yf : nat → string → string → gmap string pyval → YFinance.lib_outcome)
    (ticker : string) (e : exn) : Prop :=
  ∀ n attribute kwargs, yf n ticker attribute kwargs = YFinance.LibRaises e.

(** The market-data library has the history [d] for [ticker]. *)
Definition delivers_history
    (yf : nat → string → string → gmap string pyval → YFinance.lib_outcome)
    (ticker : string) (d : pyval) : Prop :=
  ∀ n kwargs, yf n ticker "history" kwargs = YFinance.LibValue d.

Definition known_type (data_type : string) : Prop :=
  data_type = "history" ∨ data_type ∈ YFinance.plain_types.

(** What the handler of source lines 102-104 makes of a step of the [try]
    body: the value when the step returns, the error entry when it
    raises. *)
Definition or_error (r : result pyval) : pyval :=
  match r with
  | Ret v => v
  | Raise e => error_value (str_of_exn e)
  end.

(** What is stored under a ticker: the error of a sub-fetch that raises,
    the normalized history of one that succeeds (the error of the
    normalization when pandas raises in it). *)
Definition stored (pd : YFinance.Pandas)
    (yf : nat → string → string → gmap string pyval → YFinance.lib_outcome)
    (data_type : string) (extra : pyval) (ticker : string) (v : pyval) : Prop :=
  (∀ e, raises_for yf ticker e → known_type data_type →
        v = error_value (str_of_exn e))
  ∧ (∀ d, delivers_history yf ticker d → data_type = "history" →
          truthy extra = false →
          v = or_error (YFinance.make_json_serializable pd d)).

(** The sub-call for [ticker] was made: its starting event is in the trace
    and, for a known data type, so is its access to the library. *)
Definition attempted (data_type ticker : string) (t : trace) : Prop :=
  Emit (Status ("Fetching " +:+ ticker +:+ " (" +:+ data_type +:+ ")...")
          false None) ∈ t
  ∧ (known_type data_type → ∃ kwargs, Lib ticker data_type kwargs ∈ t).


(** The six filters of the ROR query by name, and the terms that the truthy
    ones contribute. *)
Definition offered_filters
    (status types country_code country_name continent_code
     continent_name : pyval) : list (string * pyval) :=
  [ ("status", status); ("types", types); ("country_code", country_code);
    ("country_name", country_name); ("continent_code", continent_code);
    ("continent_name", continent_name) ].

Definition truthy_terms (filters : list (string * pyval)) : list string :=
  omap (λ '(name, v), if truthy v then Some (name +:+ ":" +:+ fmt v) else None)
    filters.

(** The sub-request of the ROR multi-organization path for one
    organization. *)
Definition sub_request (params : gmap string pyval) (org : pyval) : request :=
  Request GET Ror.BASE_URL (<["query" := org]> params) None.

End Contract.

(** ** One sub-call of the Yahoo Finance fan-out, by its parts *)

Module SubCall.
Section Parts.
Variable user_valves : YFinance.UserValves.
Variable pd : YFinance.Pandas.
Variable yf : nat → string → string → gmap string pyval → YFinance.lib_outcome.
Variable days_ago : nat → string.
Variables start_date end_date : pyval.
Variable data_type : string.
Variables period interval extra : pyval.

Definition body (ticker : string) : M (pyval + pyval) :=
  YFinance.fetch_body user_valves pd yf days_ago ticker start_date end_date
    data_type period interval extra.

Definition single (ticker : string) : M (gmap string pyval) :=
  YFinance.fetch_single_ticker user_valves pd yf days_ago ticker start_date
    end_date data_type period interval extra.

Definition start_event (ticker : string) : status_event :=
  Status ("Fetching " +:+ ticker +:+ " (" +:+ data_type +:+ ")...") false None.

(** What a sub-call stores, by the outcome of its [try] body. *)
Definition stored_value (res : result (pyval + pyval)) : pyval :=
  match res with
  | Ret (inl data) => data
  | Ret (inr early) => early
  | Raise e => error_value (str_of_exn e)
  end.
End Parts.
End SubCall.

(** ** Vocabulary for the behaviour of the operations beyond the contract *)

Module Behaviour.

(** The remote side does not answer the first network call. *)
Definition first_fails (transport : nat → request → net_outcome)
    (msg : string) : Prop :=
  ∀ r, transport 0 r = NoResponse msg.

(** The remote side answers the first network call with a 2xx status and
    the JSON body [v]. *)
Definition first_succeeds (transport : nat → request → net_outcome)
    (v : pyval) : Prop :=
  ∀ r, ∃ c, transport 0 r = Response c (Some v) ∧ Httpx.is_success c = true.

(** The remote side answers the first network call with a 2xx status and a
    body that is not JSON. *)
Definition first_undecodable (transport : nat → request → net_outcome)
    : Prop :=
  ∀ r, ∃ c, transport 0 r = Response c None ∧ Httpx.is_success c = true.

(** The run is: a starting event with [done=false], one network call, the
    failure event with [done=true], and the error value is returned. *)
Definition reports_request_error (msg : string) (m : M pyval) : Prop :=
  ∃ start r,
    run m = (Ret (error_value ("Request error: " +:+ msg)),
             [ Emit start; Net r;
               Emit (Status ("Request error: " +:+ msg) true None) ])
    ∧ done start = false.

(** The run is: a starting event with [done=false], one network call, and
    [v] is returned; no event with [done=true] is sent. *)
Definition returns_body (v : pyval) (m : M pyval) : Prop :=
  ∃ start r, run m = (Ret v, [Emit start; Net r]) ∧ done start = false.

(** The run is: a starting event, one network call, and the decoding error
    leaves the operation. *)
Definition decode_error_escapes (m : M pyval) : Prop :=
  ∃ start r, run m = (Raise JSONDecodeError, [Emit start; Net r]).

(** The run makes exactly one network call. *)
Definition one_call (m : M pyval) : Prop :=
  length (net_calls (run m).2) = 1.

(** The operations of the three httpx tools that are modelled, each
    satisfying [P]. *)
Definition httpx_operations (transport : nat → request → net_outcome)
    (P : M pyval → Prop) : Prop :=
  (∀ query limit fields publicationTypes openAccessPdf minCitationCount
     publicationDateOrYear year venue fieldsOfStudy offset,
     P (SemanticScholar.fetch_paper transport query limit fields
          publicationTypes openAccessPdf minCitationCount
          publicationDateOrYear year venue fieldsOfStudy offset))
  ∧ (∀ query, P (SemanticScholar.fetch_papers_partial_match transport query))
  ∧ (∀ ids fields, P (SemanticScholar.fetch_papers_batch transport ids fields))
  ∧ (∀ paper_id offset limit fields publicationDateOrYear,
       P (SemanticScholar.fetch_paper_citations transport paper_id offset limit
            fields publicationDateOrYear))
  ∧ (∀ fields ids, P (SemanticScholar.fetch_author_batch transport fields ids))
  ∧ (∀ author_id fields,
       P (SemanticScholar.fetch_author_details transport author_id fields))
  ∧ (∀ api_key endpoint params msg,
       P (Congress.call_api transport api_key (Some endpoint) params msg))
  ∧ (∀ params msg o, P (Ror.call_api transport params msg (Some o))).

(** A value without pandas objects, at any depth. *)
Fixpoint plain (v : pyval) : bool :=
  match v with
  | PFrame _ | PSeries _ => false
  | PList l => forallb plain l
  | PDict d => forallb (λ '(_, x), plain x) d
  | _ => true
  end.

(** The error stored for a ticker when the data type is not known. *)
Definition unknown_type_error (data_type : string) : pyval :=
  error_value ("Unknown data_type '" +:+ data_type +:+ "'").

(** The first and the last event of a fan-out over [n] tickers. *)
Definition fan_out_start (data_type : string) (n : nat) : status_event :=
  Status ("Fetching " +:+ data_type +:+ " for " +:+ str_of_nat n
          +:+ " tickers...") false None.

Definition fan_out_end : status_event :=
  Status "Stock data retrieved successfully" true (Some false).

(** The run is: a starting event with [done=false], one network call, the
    failure event with [done=true], and [None] is returned. *)
Definition fails_into_None (msg : string) (m : M pyval) : Prop :=
  ∃ start r,
    run m = (Ret PNone,
             [ Emit start; Net r;
               Emit (Status ("Request error: " +:+ msg) true None) ])
    ∧ done start = false.

(** What a history sub-call with an extra stores, by what the library has
    for the extra. *)
Definition history_with_extra (pd : YFinance.Pandas) (name : string)
    (d : pyval) (found : YFinance.lib_outcome) : pyval :=
  match found with
  | YFinance.LibValue x =>
      Contract.or_error
        (YFinance.and_then (YFinance.through_to_json pd x) (λ extra_data,
         YFinance.make_json_serializable pd
           (PDict [("main", d); (name, extra_data)])))
  | YFinance.LibNoAttr =>
      Contract.or_error (YFinance.make_json_serializable pd d)
  | YFinance.LibRaises e => error_value (str_of_exn e)
  end.

(** What is sent for a value that was offered: nothing for [None]. *)
Definition unless_None (v : pyval) : option pyval :=
  if is_None v then None else Some v.

End Behaviour.

(** ** Remote sides used in the concrete runs *)

Module Mock.

(** A feed library that raises on every download. *)
Definition feed_always_raises : nat → request → Arxiv.feed_outcome :=
  λ _ _, Arxiv.ParseRaises (OtherException "connection reset").

(** An entry with a title and two authors, the second without a name, and
    a feed of that one entry that reports status 404. *)
Definition entry_with_nameless_author : gmap string pyval :=
  list_to_map
    [ ("id", PStr "http://arxiv.org/abs/2106.15928v1");
      ("title", PStr "Thermal conductivity");
      ("authors", PList [ PDict [("name", PStr "A. Author")];
                          PDict [("name", PNone)] ]) ].

Definition feed_404 (es : list (gmap string pyval))
    : nat → request → Arxiv.feed_outcome :=
  λ _ _, Arxiv.Parsed (Arxiv.Feed (Some 404%Z) es).

(** A remote side that gives the same answer to every call. *)
Definition always (o : net_outcome) : nat → request → net_outcome := λ _ _, o.

(** A pandas for which every frame has a time-zone-aware index and the one
    row [{"Close": 101}], and every series the one dividend 24. *)
Definition pandas_one_row : YFinance.Pandas :=
  {| YFinance.index_tz := λ _, Ret true;
     YFinance.index_to_eastern := λ df, Ret df;
     YFinance.reset_index := λ df, Ret df;
     YFinance.rename_index_to_Datetime := λ df, Ret df;
     YFinance.columns := λ _, [PStr "Close"];
     YFinance.is_datetime64_any_dtype := λ _ _, false;
     YFinance.astype_str := λ df _, Ret df;
     YFinance.to_dict_records := λ _, Ret (PList [PDict [("Close", PInt 101)]]);
     YFinance.series_apply_to_dict :=
       λ _, Ret (PDict [("2024-02-09", PInt 24)]);
     YFinance.frame_to_json := λ _, Ret (PList [PDict [("Close", PInt 101)]]);
     YFinance.series_to_json := λ _, Ret (PList [PInt 24]) |}.

(** A market-data library with a frame for every ticker. *)
Definition one_row : pyval := PFrame 0.

Definition yf_one_row : nat → string → string → gmap string pyval
    → YFinance.lib_outcome :=
  λ _ _ _ _, YFinance.LibValue one_row.

Definition days_ago (n : nat) : string := "today-" +:+ str_of_nat n.

(** A feed library that raises on the first [k] downloads and then hands
    back a feed with the entries [es]. *)
Definition feed_after (k : nat) (es : list (gmap string pyval))
    : nat → request → Arxiv.feed_outcome :=
  λ n _, if decide (n < k)
         then Arxiv.ParseRaises (OtherException "connection reset")
         else Arxiv.Parsed (Arxiv.Feed (Some 200%Z) es).

(** A market-data library with a history and a dividend series for every
    ticker. *)
Definition yf_with_dividends : nat → string → string → gmap string pyval
    → YFinance.lib_outcome :=
  λ _ _ attribute _,
    if String.eqb attribute "history" then YFinance.LibValue one_row
    else if String.eqb attribute "dividends"
    then YFinance.LibValue (PSeries 0)
    else YFinance.LibNoAttr.

(** A market-data library as far as the source shows it: [history] is a
    method of the ticker object.  Calling it, which always passes
    [interval], hands back a frame; reading the attribute [history] hands
    back the bound method; the ticker has no other attribute. *)
Definition yf_history_is_a_method : nat → string → string → gmap string pyval
    → YFinance.lib_outcome :=
  λ _ _ attribute kwargs,
    if String.eqb attribute "history" then
      match kwargs !! "interval" with
      | Some _ => YFinance.LibValue one_row
      | None => YFinance.LibValue (PObject "method")
      end
    else YFinance.LibNoAttr.

(** A tool whose valve [use_valves] is switched on. *)
Definition arxiv_with_valves : Arxiv.Tools :=
  {| Arxiv.base_url := Arxiv.base_url Arxiv.init;
     Arxiv.max_retries := Arxiv.max_retries Arxiv.init;
     Arxiv.user_valves :=
       {| Arxiv.use_valves := true; Arxiv.start := PInt 0;
          Arxiv.max_results := PInt 10; Arxiv.sort_by := PStr "relevance";
          Arxiv.sort_order := PStr "ascending" |} |}.

End Mock.

(** * Properties *)

(** ** Traces and computations *)

Lemma net_calls_app (t1 t2 : trace) :
  net_calls (t1 ++ t2) = net_calls t1 ++ net_calls t2.
Proof. apply omap_app. Qed.

Lemma emitted_app (t1 t2 : trace) :
  emitted (t1 ++ t2) = emitted t1 ++ emitted t2.
Proof. apply omap_app. Qed.

Lemma lib_calls_app (t1 t2 : trace) :
  lib_calls (t1 ++ t2) = lib_calls t1 ++ lib_calls t2.
Proof. apply omap_app. Qed.

Lemma pure_ret {A} (a : A) : pure (mret a).
Proof. by exists (Ret a). Qed.

Lemma pure_raise {A} (e : exn) : pure (@raise A e).
Proof. by exists (Raise e). Qed.

Lemma pure_bind {A B} (m : M A) (k : A → M B) :
  pure m → (∀ a, pure (k a)) → pure (m ≫= k).
Proof.
  intros [r Hm] Hk. destruct r as [a|e].
  - destruct (Hk a) as [r' Hr']. exists r'. intros t.
    unfold mbind, M_bind, bind. by rewrite Hm, Hr'.
  - exists (Raise e). intros t. unfold mbind, M_bind, bind. by rewrite Hm.
Qed.

Create HintDb pure_db.
#[global] Hint Resolve pure_ret pure_raise : pure_db.

Ltac pure_step :=
  first [ apply pure_ret | apply pure_raise | apply pure_bind; [| intros ?] ].

(** ** arXiv: the records and the retry loop *)

Module ArxivFacts.
Import Arxiv.

Lemma getattr_pure obj name : pure (getattr obj name).
Proof.
  unfold getattr. destruct obj; try pure_step.
  destruct (dict_get name d); pure_step.
Qed.

Lemma each_attr_pure name l : pure (each_attr name l).
Proof.
  induction l as [|x l IH]; simpl; [pure_step|].
  pure_step; [apply getattr_pure|]. pure_step; [exact IH|]. pure_step.
Qed.

Lemma attr_list_pure entry key name : pure (attr_list entry key name).
Proof.
  unfold attr_list. destruct (entry !! key) as [v|]; [|pure_step].
  destruct v; try pure_step. { apply each_attr_pure. } pure_step.
Qed.

Lemma primary_category_pure entry : pure (primary_category entry).
Proof.
  unfold primary_category.
  destruct (entry !! "arxiv_primary_category") as [v|]; [|pure_step].
  destruct v; pure_step.
Qed.

Lemma candidate_pure entry : pure (candidate entry).
Proof.
  unfold candidate.
  pure_step; [apply attr_list_pure|].
  pure_step; [apply attr_list_pure|].
  pure_step; [apply primary_category_pure|].
  pure_step; [apply attr_list_pure|]. pure_step.
Qed.

Lemma record_of_pure entry : pure (record_of entry).
Proof. unfold record_of. pure_step; [apply candidate_pure|]. pure_step. Qed.

Lemma records_pure es ps : pure (records es ps).
Proof.
  revert ps. induction es as [|e es IH]; intros ps; simpl; [pure_step|].
  pure_step; [apply record_of_pure|]. apply IH.
Qed.

End ArxivFacts.

Module ArxivRetry.
Import Arxiv ArxivFacts.

Section Loop.
Variable feedparser_parse : nat → request → feed_outcome.
Variable repr : gmap string pyval → string.
Hypothesis always : ∀ n r, attempt_raises (feedparser_parse n r).

Lemma attempts_all_raise remaining r t :
  ∃ t', attempts feedparser_parse remaining r t = (Ret exhausted, t')
        ∧ net_calls t' = net_calls t ++ replicate remaining r.
Proof.
  revert t. induction remaining as [|k IH]; intros t; simpl.
  - exists t. split; [done|]. by rewrite app_nil_r.
  - unfold try_except, mbind, M_bind, bind, parse.
    pose proof (always (length (net_calls t)) r) as Hraise.
    destruct (feedparser_parse (length (net_calls t)) r) as [f|e]; simpl in *.
    + destruct Hraise as [e He]. rewrite He. unfold emit, log.
      destruct (IH ((t ++ [Net r]) ++
                    [Emit (Status ("Exception: " +:+ str_of_exn e) false (Some true))]))
        as (t' & Hrun & Hcalls).
      exists t'. split; [exact Hrun|].
      rewrite Hcalls, !net_calls_app. simpl. by rewrite app_nil_r, <- app_assoc.
    + unfold emit, log.
      destruct (IH ((t ++ [Net r]) ++
                    [Emit (Status ("Exception: " +:+ str_of_exn e) false (Some true))]))
        as (t' & Hrun & Hcalls).
      exists t'. split; [exact Hrun|].
      rewrite Hcalls, !net_calls_app. simpl. by rewrite app_nil_r, <- app_assoc.
Qed.
End Loop.

End ArxivRetry.

(** C2.  When every attempt of the arXiv search raises (the feed library
    raises, or turning its entries into records raises), the search makes
    exactly [max_retries] downloads, which is 3 for a tool as [__init__]
    builds it, and then returns the error value
    [{"error": "Failed to fetch data after multiple attempts."}]. *)
Theorem arxiv_search_retries_exhausted
    (feedparser_parse : nat → request → Arxiv.feed_outcome)
    (repr : gmap string pyval → string) (self : Arxiv.Tools)
    (search_query id_list start max_results sort_by sort_order : pyval) :
  (∀ n r, Arxiv.attempt_raises (feedparser_parse n r)) →
  ∃ t, run (Arxiv.search feedparser_parse repr self search_query id_list
              start max_results sort_by sort_order)
       = (Ret (Arxiv.Value
                 (error_value "Failed to fetch data after multiple attempts.")), t)
       ∧ length (net_calls t) = Arxiv.max_retries self
       ∧ Arxiv.max_retries Arxiv.init = 3.
Proof.
  intros Hall. unfold run, Arxiv.search, mbind, M_bind, bind, emit, log. simpl.
  match goal with
  | |- context [Arxiv.attempts _ ?k ?r ?t] =>
      destruct (ArxivRetry.attempts_all_raise feedparser_parse Hall k r t)
        as (t' & Hrun & Hcalls)
  end.
  exists t'. split; [exact Hrun|]. split; [|reflexivity].
  rewrite Hcalls. simpl. apply length_replicate.
Qed.

Lemma arxiv_search_retries_exhausted_witness :
  (∀ n r, Arxiv.attempt_raises (Mock.feed_always_raises n r)) ∧
  ∃ t, run (Arxiv.search Mock.feed_always_raises (λ _, "{...}") Arxiv.init
              (PStr "all:electron") PNone PNone PNone PNone PNone)
       = (Ret (Arxiv.Value
                 (error_value "Failed to fetch data after multiple attempts.")), t)
       ∧ length (net_calls t) = Arxiv.max_retries Arxiv.init
       ∧ Arxiv.max_retries Arxiv.init = 3.
Proof.
  split.
  - intros n r. exact I.
  - apply (arxiv_search_retries_exhausted Mock.feed_always_raises (λ _, "{...}")
             Arxiv.init (PStr "all:electron") PNone PNone PNone PNone PNone).
    intros n r. exact I.
Defined.

(** ** arXiv: what a returned record holds *)

Module ArxivRecords.
Import Arxiv ArxivFacts.

Lemma is_not_None_iff (v : pyval) : is_not_None v ↔ v ≠ PNone.
Proof. destruct v; simpl; split; intros; try done. Qed.

Lemma drop_None_lookup (c : gmap string pyval) k v :
  drop_None c !! k = Some v ↔ c !! k = Some v ∧ v ≠ PNone.
Proof.
  unfold drop_None. rewrite map_lookup_filter_Some. simpl.
  by rewrite is_not_None_iff.
Qed.

Lemma candidate_dom entry c t t' :
  candidate entry t = (Ret c, t') → dom c = list_to_set record_keys.
Proof.
  unfold candidate, mbind, M_bind, bind, mret, M_ret, ret. intros H.
  repeat match type of H with
         | context [match ?m t with _ => _ end] =>
             let r := fresh "r" in let u := fresh "u" in
             destruct (m t) as [[r|r] u]; [|discriminate H]
         | context [match ?m ?x with _ => _ end] =>
             let r := fresh "r" in let u := fresh "u" in
             destruct (m x) as [[r|r] u]; [|discriminate H]
         end.
  injection H as Hc _. rewrite <- Hc, !dom_insert_L, dom_empty_L. reflexivity.
Qed.

Lemma record_filtered entry c :
  computes_to entry c → top_level_filtered c (drop_None c).
Proof.
  intros Hc. split.
  - exact (candidate_dom entry c [] [] (Hc [])).
  - intros k v. apply drop_None_lookup.
Qed.

Lemma records_filtered es cs :
  Forall2 computes_to es cs →
  Forall2 top_level_filtered cs (map drop_None cs).
Proof.
  induction 1 as [|e c es cs He Hes IH]; simpl; constructor; [|exact IH].
  by apply (record_filtered e).
Qed.

(** The loop over the entries either raises or appends one filtered record
    per entry. *)
Lemma records_spec es ps t :
  (∃ cs, Forall2 computes_to es cs
         ∧ records es ps t = (Ret (ps ++ map drop_None cs), t))
  ∨ (∃ e, records es ps t = (Raise e, t)).
Proof.
  revert ps. induction es as [|entry es IH]; intros ps; simpl.
  - left. exists []. split; [constructor|]. by rewrite app_nil_r.
  - destruct (candidate_pure entry) as [[c|e] Hc].
    + unfold record_of, mbind, M_bind, bind, mret, M_ret, ret.
      rewrite Hc. destruct (IH (ps ++ [drop_None c])) as [(cs & Hcs & Hrun)|[e Hrun]].
      * left. exists (c :: cs). split; [by constructor|].
        rewrite Hrun. simpl. by rewrite <- app_assoc.
      * right. by exists e.
    + right. exists e.
      unfold record_of, mbind, M_bind, bind. by rewrite Hc.
Qed.

Section Loop.
Variable feedparser_parse : nat → request → feed_outcome.

Lemma attempts_spec remaining r t :
  ∃ res t', attempts feedparser_parse remaining r t = (Ret res, t')
            ∧ from_some_feed feedparser_parse r res.
Proof.
  revert t. induction remaining as [|k IH]; intros t; simpl.
  - exists exhausted, t. split; [done|]. by left.
  - unfold try_except, mbind, M_bind, bind, parse.
    destruct (feedparser_parse (length (net_calls t)) r) as [f|e] eqn:Hf.
    + destruct (records_spec (entries f) [] (t ++ [Net r]))
        as [(cs & Hcs & Hrun)|[e Hrun]]; rewrite Hrun.
      * exists (Papers (map drop_None cs)), (t ++ [Net r]). split; [done|].
        right. by exists (length (net_calls t)), f, cs.
      * unfold emit, log. apply IH.
    + unfold emit, log. apply IH.
Qed.

(** An attempt that raises uses one download and leaves the rest of the
    loop to go on from the next one. *)
Lemma loop_outcome_later r first remaining res downloads :
  attempt_raises (feedparser_parse first r) →
  loop_outcome feedparser_parse r (S first) remaining res downloads →
  loop_outcome feedparser_parse r first (S remaining) res (S downloads).
Proof.
  intros Hfirst [(Hall & -> & ->)|(k & f & cs & Hk & Hall & Hf & Hcs & -> & ->)].
  - left. split; [|done]. intros [|i] Hi.
    + by rewrite Nat.add_0_r.
    + replace (first + S i) with (S first + i) by lia. apply Hall. lia.
  - right. exists (S k), f, cs. split; [lia|]. split; [|split].
    + intros [|i] Hi.
      * by rewrite Nat.add_0_r.
      * replace (first + S i) with (S first + i) by lia. apply Hall. lia.
    + by replace (first + S k) with (S first + k) by lia.
    + done.
Qed.

(** The loop always returns, and what it returns is decided by the
    downloads it made. *)
Lemma attempts_outcome remaining r t :
  ∃ res t' downloads,
    attempts feedparser_parse remaining r t = (Ret res, t')
    ∧ net_calls t' = net_calls t ++ replicate downloads r
    ∧ loop_outcome feedparser_parse r (length (net_calls t)) remaining res
        downloads.
Proof.
  revert t. induction remaining as [|k IH]; intros t; simpl.
  - exists exhausted, t, 0. split; [done|]. split; [by rewrite app_nil_r|].
    left. split; [|done]. intros i Hi. lia.
  - unfold try_except, mbind, M_bind, bind, parse.
    assert (∀ e,
              attempt_raises (feedparser_parse (length (net_calls t)) r) →
              ∃ res t' downloads,
                attempts feedparser_parse k r
                  ((t ++ [Net r]) ++
                   [Emit (Status ("Exception: " +:+ str_of_exn e) false
                            (Some true))])
                = (Ret res, t')
                ∧ net_calls t' = net_calls t ++ replicate downloads r
                ∧ loop_outcome feedparser_parse r (length (net_calls t))
                    (S k) res downloads) as Hretry.
    { intros e Hraises.
      destruct (IH ((t ++ [Net r]) ++
                    [Emit (Status ("Exception: " +:+ str_of_exn e) false
                             (Some true))]))
        as (res & t' & downloads & Hrun & Hcalls & Hout).
      exists res, t', (S downloads). split; [exact Hrun|]. split.
      - rewrite Hcalls, !net_calls_app. simpl.
        by rewrite app_nil_r, <- app_assoc.
      - apply loop_outcome_later; [exact Hraises|].
        rewrite !net_calls_app, !length_app in Hout. simpl in Hout.
        by rewrite Nat.add_0_r, Nat.add_1_r in Hout. }
    destruct (feedparser_parse (length (net_calls t)) r) as [f|e] eqn:Hf.
    + destruct (records_pure (entries f) []) as [[ps|e] Hp].
      * destruct (records_spec (entries f) [] (t ++ [Net r]))
          as [(cs & Hcs & Hrun)|[e Hrun]];
          [|rewrite Hp in Hrun; discriminate Hrun].
        rewrite Hrun. exists (Papers (map drop_None cs)), (t ++ [Net r]), 1.
        split; [done|]. split; [by rewrite net_calls_app|].
        right. exists 0, f, cs. split; [lia|]. split; [intros i Hi; lia|].
        rewrite Nat.add_0_r. done.
      * rewrite Hp. unfold emit, log. apply Hretry. by exists e.
    + unfold emit, log. apply Hretry. exact I.
Qed.
End Loop.

End ArxivRecords.

(** C8.  The arXiv search always returns.  When the first [k] attempts
    raise and the next download, still within [max_retries], hands back a
    feed from which the records can be built, the search returns one record
    per entry of that feed, in order, after [k + 1] downloads; each record
    holds exactly the keys of the entry's candidate record (whose keys are
    the thirteen names id, title, summary, published, updated, authors,
    categories, doi, journal_ref, comment, primary_category, affiliation,
    links) whose value is not [None], with the value the candidate has,
    nested values included.  Only when all [max_retries] attempts raise
    does it return the retries-exhausted error instead. *)
Theorem arxiv_record_drops_top_level_None
    (feedparser_parse : nat → request → Arxiv.feed_outcome)
    (repr : gmap string pyval → string) (self : Arxiv.Tools)
    (search_query id_list start max_results sort_by sort_order : pyval) :
  let r := Request GET (Arxiv.base_url self)
             (Arxiv.search_params self search_query id_list start max_results
                sort_by sort_order) None in
  ∃ res t,
    run (Arxiv.search feedparser_parse repr self search_query id_list
           start max_results sort_by sort_order) = (Ret res, t)
    ∧ ((Arxiv.attempts_raise feedparser_parse r 0 (Arxiv.max_retries self)
        ∧ res = Arxiv.exhausted
        ∧ net_calls t = replicate (Arxiv.max_retries self) r)
       ∨ ∃ k f candidates papers,
           k < Arxiv.max_retries self
           ∧ Arxiv.attempts_raise feedparser_parse r 0 k
           ∧ feedparser_parse k r = Arxiv.Parsed f
           ∧ net_calls t = replicate (S k) r
           ∧ Forall2 Arxiv.computes_to (Arxiv.entries f) candidates
           ∧ res = Arxiv.Papers papers
           ∧ length papers = length (Arxiv.entries f)
           ∧ Forall2 Arxiv.top_level_filtered candidates papers).
Proof.
  cbv zeta. unfold run, Arxiv.search, mbind, M_bind, bind, emit, log. simpl.
  match goal with
  | |- context [Arxiv.attempts _ ?k ?r ?t] =>
      destruct (ArxivRecords.attempts_outcome feedparser_parse k r t)
        as (res & t' & downloads & Hrun & Hcalls & Hout)
  end.
  exists res, t'. split; [exact Hrun|]. simpl in Hcalls, Hout.
  destruct Hout as [(Hall & -> & ->)
                   |(k & f & cs & Hk & Hall & Hf & Hcs & -> & ->)].
  - left. done.
  - right. exists k, f, cs, (map drop_None cs).
    split; [exact Hk|]. split; [exact Hall|]. split; [exact Hf|].
    split; [exact Hcalls|]. split; [exact Hcs|]. split; [reflexivity|].
    split.
    + rewrite length_map. symmetry. by eapply Forall2_length.
    + by apply (ArxivRecords.records_filtered (Arxiv.entries f)).
Qed.

(** A nested [None] (an author without a name) stays in the record, while
    the keys whose value is [None] are gone. *)
Example arxiv_nested_None_kept :
  (run (Arxiv.search (Mock.feed_404 [Mock.entry_with_nameless_author])
          (λ _, "{...}") Arxiv.init (PStr "all:electron") PNone PNone PNone
          PNone PNone)).1
  = Ret (Arxiv.Papers
           [ list_to_map
               [ ("id", PStr "http://arxiv.org/abs/2106.15928v1");
                 ("title", PStr "Thermal conductivity");
                 ("authors", PList [PStr "A. Author"; PNone]) ] ]).
Proof. vm_compute. reflexivity. Qed.

(** ** The httpx operations: a non-2xx response *)

Module HttpxFacts.
Import Contract.

Section Tail.
Variable transport : nat → request → net_outcome.
Variable status_code : Z.
Hypothesis Hfirst : first_answer transport status_code.
Hypothesis Hcode : Httpx.is_success status_code = false.

(** The [try] body, when the answer to this call has a non-2xx status. *)
Lemma try_body_status_error (r : request) (h : exn → M pyval)
    (body : option pyval) (t : trace) :
  transport (length (net_calls t)) r = Response status_code body →
  try_except
    (response ← Httpx.send transport r;
     Httpx.raise_for_status response;;
     Httpx.json response) h t
  = h (HTTPStatusError status_code) (t ++ [Net r]).
Proof.
  intros Hr.
  unfold try_except, mbind, M_bind, bind, Httpx.send, Httpx.raise_for_status.
  rewrite Hr. simpl. by rewrite Hcode.
Qed.

(** The shape shared by the operations: a status event, then the guarded
    request, whose handler reports a status error and returns it. *)
Lemma started_call_one_shot (e : status_event) (r : request)
    (h : exn → M pyval) :
  h (HTTPStatusError status_code)
  = (emit (Status ("HTTP error: " +:+ str_of_Z status_code) true None);;
     mret (error_value ("HTTP error: " +:+ str_of_Z status_code))) →
  one_shot_http_error status_code
    (emit e;;
     try_except
       (response ← Httpx.send transport r;
        Httpx.raise_for_status response;;
        Httpx.json response) h).
Proof.
  intros Hh. destruct (Hfirst r) as [body Hbody].
  exists r. eexists. unfold run.
  unfold mbind at 1, M_bind at 1, bind at 1. unfold emit at 1, log.
  rewrite (try_body_status_error r h body); [|exact Hbody].
  rewrite Hh. split; reflexivity.
Qed.
End Tail.

End HttpxFacts.

Module CongressFacts.
Import Contract.

Section Dates.
Variable transport : nat → request → net_outcome.
Variable api_key : pyval.
Variable strptime_ok : string → bool.

(** A date that passes the check is stored under its name, or left out
    when it is not given. *)
Lemma checked_date_passes name v params t :
  date_passes strptime_ok v →
  Congress.checked_date strptime_ok name v params t
  = (Ret (inl (if truthy v then <[name := v]> params else params)), t).
Proof.
  intros Hv. unfold Congress.checked_date.
  destruct (truthy v) eqn:Htruthy; [|done].
  destruct Hv as [Hv|(s & -> & Hs)]; [congruence|].
  unfold try_except, mbind, M_bind, bind, Congress.strptime.
  by rewrite Hs.
Qed.

(** With both dates passing, a listing is one [call_api]. *)
Lemma bill_listing_passes endpoint msg offset limit fromDateTime toDateTime
    sort t :
  date_passes strptime_ok fromDateTime →
  date_passes strptime_ok toDateTime →
  ∃ params,
    Congress.bill_listing transport api_key strptime_ok endpoint msg offset
      limit fromDateTime toDateTime sort t
    = Congress.call_api transport api_key (Some endpoint) (Some params)
        (Some msg) t.
Proof.
  intros Hfrom Hto. unfold Congress.bill_listing.
  unfold mbind at 1, M_bind at 1, bind at 1.
  rewrite (checked_date_passes _ _ _ _ Hfrom).
  unfold mbind at 1, M_bind at 1, bind at 1.
  rewrite (checked_date_passes _ _ _ _ Hto).
  eexists. reflexivity.
Qed.
End Dates.

End CongressFacts.

(** C3, as amended.  In every operation built on httpx (the Semantic
    Scholar operations, the Congress.gov operations, which all go through
    [call_api], and the ROR operations called with a progress sink and a
    single organization at most), a non-2xx answer to the request ends the
    call after exactly one network call, with the error value
    [{"error": "HTTP error: <status_code>"}]; nothing is retried. *)
Theorem httpx_status_error_is_one_shot
    (transport : nat → request → net_outcome) (status_code : Z) :
  Httpx.is_success status_code = false →
  Contract.first_answer transport status_code →
  Contract.httpx_one_shot transport status_code.
Proof.
  intros Hcode Hfirst. unfold Contract.httpx_one_shot.
  repeat split; intros.
  - by apply HttpxFacts.started_call_one_shot.
  - by apply HttpxFacts.started_call_one_shot.
  - by apply HttpxFacts.started_call_one_shot.
  - by apply HttpxFacts.started_call_one_shot.
  - unfold Contract.one_shot_http_error, run, Congress.get_bills.
    destruct (CongressFacts.bill_listing_passes transport api_key strptime_ok
                "/bill" "bills" offset limit fromDateTime toDateTime sort [])
      as [params ->]; [done..|].
    by apply HttpxFacts.started_call_one_shot.
  - by apply HttpxFacts.started_call_one_shot.
  - destruct o. by apply HttpxFacts.started_call_one_shot.
  - destruct o. unfold Ror.query.
    match goal with H : Ror.several _ = None |- _ => rewrite H end.
    by apply HttpxFacts.started_call_one_shot.
  - destruct o. by apply HttpxFacts.started_call_one_shot.
  - destruct o. by apply HttpxFacts.started_call_one_shot.
Qed.

Lemma httpx_status_error_is_one_shot_witness :
  Httpx.is_success 500 = false
  ∧ Contract.first_answer (Mock.always (Response 500 None)) 500
  ∧ Contract.httpx_one_shot (Mock.always (Response 500 None)) 500.
Proof.
  split; [reflexivity|]. split.
  - intros r. by exists None.
  - apply (httpx_status_error_is_one_shot (Mock.always (Response 500 None)) 500).
    + reflexivity.
    + intros r. by exists None.
Defined.

(** C3, as stated, fails for the arXiv search: it never looks at the status
    of the feed it is handed, so a 404 answer with no entries comes back as
    an empty list of papers after one download, not as an error value that
    carries the status code. *)
Lemma arxiv_status_404_is_not_an_error :
  let call := run (Arxiv.search (Mock.feed_404 []) (λ _, "{...}") Arxiv.init
                     (PStr "all:electron") PNone PNone PNone PNone PNone) in
  call.1 = Ret (Arxiv.Papers [])
  ∧ length (net_calls call.2) = 1
  ∧ call.1 ≠ Ret (Arxiv.Value (error_value ("HTTP error: " +:+ str_of_Z 404))).
Proof. vm_compute. repeat split; congruence. Qed.

(** The arXiv search has no result that carries a status code, whatever the
    feed library does. *)
Lemma arxiv_never_reports_a_status
    (feedparser_parse : nat → request → Arxiv.feed_outcome)
    (repr : gmap string pyval → string) (self : Arxiv.Tools)
    (search_query id_list start max_results sort_by sort_order : pyval)
    (status_code : Z) :
  (run (Arxiv.search feedparser_parse repr self search_query id_list
          start max_results sort_by sort_order)).1
  ≠ Ret (Arxiv.Value (error_value ("HTTP error: " +:+ str_of_Z status_code))).
Proof.
  unfold run, Arxiv.search, mbind, M_bind, bind, emit, log. simpl.
  match goal with
  | |- context [Arxiv.attempts _ ?k ?r ?t] =>
      destruct (ArxivRecords.attempts_spec feedparser_parse k r t)
        as (res & t' & -> & [->|(n & f & cs & _ & _ & ->)])
  end; simpl; intros H; discriminate H.
Qed.

(** ** ROR: the call without a sink, and the multi-organization path *)

Module RorFacts.

Section Calls.
Variable transport : nat → request → net_outcome.

(** [call_api] with [__event_emitter__] left at [None]: the starting event
    is skipped, and both handlers fail on their own status event. *)
Lemma call_api_without_sink params msg t :
  let r := Request GET Ror.BASE_URL (default ∅ params) None in
  Ror.call_api transport params msg None t
  = (match transport (length (net_calls t)) r with
     | Response c body =>
         if Httpx.is_success c then
           match body with
           | Some v => Ret v
           | None => Raise JSONDecodeError
           end
         else Raise NoneType_not_callable
     | NoResponse _ => Raise NoneType_not_callable
     end, t ++ [Net r]).
Proof.
  unfold Ror.call_api, try_except, mbind, M_bind, bind, mret, M_ret, ret,
    Httpx.send, Httpx.raise_for_status, Httpx.json, emit_to, raise.
  destruct (transport _ _) as [c [v|]|m]; simpl; [| |reflexivity];
    destruct (Httpx.is_success c); reflexivity.
Qed.

(** The loop of the multi-organization path sends no status event, and a
    request first when there is an organization. *)
Lemma query_each_silent em orgs params results t :
  emitted (Ror.query_each transport em orgs params results t).2 = emitted t.
Proof.
  revert params results t. induction orgs as [|org orgs IH];
    intros params results t; simpl; [done|].
  unfold mbind, M_bind, bind. rewrite call_api_without_sink. simpl.
  match goal with
  | |- context [match ?o with Response _ _ => _ | NoResponse _ => _ end] =>
      destruct o as [c [v|]|m]; try destruct (Httpx.is_success c)
  end; simpl; rewrite ?IH, ?emitted_app; simpl; by rewrite ?app_nil_r.
Qed.

Lemma several_two a b rest :
  Ror.several (PList (a :: b :: rest)) = Some (a :: b :: rest).
Proof.
  unfold Ror.several. destruct (decide _) as [|Hn]; [done|].
  exfalso. apply Hn. simpl. lia.
Qed.

Lemma query_each_first_request em org orgs params results t :
  ∃ t', (Ror.query_each transport em (org :: orgs) params results t).2
        = t ++ Net (Request GET Ror.BASE_URL (<["query" := org]> params) None)
            :: t'.
Proof.
  assert (∀ orgs params results t,
            ∃ t', (Ror.query_each transport em orgs params results t).2
                  = t ++ t') as Hext.
  { clear. intros orgs. induction orgs as [|org orgs IH];
      intros params results t; simpl.
    - exists []. by rewrite app_nil_r.
    - unfold mbind, M_bind, bind. rewrite call_api_without_sink. simpl.
      match goal with
      | |- context [match ?o with Response _ _ => _ | NoResponse _ => _ end] =>
          destruct o as [c [v|]|m]; try destruct (Httpx.is_success c)
      end; simpl; try (eexists; reflexivity).
      destruct (IH (<["query" := org]> params) (results ++ [v])
                  (t ++ [Net (Request GET Ror.BASE_URL
                                (<["query" := org]> params) None)]))
        as [t' ->].
      eexists. by rewrite <- app_assoc. }
  simpl. unfold mbind, M_bind, bind. rewrite call_api_without_sink. simpl.
  match goal with
  | |- context [match ?o with Response _ _ => _ | NoResponse _ => _ end] =>
      destruct o as [c [v|]|m]; try destruct (Httpx.is_success c)
  end; simpl; try (by exists []).
  destruct (Hext orgs (<["query" := org]> params) (results ++ [v])
              (t ++ [Net (Request GET Ror.BASE_URL
                            (<["query" := org]> params) None)]))
    as [t' ->].
  exists t'. by rewrite <- app_assoc.
Qed.
End Calls.

End RorFacts.

(** C1 at its failing inputs.  A transport failure in
    [fetch_papers_partial_match] ends in [None], which is not an error
    value; and [call_api] of the ROR tool, called without a progress sink,
    raises out of its own error handlers, for a transport failure and for a
    non-2xx answer alike. *)
Theorem error_paths_without_error_value
    (query : pyval) (msg : string) (params : option (gmap string pyval))
    (m : Ror.msg_arg) :
  (run (SemanticScholar.fetch_papers_partial_match
          (Mock.always (NoResponse msg)) query)).1 = Ret PNone
  ∧ (∀ description, PNone ≠ error_value description)
  ∧ (run (Ror.call_api (Mock.always (NoResponse msg)) params m None)).1
    = Raise NoneType_not_callable
  ∧ (run (Ror.call_api (Mock.always (Response 500 None)) params m None)).1
    = Raise NoneType_not_callable.
Proof.
  split; [reflexivity|]. split; [intros d H; discriminate H|].
  unfold run. by rewrite !RorFacts.call_api_without_sink.
Qed.

(** The sibling [fetch_paper] does return the error value on the same
    transport failure. *)
Lemma fetch_paper_transport_error
    (query limit fields publicationTypes openAccessPdf minCitationCount
     publicationDateOrYear year venue fieldsOfStudy offset : pyval)
    (msg : string) :
  (run (SemanticScholar.fetch_paper (Mock.always (NoResponse msg)) query limit
          fields publicationTypes openAccessPdf minCitationCount
          publicationDateOrYear year venue fieldsOfStudy offset)).1
  = Ret (error_value ("Request error: " +:+ msg)).
Proof. reflexivity. Qed.

(** C9 at its failing input.  With a sink supplied and two or more
    organizations, [query] starts with a network call and sends no status
    event at all, whatever the remote side answers. *)
Theorem ror_multi_query_starts_without_status
    (transport : nat → request → net_outcome) (a b : pyval) (rest : list pyval)
    (status types country_code country_name continent_code continent_name : pyval)
    (o : sink) :
  let call := run (Ror.query transport (PList (a :: b :: rest)) status types
                     country_code country_name continent_code continent_name
                     (Some o)) in
  emitted call.2 = [] ∧ ∃ r t, call.2 = Net r :: t.
Proof.
  cbv zeta. unfold run, Ror.query. rewrite RorFacts.several_two.
  unfold mbind, M_bind, bind.
  pose proof (RorFacts.query_each_silent transport (Some o) (a :: b :: rest)
                (Ror.query_params (PList (a :: b :: rest)) status types
                   country_code country_name continent_code continent_name)
                [] []) as Hsilent.
  destruct (RorFacts.query_each_first_request transport (Some o) a (b :: rest)
              (Ror.query_params (PList (a :: b :: rest)) status types
                 country_code country_name continent_code continent_name)
              [] []) as [t' Hfirst].
  destruct (Ror.query_each _ _ _ _ _ _) as [[rs|e] t];
    cbn [fst snd ret] in *; subst t; split; eauto.
Qed.

(** The single-organization path, by contrast, starts with its status
    event. *)
Lemma ror_single_query_starts_with_status
    (transport : nat → request → net_outcome)
    (organization status types country_code country_name continent_code
     continent_name : pyval) (o : sink) :
  Ror.several organization = None →
  ∃ t, (run (Ror.query transport organization status types country_code
               country_name continent_code continent_name (Some o))).2
       = Emit (Status "Executing basic ROR query..." false (Some true)) :: t.
Proof.
  intros Hone. unfold run, Ror.query. rewrite Hone. destruct o.
  unfold Ror.call_api, mbind, M_bind, bind, try_except, Httpx.send. simpl.
  destruct (transport 0 _) as [c body|m]; simpl.
  - unfold Httpx.raise_for_status, Httpx.json. simpl.
    destruct (Httpx.is_success c); simpl; [destruct body|]; simpl; eauto.
  - eauto.
Qed.

(** C10 at its failing input.  With two or more organizations, a non-2xx
    answer to the first sub-request makes [query] raise after that one
    call: no mapping with a ['results'] list is returned. *)
Theorem ror_multi_query_raises_on_status_error
    (a b : pyval) (rest : list pyval)
    (status types country_code country_name continent_code continent_name : pyval)
    (o : sink) :
  let call := run (Ror.query (Mock.always (Response 500 None))
                     (PList (a :: b :: rest)) status types country_code
                     country_name continent_code continent_name (Some o)) in
  call.1 = Raise NoneType_not_callable ∧ length (net_calls call.2) = 1.
Proof.
  cbv zeta. unfold run, Ror.query. rewrite RorFacts.several_two.
  unfold mbind, M_bind, bind. cbn [Ror.query_each].
  unfold mbind, M_bind, bind. rewrite RorFacts.call_api_without_sink.
  split; reflexivity.
Qed.

(** What the multi-organization path does when every sub-request succeeds:
    one result per organization, in order, the sub-requests differing in
    their [query] parameter only. *)
Module RorMulti.
Import Contract.

Section Calls.
Variable transport : nat → request → net_outcome.
Hypothesis Hok : all_answers_succeed transport.

Lemma query_each_all_succeed em orgs params results t :
  ∃ rs t',
    Ror.query_each transport em orgs params results t = (Ret (results ++ rs), t')
    ∧ length rs = length orgs
    ∧ net_calls t' = net_calls t ++ map (sub_request params) orgs.
Proof.
  revert params results t. induction orgs as [|org orgs IH];
    intros params results t; simpl.
  - exists [], t. by rewrite !app_nil_r.
  - unfold mbind, M_bind, bind. rewrite RorFacts.call_api_without_sink. simpl.
    destruct (Hok (length (net_calls t))
                (Request GET Ror.BASE_URL (<["query" := org]> params) None))
      as (c & v & -> & ->).
    destruct (IH (<["query" := org]> params) (results ++ [v])
                (t ++ [Net (Request GET Ror.BASE_URL
                              (<["query" := org]> params) None)]))
      as (rs & t' & -> & Hlen & Hcalls).
    exists (v :: rs), t'. split; [by rewrite <- app_assoc|].
    split; [simpl; by rewrite Hlen|].
    rewrite Hcalls, net_calls_app. simpl. rewrite <- app_assoc. simpl.
    do 2 f_equal. apply map_ext. intros org'. unfold sub_request.
    by rewrite insert_insert_eq.
Qed.

Lemma query_all_succeed a b rest status types country_code country_name
    continent_code continent_name em :
  let organizations := a :: b :: rest in
  let params := Ror.query_params (PList organizations) status types
                  country_code country_name continent_code continent_name in
  ∃ rs t,
    run (Ror.query transport (PList organizations) status types country_code
           country_name continent_code continent_name em)
    = (Ret (PDict [("results", PList rs)]), t)
    ∧ length rs = length organizations
    ∧ net_calls t = map (sub_request params) organizations
    ∧ ∀ org, rparams (sub_request params org) !! "query" = Some org
             ∧ rparams (sub_request params org) !! "filter" = params !! "filter".
Proof.
  cbv zeta. unfold run, Ror.query. rewrite RorFacts.several_two.
  unfold mbind, M_bind, bind.
  destruct (query_each_all_succeed em (a :: b :: rest)
              (Ror.query_params (PList (a :: b :: rest)) status types
                 country_code country_name continent_code continent_name)
              [] []) as (rs & t & -> & Hlen & Hcalls).
  exists rs, t. repeat split; [done|done|..].
  - simpl. by rewrite lookup_insert_eq.
  - simpl. by rewrite lookup_insert_ne.
Qed.
End Calls.

End RorMulti.

(** ** Congress.gov: a date that does not parse *)

Module CongressDates.
Import Contract.

Section Listing.
Variable transport : nat → request → net_outcome.
Variable api_key : pyval.
Variable strptime_ok : string → bool.

Lemma checked_date_fails name v params t :
  date_fails strptime_ok v →
  Congress.checked_date strptime_ok name v params t
  = (Ret (inr PNone),
     t ++ [Stdout ("Incorrect " +:+ name +:+
                  " format, should be YYYY-MM-DDT00:00:00Z")]).
Proof.
  intros (s & -> & Htruthy & Hs). unfold Congress.checked_date.
  rewrite Htruthy.
  unfold try_except, mbind, M_bind, bind, Congress.strptime.
  by rewrite Hs.
Qed.

Lemma bill_listing_rejected endpoint msg offset limit fromDateTime
    toDateTime sort name :
  refused strptime_ok fromDateTime toDateTime name →
  returns_None_offline name
    (Congress.bill_listing transport api_key strptime_ok endpoint msg offset
       limit fromDateTime toDateTime sort).
Proof.
  intros [[-> Hfrom]|(-> & Hfrom & Hto)]; unfold returns_None_offline, run,
    Congress.bill_listing.
  - unfold mbind at 1, M_bind at 1, bind at 1.
    rewrite (checked_date_fails _ _ _ _ Hfrom). by eexists.
  - unfold mbind at 1, M_bind at 1, bind at 1.
    rewrite (CongressFacts.checked_date_passes _ _ _ _ _ Hfrom).
    unfold mbind at 1, M_bind at 1, bind at 1.
    rewrite (checked_date_fails _ _ _ _ Hto). by eexists.
Qed.

Lemma rejected_is_refused fromDateTime toDateTime :
  rejected_dates strptime_ok fromDateTime toDateTime →
  ∃ name, refused strptime_ok fromDateTime toDateTime name.
Proof.
  intros [Hfrom|[Hfrom Hto]].
  - exists "fromDateTime". by left.
  - exists "toDateTime". by right.
Qed.
End Listing.

End CongressDates.

(** C6, as amended.  When [fromDateTime] or [toDateTime] is given and does
    not parse in the format [%Y-%m-%dT%H:%M:%SZ], each Congress bill listing
    ([get_bills], [get_bills_by_congress], [get_bills_by_congress_billtype])
    prints a line that names the argument it refuses ([fromDateTime] when
    that one fails, [toDateTime] when [fromDateTime] passes) and returns
    [None], as its docstring says; it makes no network call and sends no
    status event. *)
Theorem congress_bad_date_returns_None
    (transport : nat → request → net_outcome) (api_key : pyval)
    (strptime_ok : string → bool)
    (congress bill_type offset limit fromDateTime toDateTime sort : pyval) :
  Contract.rejected_dates strptime_ok fromDateTime toDateTime →
  ∃ name,
    Contract.refused strptime_ok fromDateTime toDateTime name
    ∧ Contract.returns_None_offline name
        (Congress.get_bills transport api_key strptime_ok offset limit
           fromDateTime toDateTime sort)
    ∧ Contract.returns_None_offline name
        (Congress.get_bills_by_congress transport api_key strptime_ok congress
           offset limit fromDateTime toDateTime sort)
    ∧ Contract.returns_None_offline name
        (Congress.get_bills_by_congress_billtype transport api_key strptime_ok
           congress bill_type offset limit fromDateTime toDateTime sort).
Proof.
  intros Hbad.
  destruct (CongressDates.rejected_is_refused strptime_ok _ _ Hbad)
    as [name Hname].
  exists name. split; [exact Hname|].
  repeat split; by apply CongressDates.bill_listing_rejected.
Qed.

Lemma congress_bad_date_returns_None_witness :
  Contract.rejected_dates Datetime.strptime_Ymd_HMS_Z
    (PStr "2024-01-01T00:00:00Z") (PStr "2024-02-30T00:00:00Z")
  ∧ Contract.returns_None_offline "toDateTime"
      (Congress.get_bills (Mock.always (Response 200 (Some (PDict []))))
         (PStr "key") Datetime.strptime_Ymd_HMS_Z (PInt 0) (PInt 10)
         (PStr "2024-01-01T00:00:00Z") (PStr "2024-02-30T00:00:00Z") PNone).
Proof.
  assert (Contract.rejected_dates Datetime.strptime_Ymd_HMS_Z
            (PStr "2024-01-01T00:00:00Z") (PStr "2024-02-30T00:00:00Z")) as H.
  { right. split.
    - right. exists "2024-01-01T00:00:00Z". split; reflexivity.
    - exists "2024-02-30T00:00:00Z". repeat split; reflexivity. }
  split; [exact H|].
  destruct (congress_bad_date_returns_None
              (Mock.always (Response 200 (Some (PDict []))))
              (PStr "key") Datetime.strptime_Ymd_HMS_Z (PInt 118)
              (PStr "hr") (PInt 0) (PInt 10)
              (PStr "2024-01-01T00:00:00Z") (PStr "2024-02-30T00:00:00Z")
              PNone H) as (name & Hname & Hbills & _).
  destruct Hname as [[_ (s & Hs & _ & Hrefused)]|(-> & _ & _)].
  - injection Hs as <-. vm_compute in Hrefused. discriminate Hrefused.
  - exact Hbills.
Defined.

(** C6, as stated, fails: [get_bills] with a [fromDateTime] that does not
    parse returns a bare [None], which is no error value. *)
Lemma congress_get_bills_bad_date_is_None :
  let call := run (Congress.get_bills
                     (Mock.always (Response 200 (Some (PDict []))))
                     (PStr "key") Datetime.strptime_Ymd_HMS_Z (PInt 0)
                     (PInt 10) (PStr "last week") PNone PNone) in
  call.1 = Ret PNone
  ∧ (∀ description, call.1 ≠ Ret (error_value description))
  ∧ net_calls call.2 = [].
Proof. vm_compute. repeat split; intros; congruence. Qed.

(** ** Yahoo Finance: the history window *)

(** Case analysis on what the libraries answer along one sub-call. *)
Ltac library_cases yf :=
  repeat (first
            [ match goal with
              | |- context [yf ?n ?a ?b ?c] => destruct (yf n a b c)
              end
            | match goal with
              | |- context [YFinance.through_to_json ?p ?x] =>
                  destruct (YFinance.through_to_json p x)
              end
            | match goal with
              | |- context [YFinance.make_json_serializable ?p ?x] =>
                  destruct (YFinance.make_json_serializable p x)
              end
            | match goal with
              | |- context [truthy ?x] => destruct (truthy x)
              end
            | match goal with
              | |- context [String.eqb ?x "main"] =>
                  destruct (String.eqb x "main")
              end
            | match goal with
              | |- context [if ?b then _ else _] => destruct b
              end
            | match goal with
              | |- context [match ?l with [] => _ | _ :: _ => _ end] =>
                  destruct l
              end ]; simpl).

Module YFinanceWindow.
Import Contract.

Section Window.
Variable user_valves : YFinance.UserValves.
Variable pd : YFinance.Pandas.
Variable yf : nat → string → string → gmap string pyval → YFinance.lib_outcome.
Variable days_ago : nat → string.

Lemma history_window start_date end_date period interval :
  window (YFinance.history_kwargs user_valves days_ago start_date end_date
            period interval)
  = if truthy start_date && truthy end_date
    then (Some start_date, Some end_date, None)
    else if truthy start_date && truthy period
    then (Some start_date, None, Some period)
    else if truthy end_date && truthy period
    then (None, Some end_date, Some period)
    else if truthy period
    then (None, None, Some period)
    else (Some (PStr (days_ago 2)), Some (PStr (days_ago 1)), None).
Proof.
  unfold window, YFinance.history_kwargs.
  destruct (truthy start_date), (truthy end_date), (truthy period); simpl;
    repeat f_equal; by simplify_map_eq.
Qed.

(** A history fetch always reaches the library, with those arguments. *)
Lemma history_reaches_library ticker start_date end_date period interval
    extra :
  ∃ e t,
    (run (YFinance.fetch_single_ticker user_valves pd yf days_ago ticker
            start_date end_date "history" period interval extra)).2
    = Emit e
      :: Lib ticker "history"
           (YFinance.history_kwargs user_valves days_ago start_date end_date
              period interval)
      :: t.
Proof.
  unfold run, YFinance.fetch_single_ticker, YFinance.fetch_body.
  generalize (YFinance.history_kwargs user_valves days_ago start_date
                end_date period interval). intros kwargs.
  unfold try_except, mbind, M_bind, bind, YFinance.access, YFinance.lift,
    emit, log.
  simpl.
  destruct (yf 0 ticker "history" kwargs); simpl;
    try (destruct extra; simpl);
    library_cases yf;
    eexists _, _; reflexivity.
Qed.
End Window.

End YFinanceWindow.

(** C7, as amended.  For a history fetch the adapter picks the window in a
    fixed order: [start_date] with [end_date]; else [start_date] with
    [period]; else [end_date] with [period]; else [period] alone; else the
    two days before today.  All three supplied is the first case: [period]
    is dropped and nothing is refused, and the library is called with the
    window chosen. *)
Theorem history_window_priority
    (user_valves : YFinance.UserValves) (pd : YFinance.Pandas)
    (yf : nat → string → string → gmap string pyval → YFinance.lib_outcome)
    (days_ago : nat → string)
    (ticker : string) (start_date end_date period interval extra : pyval) :
  let kwargs := YFinance.history_kwargs user_valves days_ago start_date
                  end_date period interval in
  Contract.window kwargs
  = (if truthy start_date && truthy end_date
     then (Some start_date, Some end_date, None)
     else if truthy start_date && truthy period
     then (Some start_date, None, Some period)
     else if truthy end_date && truthy period
     then (None, Some end_date, Some period)
     else if truthy period
     then (None, None, Some period)
     else (Some (PStr (days_ago 2)), Some (PStr (days_ago 1)), None))
  ∧ ∃ e t,
      (run (YFinance.fetch_single_ticker user_valves pd yf days_ago ticker
              start_date end_date "history" period interval extra)).2
      = Emit e :: Lib ticker "history" kwargs :: t.
Proof.
  split.
  - apply YFinanceWindow.history_window.
  - apply YFinanceWindow.history_reaches_library.
Qed.

(** C7, as stated, fails: with [start_date], [end_date] and [period] all
    supplied, the fetch is not refused; it goes to the library with the two
    dates and without the period, and its data is returned. *)
Lemma all_three_window_arguments_are_resolved :
  let call := run (YFinance.fetch_single_ticker YFinance.default_valves Mock.pandas_one_row
                     Mock.yf_one_row Mock.days_ago "AAA"
                     (PStr "2024-01-01") (PStr "2024-02-01") "history"
                     (PStr "1mo") (PStr "1d") PNone) in
  call.1 = Ret {[ "AAA" := PList [PDict [("Close", PInt 101)]] ]}
  ∧ (∀ description, call.1 ≠ Ret {[ "AAA" := error_value description ]})
  ∧ ∃ kwargs, lib_calls call.2 = [("AAA", "history")]
              ∧ call.2 !! 1 = Some (Lib "AAA" "history" kwargs)
              ∧ Contract.window kwargs
                = (Some (PStr "2024-01-01"), Some (PStr "2024-02-01"), None).
Proof.
  cbv zeta. split; [vm_compute; reflexivity|]. split.
  - intros d H. vm_compute in H. discriminate H.
  - eexists. split; [vm_compute; reflexivity|].
    split; [vm_compute; reflexivity|]. vm_compute. reflexivity.
Qed.

(** ** Yahoo Finance: the fan-out over the tickers *)

Module YFinanceFanOut.
Import Contract.

Section FanOut.
Variable user_valves : YFinance.UserValves.
Variable pd : YFinance.Pandas.
Variable yf : nat → string → string → gmap string pyval → YFinance.lib_outcome.
Variable days_ago : nat → string.
Variables start_date end_date : pyval.
Variable data_type : string.
Variables period interval extra : pyval.

#[local] Abbreviation body :=
  (SubCall.body user_valves pd yf days_ago start_date end_date data_type period
     interval extra).
#[local] Abbreviation single :=
  (SubCall.single user_valves pd yf days_ago start_date end_date data_type
     period interval extra).
#[local] Abbreviation start_event := (SubCall.start_event data_type).
#[local] Abbreviation stored_value := SubCall.stored_value.

Lemma known_not_history :
  known_type data_type → String.eqb data_type "history" = false →
  bool_decide (data_type ∈ YFinance.plain_types) = true.
Proof.
  intros [->|Hin] Hne; [discriminate Hne|]. by apply bool_decide_eq_true.
Qed.

(** The body only extends the trace, and the first thing it does for a
    known data type is to ask the library. *)
Lemma body_trace ticker t1 :
  ∃ ext,
    (body ticker t1).2 = t1 ++ ext
    ∧ (known_type data_type →
       ∃ kwargs suffix, ext = Lib ticker data_type kwargs :: suffix).
Proof.
  unfold SubCall.body, YFinance.fetch_body.
  unfold mbind, M_bind, bind, YFinance.access, YFinance.lift, mret, M_ret,
    ret.
  destruct (String.eqb data_type "history") eqn:Hhist;
    [apply String.eqb_eq in Hhist; subst data_type
    |destruct (bool_decide (data_type ∈ YFinance.plain_types)) eqn:Hplain].
  3: { exists []. simpl. split; [by rewrite app_nil_r|].
       intros Hknown. rewrite (known_not_history Hknown Hhist) in Hplain.
       discriminate Hplain. }
  all: match goal with
       | |- context [yf ?n ?a ?b ?c] => destruct (yf n a b c)
       end; simpl; try (destruct extra; simpl);
    library_cases yf;
    eexists; (split; [rewrite <- ?app_assoc; reflexivity|]);
    intros _; eexists _, _; reflexivity.
Qed.

(** A library that raises for the ticker makes the body raise. *)
Lemma body_raises ticker e t1 :
  raises_for yf ticker e → known_type data_type →
  (body ticker t1).1 = Raise e.
Proof.
  intros Hraises Hknown. unfold SubCall.body, YFinance.fetch_body.
  unfold mbind, M_bind, bind, YFinance.access.
  destruct (String.eqb data_type "history") eqn:Hhist.
  - by rewrite Hraises.
  - rewrite (known_not_history Hknown Hhist). by rewrite Hraises.
Qed.

(** A library with a history for the ticker, and no [extra] asked for. *)
Lemma body_delivers ticker d t1 :
  delivers_history yf ticker d → data_type = "history" →
  truthy extra = false →
  stored_value (body ticker t1).1
  = or_error (YFinance.make_json_serializable pd d).
Proof.
  intros Hd Hhist Hextra. unfold SubCall.body, YFinance.fetch_body. subst data_type.
  rewrite String.eqb_refl.
  unfold mbind, M_bind, bind, YFinance.access, YFinance.lift.
  rewrite Hd. unfold mret, M_ret, ret. simpl.
  destruct extra; try rewrite Hextra; try discriminate Hextra; simpl;
    destruct (YFinance.make_json_serializable pd d); reflexivity.
Qed.

(** The sub-call, by its body: it always returns one entry under its
    ticker. *)
Lemma single_by_body ticker t0 :
  let t1 := t0 ++ [Emit (start_event ticker)] in
  ∃ suffix,
    single ticker t0
    = (Ret {[ ticker := stored_value (body ticker t1).1 ]},
       (body ticker t1).2 ++ suffix).
Proof.
  cbv zeta. unfold SubCall.single, YFinance.fetch_single_ticker.
  unfold try_except, mbind at 1, M_bind at 1, bind at 1, emit at 1, log.
  unfold mbind at 1, M_bind at 1, bind at 1. fold (body ticker).
  unfold SubCall.start_event.
  destruct (body ticker _) as [[[data|early]|e] t2]; simpl.
  - unfold mbind, M_bind, bind, emit, log. eexists. reflexivity.
  - exists []. by rewrite app_nil_r.
  - unfold mbind, M_bind, bind, emit, log. eexists. reflexivity.
Qed.

Lemma attempted_mono ticker t ext :
  attempted data_type ticker t → attempted data_type ticker (t ++ ext).
Proof.
  intros [Hstart Hlib]. split.
  - apply elem_of_app. by left.
  - intros Hknown. destruct (Hlib Hknown) as [kwargs Hin].
    exists kwargs. apply elem_of_app. by left.
Qed.

Lemma single_spec ticker t0 :
  ∃ v ext,
    single ticker t0 = (Ret {[ ticker := v ]}, t0 ++ ext)
    ∧ stored pd yf data_type extra ticker v
    ∧ attempted data_type ticker (t0 ++ ext).
Proof.
  destruct (single_by_body ticker t0) as [suffix Hsingle]. cbv zeta in Hsingle.
  destruct (body_trace ticker (t0 ++ [Emit (start_event ticker)]))
    as (ext & Hext & Hlib).
  exists (stored_value (body ticker (t0 ++ [Emit (start_event ticker)])).1),
    (Emit (start_event ticker) :: ext ++ suffix).
  split; [|split].
  - rewrite Hsingle, Hext. f_equal. by rewrite <- !app_assoc.
  - split.
    + intros e He Hknown. by rewrite (body_raises _ _ _ He Hknown).
    + intros d Hd Hhist Hextra. exact (body_delivers _ _ _ Hd Hhist Hextra).
  - split.
    + apply elem_of_app. right. apply list_elem_of_here.
    + intros Hknown. destruct (Hlib Hknown) as (kwargs & s' & ->).
      exists kwargs. apply elem_of_app. right.
      apply list_elem_of_further, list_elem_of_here.
Qed.

(** The sub-calls in turn: all of them run, each with its own entry. *)
Lemma gather_spec tickers t0 :
  ∃ rs ext,
    YFinance.gather (map single tickers) t0 = (Ret rs, t0 ++ ext)
    ∧ Forall2 (λ ticker r, ∃ v, r = {[ ticker := v ]}
                                ∧ stored pd yf data_type extra ticker v)
        tickers rs
    ∧ ∀ ticker, ticker ∈ tickers → attempted data_type ticker (t0 ++ ext).
Proof.
  revert t0. induction tickers as [|ticker tickers IH]; intros t0; simpl.
  - exists [], []. rewrite app_nil_r. split; [done|].
    split; [constructor|]. intros ticker Hin. by apply elem_of_nil in Hin.
  - destruct (single_spec ticker t0) as (v & ext1 & Hsingle & Hstored & Hatt).
    destruct (IH (t0 ++ ext1)) as (rs & ext2 & Hrest & Hall & Hatts).
    exists ({[ ticker := v ]} :: rs), (ext1 ++ ext2).
    unfold mbind, M_bind, bind. fold (single ticker).
    rewrite Hsingle.
    change (YFinance.gather (map single tickers) (t0 ++ ext1))
      with (YFinance.gather (map single tickers) (t0 ++ ext1)).
    rewrite Hrest. rewrite app_assoc. split; [done|]. split.
    + constructor; [by exists v|exact Hall].
    + intros tk Hin. apply elem_of_cons in Hin as [->|Hin].
      * by apply attempted_mono.
      * by apply Hatts.
Qed.

(** Folding the entries into one mapping keeps what the sub-calls
    stored. *)
Lemma combine_spec (P : string → pyval → Prop) tickers rs acc :
  Forall2 (λ ticker r, ∃ v, r = {[ ticker := v ]} ∧ P ticker v) tickers rs →
  (∀ k v, acc !! k = Some v → P k v) →
  dom (foldl update acc rs) = dom acc ∪ list_to_set tickers
  ∧ ∀ k v, foldl update acc rs !! k = Some v → P k v.
Proof.
  intros Hall. revert acc.
  induction Hall as [|ticker r tickers rs (v & -> & Hv) Hall IH];
    intros acc Hacc; simpl.
  - split; [by rewrite (right_id_L ∅ (∪))|exact Hacc].
  - destruct (IH (update acc {[ ticker := v ]})) as [Hdom Hlook].
    + intros k w. unfold update. rewrite <- insert_union_singleton_l.
      rewrite lookup_insert. case_decide; [|by apply Hacc].
      intros Heq. injection Heq as <-. by subst k.
    + split; [|exact Hlook]. rewrite Hdom. unfold update.
      rewrite dom_union_L, dom_singleton_L.
      rewrite (comm_L (∪) {[ticker]} (dom acc)).
      by rewrite <- (assoc_L (∪)).
Qed.

End FanOut.
End YFinanceFanOut.

(** C5, at an input where the code departs from it.  [extra="history"]
    names a method of the ticker object: [getattr] hands back the bound
    method, which has no [to_json] and which [make_json_serializable]
    leaves as it is, so each sub-call stores it beside the history and
    reports success.  After the closing event [json.dumps], which is
    outside every handler, raises [TypeError]: nothing is returned for any
    of the tickers. *)
Theorem yfinance_method_as_extra_raises :
  let fetch := YFinance.fetch_yfinance_data YFinance.default_valves
                 Mock.pandas_one_row Mock.yf_history_is_a_method
                 Mock.days_ago in
  let single := YFinance.fetch_single_ticker YFinance.default_valves
                  Mock.pandas_one_row Mock.yf_history_is_a_method
                  Mock.days_ago in
  let call := run (fetch ["AAA"; "BBB"] PNone PNone "history" (PStr "1mo")
                     (PStr "1d") (PStr "history")) in
  call.1 = Raise (TypeError "Object of type method is not JSON serializable")
  ∧ map description (emitted call.2)
    = [ "Fetching history for 2 tickers..."; "Fetching AAA (history)...";
        "Fetched AAA successfully"; "Fetching BBB (history)...";
        "Fetched BBB successfully"; "Stock data retrieved successfully" ]
  ∧ (run (single "AAA" PNone PNone "history" (PStr "1mo") (PStr "1d")
            (PStr "history"))).1
    = Ret {[ "AAA" := PDict [ ("main", PList [PDict [("Close", PInt 101)]]);
                              ("history", PObject "method") ] ]}
  ∧ (run (fetch ["AAA"; "BBB"] PNone PNone "history" (PStr "1mo")
            (PStr "1d") PNone)).1
    = Ret (list_to_map [ ("AAA", PList [PDict [("Close", PInt 101)]]);
                         ("BBB", PList [PDict [("Close", PInt 101)]]) ]).
Proof. cbv zeta. repeat split; vm_compute; reflexivity. Qed.

(** The fan-out over the tickers, for every call.  Every sub-call is made:
    its starting event is sent and, for a known data type, the library is
    asked.  The mapping that is handed to [json.dumps] has exactly the
    requested tickers as its keys (one entry for each ticker of a list
    without repetition); a ticker for which the library raises has
    [{"error": <message>}] there, and a ticker whose history the library
    delivers has that history, whatever happens to the other tickers.  The
    call returns the rendering of that mapping when the encoder knows every
    object in it, and raises [TypeError] naming the class of the first one
    that it does not know. *)
Theorem yfinance_fan_out
    (user_valves : YFinance.UserValves) (pd : YFinance.Pandas)
    (yf : nat → string → string → gmap string pyval → YFinance.lib_outcome)
    (days_ago : nat → string) (tickers : list string)
    (start_date end_date : pyval) (data_type : string)
    (period interval extra : pyval) :
  ∃ combined t,
    run (YFinance.fetch_yfinance_data user_valves pd yf days_ago tickers
           start_date end_date data_type period interval extra)
    = (match YFinance.first_unknown_to_json tickers combined with
       | Some class_name =>
           Raise (TypeError ("Object of type " +:+ class_name
                             +:+ " is not JSON serializable"))
       | None => Ret combined
       end, t)
    ∧ dom combined = list_to_set tickers
    ∧ (NoDup tickers → size combined = length tickers)
    ∧ ∀ ticker, ticker ∈ tickers →
        Contract.attempted data_type ticker t
        ∧ ∃ v, combined !! ticker = Some v
               ∧ Contract.stored pd yf data_type extra ticker v.
Proof.
  unfold run, YFinance.fetch_yfinance_data.
  unfold mbind at 1, M_bind at 1, bind at 1, emit at 1, log.
  unfold mbind at 1, M_bind at 1, bind at 1.
  match goal with
  | |- context [YFinance.gather _ ?t0] =>
      destruct (YFinanceFanOut.gather_spec user_valves pd yf days_ago
                  start_date end_date data_type period interval extra
                  tickers t0)
        as (rs & ext & Hgather & Hall & Hatt)
  end.
  unfold SubCall.single in Hgather. rewrite Hgather.
  unfold mbind, M_bind, bind, emit, log, mret, M_ret, ret.
  destruct (YFinanceFanOut.combine_spec
              (Contract.stored pd yf data_type extra) tickers rs ∅ Hall)
    as [Hdom Hlook]; [intros k v Hk; by rewrite lookup_empty in Hk|].
  rewrite dom_empty_L, (left_id_L ∅ (∪)) in Hdom.
  exists (YFinance.combine rs). eexists. split.
  - unfold YFinance.json_dumps, raise, ret.
    destruct (YFinance.first_unknown_to_json tickers (YFinance.combine rs));
      reflexivity.
  - unfold YFinance.combine.
    split; [exact Hdom|]. split.
    + intros Hnodup. by rewrite <- size_dom, Hdom, size_list_to_set.
    + intros ticker Hin. split.
      * by apply YFinanceFanOut.attempted_mono, Hatt.
      * assert (ticker ∈ dom (foldl update ∅ rs)) as Hd.
        { rewrite Hdom. by apply elem_of_list_to_set. }
        apply elem_of_dom in Hd as [v Hv]. exists v. split; [exact Hv|].
        by apply Hlook in Hv.
Qed.

(** A run from the specification: ["AAA"] fails in the library, ["BBB"]
    has data; both keys are there. *)
Example yfinance_AAA_fails_BBB_succeeds :
  let yf := λ (_ : nat) (ticker _ : string) (_ : gmap string pyval),
              if String.eqb ticker "AAA"
              then YFinance.LibRaises (OtherException "No data found")
              else YFinance.LibValue Mock.one_row in
  (run (YFinance.fetch_yfinance_data YFinance.default_valves Mock.pandas_one_row yf Mock.days_ago
          ["AAA"; "BBB"] PNone PNone "history" (PStr "1mo") (PStr "1d") PNone)).1
  = Ret (list_to_map
           [ ("AAA", error_value "No data found");
             ("BBB", PList [PDict [("Close", PInt 101)]]) ]).
Proof. vm_compute. reflexivity. Qed.

(** ** Outgoing parameters *)

Module ParamFacts.
Import Contract.



Section Requests.
Variable transport : nat → request → net_outcome.

(** The try block makes one request, whatever comes of it. *)
Lemma guarded_request (r : request) (h : exn → M pyval) (t : trace) :
  (∀ e t', net_calls (h e t').2 = net_calls t') →
  net_calls
    (try_except
       (response ← Httpx.send transport r;
        Httpx.raise_for_status response;;
        Httpx.json response) h t).2
  = net_calls t ++ [r].
Proof.
  intros Hh.
  unfold try_except, mbind, M_bind, bind, Httpx.send,
    Httpx.raise_for_status, Httpx.json.
  destruct (transport _ _) as [c body|m]; simpl.
  - destruct (Httpx.is_success c); simpl.
    + destruct body; simpl; rewrite ?Hh, net_calls_app; done.
    + by rewrite Hh, net_calls_app.
  - by rewrite Hh, net_calls_app.
Qed.


Lemma ror_single_request organization status types country_code country_name
    continent_code continent_name o :
  Ror.several organization = None →
  net_calls
    (run (Ror.query transport organization status types country_code
            country_name continent_code continent_name (Some o))).2
  = [ Request GET Ror.BASE_URL
        (Ror.query_params organization status types country_code
           country_name continent_code continent_name) None ].
Proof.
  intros Hone. unfold run, Ror.query. rewrite Hone. destruct o.
  unfold Ror.call_api.
  unfold mbind at 1, M_bind at 1, bind at 1, emit_to at 1, emit at 1, log.
  rewrite guarded_request; [done|].
  intros e t'. destruct e; try done;
    unfold mbind, M_bind, bind, emit_to, emit, log; simpl;
    by rewrite net_calls_app, app_nil_r.
Qed.
End Requests.

End ParamFacts.

Module ParamFactsMore.
Import Contract.

Section ArxivRequests.
Variable feedparser_parse : nat → request → Arxiv.feed_outcome.

(** Every download of the retry loop is for the same request. *)
Lemma attempts_requests remaining r t :
  ∃ j, net_calls (Arxiv.attempts feedparser_parse remaining r t).2
       = net_calls t ++ replicate j r.
Proof.
  revert t. induction remaining as [|k IH]; intros t; simpl.
  - exists 0. by rewrite app_nil_r.
  - unfold try_except, mbind, M_bind, bind, Arxiv.parse.
    destruct (feedparser_parse (length (net_calls t)) r) as [f|e].
    + destruct (ArxivFacts.records_pure (Arxiv.entries f) []) as [[ps|e] Hp];
        rewrite Hp.
      * exists 1. simpl. by rewrite net_calls_app.
      * unfold emit, log. destruct (IH ((t ++ [Net r]) ++ [Emit
          (Status ("Exception: " +:+ str_of_exn e) false (Some true))]))
          as [j ->].
        exists (S j). rewrite !net_calls_app. simpl.
        by rewrite app_nil_r, <- app_assoc.
    + unfold emit, log. destruct (IH ((t ++ [Net r]) ++ [Emit
        (Status ("Exception: " +:+ str_of_exn e) false (Some true))]))
        as [j ->].
      exists (S j). rewrite !net_calls_app. simpl.
      by rewrite app_nil_r, <- app_assoc.
Qed.

Lemma search_requests repr self search_query id_list start max_results
    sort_by sort_order r :
  r ∈ net_calls (run (Arxiv.search feedparser_parse repr self search_query
                        id_list start max_results sort_by sort_order)).2 →
  rparams r = Arxiv.search_params self search_query id_list start
                max_results sort_by sort_order.
Proof.
  unfold run, Arxiv.search, mbind, M_bind, bind, emit, log. simpl.
  match goal with
  | |- context [Arxiv.attempts _ ?k ?q ?t] =>
      destruct (attempts_requests k q t) as [j ->]
  end.
  simpl. intros Hin. apply elem_of_replicate in Hin as [-> _]. done.
Qed.

End ArxivRequests.

(** The terms of the filter are those of the truthy filters, in order. *)
Lemma filter_terms_truthy status types country_code country_name
    continent_code continent_name :
  Ror.filter_terms status types country_code country_name continent_code
    continent_name
  = truthy_terms (offered_filters status types country_code country_name
                    continent_code continent_name).
Proof.
  unfold Ror.filter_terms, Ror.append_filter, truthy_terms, offered_filters.
  simpl.
  destruct (truthy status), (truthy types), (truthy country_code),
    (truthy country_name), (truthy continent_code), (truthy continent_name);
    reflexivity.
Qed.

(** A term is never the empty text, so neither is their joining. *)
Lemma joined_terms_truthy filters :
  truthy_terms filters ≠ [] →
  Forall (λ '(name, _), name ≠ "") filters →
  truthy (PStr (String.concat "," (truthy_terms filters))) = true.
Proof.
  induction filters as [|[name v] filters IH]; simpl; [done|].
  intros Hne Hnames. apply Forall_cons in Hnames as [Hname Hnames].
  destruct (truthy v); simpl; [|by apply IH].
  destruct name as [|c name]; [done|].
  destruct (truthy_terms filters); reflexivity.
Qed.

Lemma query_params_lookup organization status types country_code country_name
    continent_code continent_name :
  let sent := Ror.query_params organization status types country_code
                country_name continent_code continent_name in
  let terms := truthy_terms (offered_filters status types country_code
                               country_name continent_code continent_name) in
  sent !! "query" = (if truthy organization then Some organization else None)
  ∧ sent !! "filter" = match terms with
                       | [] => None
                       | _ => Some (PStr (String.concat "," terms))
                       end
  ∧ ∀ k v, sent !! k = Some v → (k = "query" ∨ k = "filter") ∧ truthy v = true.
Proof.
  cbv zeta. unfold Ror.query_params. rewrite filter_terms_truthy.
  pose proof (joined_terms_truthy
                (offered_filters status types country_code country_name
                   continent_code continent_name)) as Hjoined.
  destruct (truthy_terms _) as [|term terms] eqn:Hterms.
  - destruct (decide _) as [Hlen|_]; [simpl in Hlen; lia|].
    destruct (truthy organization) eqn:Horg.
    + rewrite lookup_insert_eq, lookup_insert_ne by done.
      rewrite lookup_empty. repeat split; try done.
      * apply lookup_insert_Some in H as [[<- _]|[_ H]]; [by left|].
        by rewrite lookup_empty in H.
      * apply lookup_insert_Some in H as [[_ <-]|[_ H]]; [done|].
        by rewrite lookup_empty in H.
    + rewrite !lookup_empty. repeat split; try done;
        by rewrite lookup_empty in H.
  - destruct (decide _) as [_|Hlen]; [|simpl in Hlen; lia].
    assert (truthy (PStr (String.concat "," (term :: terms))) = true) as Hj.
    { apply Hjoined; [done|]. unfold offered_filters.
      repeat constructor; done. }
    destruct (truthy organization) eqn:Horg.
    + rewrite lookup_insert_ne, !lookup_insert_eq by done.
      repeat split; try done.
      * apply lookup_insert_Some in H as [[<- _]|[_ H]]; [by right|].
        apply lookup_insert_Some in H as [[<- _]|[_ H]]; [by left|].
        by rewrite lookup_empty in H.
      * apply lookup_insert_Some in H as [[_ <-]|[_ H]]; [done|].
        apply lookup_insert_Some in H as [[_ <-]|[_ H]]; [done|].
        by rewrite lookup_empty in H.
    + rewrite lookup_insert_ne, lookup_insert_eq, lookup_empty by done.
      repeat split; try done.
      * apply lookup_insert_Some in H as [[<- _]|[_ H]]; [by right|].
        by rewrite lookup_empty in H.
      * apply lookup_insert_Some in H as [[_ <-]|[_ H]]; [done|].
        by rewrite lookup_empty in H.
Qed.

End ParamFactsMore.

Module CongressRequests.

Section Requests.
Variable transport : nat → request → net_outcome.
Variable api_key : pyval.
Variable strptime_ok : string → bool.

(** The one request of [call_api]. *)
Lemma call_api_request endpoint params msg :
  net_calls (run (Congress.call_api transport api_key (Some endpoint) params
                    msg)).2
  = [ Request GET (Congress.BASE_URL +:+ endpoint)
        (<["api_key" := api_key]>
           (<["format" := PStr Congress.format]> (default ∅ params))) None ].
Proof.
  unfold run, Congress.call_api.
  unfold mbind at 1, M_bind at 1, bind at 1, emit at 1, log.
  rewrite ParamFacts.guarded_request; [done|].
  intros e t'. destruct e; try done;
    unfold mbind, M_bind, bind, emit, log; simpl;
    by rewrite net_calls_app, app_nil_r.
Qed.

(** With both dates passing, the parameters that a bill listing hands to
    [call_api]. *)
Lemma bill_listing_params endpoint msg offset limit fromDateTime toDateTime
    sort t :
  Contract.date_passes strptime_ok fromDateTime →
  Contract.date_passes strptime_ok toDateTime →
  Congress.bill_listing transport api_key strptime_ok endpoint msg offset
    limit fromDateTime toDateTime sort t
  = Congress.call_api transport api_key (Some endpoint)
      (Some
         (let params : gmap string pyval :=
            <["limit" := limit]> (<["offset" := offset]> ∅) in
          let params := if truthy fromDateTime
                        then <["fromDateTime" := fromDateTime]> params
                        else params in
          let params := if truthy toDateTime
                        then <["toDateTime" := toDateTime]> params
                        else params in
          if truthy sort then <["sort" := sort]> params else params))
      (Some msg) t.
Proof.
  intros Hfrom Hto. unfold Congress.bill_listing.
  unfold mbind at 1, M_bind at 1, bind at 1.
  rewrite (CongressFacts.checked_date_passes _ _ _ _ _ Hfrom).
  unfold mbind at 1, M_bind at 1, bind at 1.
  rewrite (CongressFacts.checked_date_passes _ _ _ _ _ Hto).
  reflexivity.
Qed.
End Requests.

End CongressRequests.



(** * Further properties of the tools *)

(** ** The httpx operations by the answer they get *)

Module HttpxOutcomes.
Import Behaviour.

Section Started.
Variable transport : nat → request → net_outcome.

(** A started call, by the answer to its request. *)
Lemma started_call_run (e : status_event) (r : request) (h : exn → M pyval) :
  run (emit e;;
       try_except
         (response ← Httpx.send transport r;
          Httpx.raise_for_status response;;
          Httpx.json response) h)
  = match transport 0 r with
    | Response c body =>
        if Httpx.is_success c then
          match body with
          | Some v => (Ret v, [Emit e; Net r])
          | None => h JSONDecodeError [Emit e; Net r]
          end
        else h (HTTPStatusError c) [Emit e; Net r]
    | NoResponse m => h (RequestError m) [Emit e; Net r]
    end.
Proof.
  unfold run, try_except, mbind, M_bind, bind, emit, log, Httpx.send,
    Httpx.raise_for_status, Httpx.json. simpl.
  destruct (transport 0 r) as [c [v|]|m]; simpl;
    try destruct (Httpx.is_success c); reflexivity.
Qed.

Lemma started_call_reports msg e r h :
  first_fails transport msg → done e = false →
  h (RequestError msg)
  = (emit (Status ("Request error: " +:+ msg) true None);;
     mret (error_value ("Request error: " +:+ msg))) →
  reports_request_error msg
    (emit e;;
     try_except
       (response ← Httpx.send transport r;
        Httpx.raise_for_status response;;
        Httpx.json response) h).
Proof.
  intros Hfails Hdone Hh. exists e, r.
  rewrite started_call_run, (Hfails r), Hh. by split.
Qed.

Lemma started_call_returns v e r h :
  first_succeeds transport v → done e = false →
  returns_body v
    (emit e;;
     try_except
       (response ← Httpx.send transport r;
        Httpx.raise_for_status response;;
        Httpx.json response) h).
Proof.
  intros Hok Hdone. exists e, r. destruct (Hok r) as (c & Hr & Hc).
  rewrite started_call_run, Hr, Hc. by split.
Qed.

Lemma started_call_decode e r h :
  first_undecodable transport →
  h JSONDecodeError = raise JSONDecodeError →
  decode_error_escapes
    (emit e;;
     try_except
       (response ← Httpx.send transport r;
        Httpx.raise_for_status response;;
        Httpx.json response) h).
Proof.
  intros Hbad Hh. exists e, r. destruct (Hbad r) as (c & Hr & Hc).
  by rewrite started_call_run, Hr, Hc, Hh.
Qed.

Lemma started_call_one e r h :
  (∀ x t, net_calls (h x t).2 = net_calls t) →
  one_call
    (emit e;;
     try_except
       (response ← Httpx.send transport r;
        Httpx.raise_for_status response;;
        Httpx.json response) h).
Proof.
  intros Hh. unfold one_call. rewrite started_call_run.
  destruct (transport 0 r) as [c [v|]|m];
    try destruct (Httpx.is_success c); rewrite ?Hh; reflexivity.
Qed.
End Started.

(** The handlers of the operations make no network call. *)
Ltac quiet_handler :=
  let x := fresh "x" in let t := fresh "t" in
  intros x t; destruct x; try reflexivity;
  unfold mbind, M_bind, bind, emit_to, emit, log; simpl;
  by rewrite net_calls_app, app_nil_r.

End HttpxOutcomes.

(** Transport failure.  When the request gets no response, [fetch_paper],
    the Congress.gov [call_api] and the ROR [call_api] called with a sink
    send the starting event, make one network call, send a [done=true]
    event and return [{"error": "Request error: <message>"}]. *)
Theorem transport_failure_is_reported
    (transport : nat → request → net_outcome) (msg : string) :
  Behaviour.first_fails transport msg →
  (∀ query limit fields publicationTypes openAccessPdf minCitationCount
     publicationDateOrYear year venue fieldsOfStudy offset,
     Behaviour.reports_request_error msg
       (SemanticScholar.fetch_paper transport query limit fields
          publicationTypes openAccessPdf minCitationCount
          publicationDateOrYear year venue fieldsOfStudy offset))
  ∧ (∀ api_key endpoint params m,
       Behaviour.reports_request_error msg
         (Congress.call_api transport api_key (Some endpoint) params m))
  ∧ (∀ params m o,
       Behaviour.reports_request_error msg
         (Ror.call_api transport params m (Some o))).
Proof.
  intros Hfails. repeat split; intros.
  - by apply HttpxOutcomes.started_call_reports.
  - by apply HttpxOutcomes.started_call_reports.
  - destruct o. by apply HttpxOutcomes.started_call_reports.
Qed.

Lemma transport_failure_is_reported_witness :
  Behaviour.first_fails (Mock.always (NoResponse "timed out")) "timed out"
  ∧ Behaviour.reports_request_error "timed out"
      (Congress.call_api (Mock.always (NoResponse "timed out")) (PStr "key")
         (Some "/bill") None (Some "bills")).
Proof.
  split; [intros r; reflexivity|].
  apply (transport_failure_is_reported
           (Mock.always (NoResponse "timed out")) "timed out").
  intros r. reflexivity.
Defined.

(** Success.  When the request is answered with a 2xx status and a JSON
    body, every httpx operation returns that body as it is, after the
    starting event and one network call; no event with [done=true] is
    sent. *)
Theorem success_returns_the_body
    (transport : nat → request → net_outcome) (v : pyval) :
  Behaviour.first_succeeds transport v →
  Behaviour.httpx_operations transport (Behaviour.returns_body v).
Proof.
  intros Hok. unfold Behaviour.httpx_operations. repeat split; intros;
    try destruct o; by apply HttpxOutcomes.started_call_returns.
Qed.

Lemma success_returns_the_body_witness :
  Behaviour.first_succeeds
    (Mock.always (Response 200 (Some (PDict [("total", PInt 0)]))))
    (PDict [("total", PInt 0)])
  ∧ Behaviour.httpx_operations
      (Mock.always (Response 200 (Some (PDict [("total", PInt 0)]))))
      (Behaviour.returns_body (PDict [("total", PInt 0)])).
Proof.
  split; [intros r; by exists 200%Z|].
  apply (success_returns_the_body
           (Mock.always (Response 200 (Some (PDict [("total", PInt 0)]))))
           (PDict [("total", PInt 0)])).
  intros r. by exists 200%Z.
Defined.

(** Decoding.  When the 2xx answer is not JSON, the decoding error of
    [response.json()] is caught by no handler: it leaves every httpx
    operation, after the starting event and one network call. *)
Theorem decode_error_is_not_caught
    (transport : nat → request → net_outcome) :
  Behaviour.first_undecodable transport →
  Behaviour.httpx_operations transport Behaviour.decode_error_escapes.
Proof.
  intros Hbad. unfold Behaviour.httpx_operations. repeat split; intros;
    try destruct o; by apply HttpxOutcomes.started_call_decode.
Qed.

Lemma decode_error_is_not_caught_witness :
  Behaviour.first_undecodable (Mock.always (Response 200 None))
  ∧ Behaviour.httpx_operations (Mock.always (Response 200 None))
      Behaviour.decode_error_escapes.
Proof.
  split; [intros r; by exists 200%Z|].
  apply (decode_error_is_not_caught (Mock.always (Response 200 None))).
  intros r. by exists 200%Z.
Defined.

(** No retry.  Whatever the remote side does, every httpx operation makes
    exactly one network call. *)
Theorem httpx_operations_make_one_call
    (transport : nat → request → net_outcome) :
  Behaviour.httpx_operations transport Behaviour.one_call.
Proof.
  unfold Behaviour.httpx_operations. repeat split; intros; try destruct o;
    apply HttpxOutcomes.started_call_one; HttpxOutcomes.quiet_handler.
Qed.

(** ** Congress.gov: what goes out *)


(** The Congress.gov [call_api].  Without an endpoint it returns
    [{"error": "endpoint not supplied"}] after one [done=true] event and no
    network call.  With one, its single request goes to the base address
    followed by the endpoint and carries the caller's parameters, over which
    [format] (always [application/json]) and [api_key] (as configured) are
    written. *)
Theorem congress_call_api_request
    (transport : nat → request → net_outcome) (api_key : pyval)
    (endpoint : string) (params : option (gmap string pyval))
    (msg : option string) :
  run (Congress.call_api transport api_key None params msg)
  = (Ret (error_value "endpoint not supplied"),
     [ Emit (Status "API call unsuccessful, model did not select an endpoint."
               true (Some false)) ])
  ∧ ∃ sent,
      net_calls (run (Congress.call_api transport api_key (Some endpoint)
                        params msg)).2
      = [Request GET ("https://api.congress.gov/v3" +:+ endpoint) sent None]
      ∧ sent !! "format" = Some (PStr "application/json")
      ∧ sent !! "api_key" = Some api_key
      ∧ ∀ k, k ≠ "format" → k ≠ "api_key" →
             sent !! k = default ∅ params !! k.
Proof.
  split; [reflexivity|]. eexists. split.
  - apply CongressRequests.call_api_request.
  - split; [|split].
    + rewrite lookup_insert_ne by done. by rewrite lookup_insert_eq.
    + by rewrite lookup_insert_eq.
    + intros k Hf Ha. by rewrite !lookup_insert_ne.
Qed.

(** A bill listing whose dates pass the check sends [offset] and [limit]
    as they are given, whatever their value, each date when it is given,
    and [sort] when it is truthy. *)
Theorem get_bills_request
    (transport : nat → request → net_outcome) (api_key : pyval)
    (strptime_ok : string → bool)
    (offset limit fromDateTime toDateTime sort : pyval) :
  Contract.date_passes strptime_ok fromDateTime →
  Contract.date_passes strptime_ok toDateTime →
  ∃ sent,
    net_calls (run (Congress.get_bills transport api_key strptime_ok offset
                      limit fromDateTime toDateTime sort)).2
    = [Request GET "https://api.congress.gov/v3/bill" sent None]
    ∧ sent !! "offset" = Some offset
    ∧ sent !! "limit" = Some limit
    ∧ sent !! "fromDateTime"
      = (if truthy fromDateTime then Some fromDateTime else None)
    ∧ sent !! "toDateTime"
      = (if truthy toDateTime then Some toDateTime else None)
    ∧ sent !! "sort" = (if truthy sort then Some sort else None).
Proof.
  intros Hfrom Hto. eexists. split.
  - unfold run, Congress.get_bills.
    rewrite (CongressRequests.bill_listing_params transport api_key
               strptime_ok "/bill" "bills" offset limit fromDateTime
               toDateTime sort [] Hfrom Hto).
    apply CongressRequests.call_api_request.
  - cbv zeta. simpl default.
    destruct (truthy fromDateTime), (truthy toDateTime), (truthy sort);
      repeat split; reflexivity.
Qed.

Lemma get_bills_request_witness :
  Contract.date_passes Datetime.strptime_Ymd_HMS_Z (PStr "2024-01-01T00:00:00Z")
  ∧ Contract.date_passes Datetime.strptime_Ymd_HMS_Z PNone
  ∧ ∃ sent,
      net_calls (run (Congress.get_bills
                        (Mock.always (Response 200 (Some (PDict []))))
                        (PStr "key") Datetime.strptime_Ymd_HMS_Z PNone (PInt 10)
                        (PStr "2024-01-01T00:00:00Z") PNone PNone)).2
      = [Request GET "https://api.congress.gov/v3/bill" sent None]
      ∧ sent !! "offset" = Some PNone
      ∧ sent !! "limit" = Some (PInt 10)
      ∧ sent !! "fromDateTime" = Some (PStr "2024-01-01T00:00:00Z")
      ∧ sent !! "toDateTime" = None
      ∧ sent !! "sort" = None.
Proof.
  assert (Contract.date_passes Datetime.strptime_Ymd_HMS_Z
            (PStr "2024-01-01T00:00:00Z")) as Hfrom.
  { right. exists "2024-01-01T00:00:00Z". split; reflexivity. }
  assert (Contract.date_passes Datetime.strptime_Ymd_HMS_Z PNone) as Hto.
  { left. reflexivity. }
  split; [exact Hfrom|]. split; [exact Hto|].
  exact (get_bills_request (Mock.always (Response 200 (Some (PDict []))))
           (PStr "key") Datetime.strptime_Ymd_HMS_Z PNone (PInt 10)
           (PStr "2024-01-01T00:00:00Z") PNone PNone Hfrom Hto).
Defined.

(** [get_members] tests the truthiness of every argument: a parameter goes
    out exactly when its value is truthy, so [offset=0] and
    [currentMember=False] are left out like [None]; nothing but these five
    parameters, [format] and [api_key] is sent. *)
Theorem get_members_sends_truthy_only
    (transport : nat → request → net_outcome) (api_key : pyval)
    (offset limit fromDateTime toDateTime currentMember : pyval) :
  ∃ sent,
    net_calls (run (Congress.get_members transport api_key offset limit
                      fromDateTime toDateTime currentMember)).2
    = [Request GET "https://api.congress.gov/v3/member" sent None]
    ∧ sent !! "offset" = (if truthy offset then Some offset else None)
    ∧ sent !! "limit" = (if truthy limit then Some limit else None)
    ∧ sent !! "fromDateTime"
      = (if truthy fromDateTime then Some fromDateTime else None)
    ∧ sent !! "toDateTime"
      = (if truthy toDateTime then Some toDateTime else None)
    ∧ sent !! "currentMember"
      = (if truthy currentMember then Some currentMember else None)
    ∧ dom sent ⊆ list_to_set [ "offset"; "limit"; "fromDateTime";
                                "toDateTime"; "currentMember"; "format";
                                "api_key" ].
Proof.
  eexists. split; [apply CongressRequests.call_api_request|].
  unfold Congress.get_members_params. simpl default.
  destruct (truthy offset), (truthy limit), (truthy fromDateTime),
    (truthy toDateTime), (truthy currentMember);
    (repeat split; [reflexivity..|]);
    rewrite ?dom_insert_L, dom_empty_L; set_solver.
Qed.

(** [crsreport_by_report_number] raises [ValueError] for a report number
    that is [None] or empty, before any event or network call; for any
    other it makes its one request to [/crsreport/<reportNumber>]. *)
Theorem crsreport_by_report_number_requires_a_number
    (transport : nat → request → net_outcome) (api_key : pyval)
    (reportNumber : pyval) :
  (run (Congress.crsreport_by_report_number transport api_key reportNumber)
   = if truthy reportNumber
     then run (Congress.call_api transport api_key
                 (Some ("/crsreport/" +:+ fmt reportNumber)) (Some ∅)
                 (Some "Congressional Research Service (CRS) report data by number"))
     else (Raise (ValueError "reportNumber is a required argument."), []))
  ∧ length (net_calls
              (run (Congress.crsreport_by_report_number transport api_key
                      reportNumber)).2)
    = (if truthy reportNumber then 1 else 0).
Proof.
  unfold Congress.crsreport_by_report_number.
  destruct (truthy reportNumber); cbn [negb]; split; try reflexivity.
  by rewrite CongressRequests.call_api_request.
Qed.

(** [get_hearings] with a congress number raises before any event or
    network call (the endpoint is extended before it is assigned); without
    one it lists [/hearing], and [chamber], [jacket_number] and [format]
    play no part. *)
Theorem get_hearings_with_a_congress_raises
    (transport : nat → request → net_outcome) (api_key : pyval)
    (congress chamber jacket_number format offset limit : pyval) :
  (truthy congress = true →
   ∃ e, run (Congress.get_hearings transport api_key congress chamber
               jacket_number format offset limit) = (Raise e, []))
  ∧ (truthy congress = false →
     run (Congress.get_hearings transport api_key congress chamber
            jacket_number format offset limit)
     = run (Congress.get_hearings transport api_key PNone PNone PNone PNone
              offset limit)
     ∧ ∃ sent,
         net_calls (run (Congress.get_hearings transport api_key congress
                           chamber jacket_number format offset limit)).2
         = [Request GET "https://api.congress.gov/v3/hearing" sent None]).
Proof.
  unfold Congress.get_hearings. split; intros Hc; rewrite Hc.
  - eexists. reflexivity.
  - split; [reflexivity|]. eexists. simpl truthy. cbv iota.
    apply CongressRequests.call_api_request.
Qed.

(** [crsreport] sends [offset] and [limit] unless they are [None] (so a 0
    goes out), and sends a date whenever it is given: unlike the bill
    listings it makes no format check, and always makes its request. *)
Theorem crsreport_passes_dates_unchecked
    (transport : nat → request → net_outcome) (api_key : pyval)
    (offset limit fromDateTime toDateTime : pyval) :
  ∃ sent,
    net_calls (run (Congress.crsreport transport api_key offset limit
                      fromDateTime toDateTime)).2
    = [Request GET "https://api.congress.gov/v3/crsreport" sent None]
    ∧ sent !! "offset" = (if is_None offset then None else Some offset)
    ∧ sent !! "limit" = (if is_None limit then None else Some limit)
    ∧ sent !! "fromDateTime"
      = (if truthy fromDateTime then Some fromDateTime else None)
    ∧ sent !! "toDateTime"
      = (if truthy toDateTime then Some toDateTime else None).
Proof.
  eexists. split; [apply CongressRequests.call_api_request|].
  unfold Congress.crsreport_params. simpl default.
  destruct (is_None offset), (is_None limit), (truthy fromDateTime),
    (truthy toDateTime); repeat split; reflexivity.
Qed.

(** ** ROR: one organization, several organizations *)

Module RorPaths.
Import Contract.

Section Calls.
Variable transport : nat → request → net_outcome.
Hypothesis Hok : all_answers_succeed transport.

(** The results of the loop are the bodies of the answers, in order. *)
Lemma query_each_results em orgs params results t :
  ∃ rs t',
    Ror.query_each transport em orgs params results t = (Ret (results ++ rs), t')
    ∧ ∀ i org, orgs !! i = Some org →
        ∃ c v, transport (length (net_calls t) + i) (sub_request params org)
               = Response c (Some v)
               ∧ rs !! i = Some v.
Proof.
  revert params results t. induction orgs as [|org orgs IH];
    intros params results t; simpl.
  - exists [], t. split; [by rewrite app_nil_r|]. intros i o Hi.
    by rewrite lookup_nil in Hi.
  - unfold mbind, M_bind, bind. rewrite RorFacts.call_api_without_sink. simpl.
    destruct (Hok (length (net_calls t))
                (Request GET Ror.BASE_URL (<["query" := org]> params) None))
      as (c & v & Hfirst & Hc). rewrite Hfirst, Hc.
    destruct (IH (<["query" := org]> params) (results ++ [v])
                (t ++ [Net (Request GET Ror.BASE_URL
                              (<["query" := org]> params) None)]))
      as (rs & t' & -> & Hrs).
    exists (v :: rs), t'. split; [by rewrite <- app_assoc|].
    intros [|i] o Hi; simpl in Hi.
    + injection Hi as <-. exists c, v. rewrite Nat.add_0_r. by split.
    + destruct (Hrs i o Hi) as (c' & v' & Ht & Hv).
      exists c', v'. split; [|exact Hv].
      rewrite net_calls_app, length_app in Ht. simpl in Ht.
      unfold sub_request in *. rewrite insert_insert_eq in Ht.
      by replace (length (net_calls t) + S i)
        with (length (net_calls t) + 1 + i) by lia.
Qed.
End Calls.

End RorPaths.

(** The ROR query over two or more organizations, when every sub-request
    is answered with a 2xx status and a JSON body: the result is the mapping
    with the one key [results], whose list has one element per organization,
    the [i]-th being the body of the answer to the [i]-th sub-request; the
    sub-requests go out in the order of the list, the [i]-th with the
    [i]-th name as its [query], all with the same [filter]. *)
Theorem ror_multi_query_when_all_succeed
    (transport : nat → request → net_outcome) (a b : pyval) (rest : list pyval)
    (status types country_code country_name continent_code continent_name : pyval)
    (em : option sink) :
  Contract.all_answers_succeed transport →
  let organizations := a :: b :: rest in
  let params := Ror.query_params (PList organizations) status types
                  country_code country_name continent_code continent_name in
  ∃ rs t,
    run (Ror.query transport (PList organizations) status types country_code
           country_name continent_code continent_name em)
    = (Ret (PDict [("results", PList rs)]), t)
    ∧ length rs = length organizations
    ∧ net_calls t = map (Contract.sub_request params) organizations
    ∧ (∀ i org, organizations !! i = Some org →
         ∃ c v, transport i (Contract.sub_request params org)
                = Response c (Some v)
                ∧ rs !! i = Some v)
    ∧ ∀ org, rparams (Contract.sub_request params org) !! "query" = Some org
             ∧ rparams (Contract.sub_request params org) !! "filter"
               = params !! "filter".
Proof.
  intros Hok. cbv zeta.
  destruct (RorMulti.query_all_succeed transport Hok a b rest status types
              country_code country_name continent_code continent_name em)
    as (rs & t & Hrun & Hlen & Hcalls & Hparams).
  exists rs, t. split; [exact Hrun|]. split; [exact Hlen|].
  split; [exact Hcalls|]. split; [|exact Hparams].
  revert Hrun. unfold run, Ror.query. rewrite RorFacts.several_two.
  unfold mbind, M_bind, bind.
  destruct (RorPaths.query_each_results transport Hok em (a :: b :: rest)
              (Ror.query_params (PList (a :: b :: rest)) status types
                 country_code country_name continent_code continent_name)
              [] []) as (rs' & t' & -> & Hrs).
  intros Hrun. injection Hrun as <- _. exact Hrs.
Qed.

Lemma ror_multi_query_when_all_succeed_witness :
  Contract.all_answers_succeed (Mock.always (Response 200 (Some (PDict []))))
  ∧ ∃ rs t,
      run (Ror.query (Mock.always (Response 200 (Some (PDict []))))
             (PList [PStr "MIT"; PStr "Stanford"]) (PStr "active") PNone PNone
             PNone PNone PNone (Some HostSink))
      = (Ret (PDict [("results", PList rs)]), t)
      ∧ length rs = 2.
Proof.
  assert (Contract.all_answers_succeed
            (Mock.always (Response 200 (Some (PDict []))))) as Hok.
  { intros n r. by exists 200%Z, (PDict []). }
  split; [exact Hok|].
  destruct (ror_multi_query_when_all_succeed
              (Mock.always (Response 200 (Some (PDict []))))
              (PStr "MIT") (PStr "Stanford") [] (PStr "active") PNone PNone
              PNone PNone PNone (Some HostSink) Hok)
    as (rs & t & Hrun & Hlen & _).
  exists rs, t. split; [exact Hrun|exact Hlen].
Defined.

(** A list with a single organization does not take the multi-organization
    path: with a sink, the call starts with its status event and makes one
    request, whose [query] is the list itself. *)
Theorem ror_single_element_list_is_one_call
    (transport : nat → request → net_outcome) (a : pyval)
    (status types country_code country_name continent_code continent_name : pyval)
    (o : sink) :
  let call := run (Ror.query transport (PList [a]) status types country_code
                     country_name continent_code continent_name (Some o)) in
  ∃ sent t,
    call.2 = Emit (Status "Executing basic ROR query..." false (Some true))
             :: Net (Request GET Ror.BASE_URL sent None) :: t
    ∧ net_calls call.2 = [Request GET Ror.BASE_URL sent None]
    ∧ sent !! "query" = Some (PList [a]).
Proof.
  cbv zeta.
  assert (Ror.several (PList [a]) = None) as Hone.
  { unfold Ror.several. destruct (decide _) as [H|_]; [simpl in H; lia|done]. }
  exists (Ror.query_params (PList [a]) status types country_code country_name
            continent_code continent_name).
  assert (∃ t, (run (Ror.query transport (PList [a]) status types country_code
                       country_name continent_code continent_name (Some o))).2
               = Emit (Status "Executing basic ROR query..." false (Some true))
                 :: Net (Request GET Ror.BASE_URL
                           (Ror.query_params (PList [a]) status types
                              country_code country_name continent_code
                              continent_name) None) :: t) as [t Ht].
  { unfold Ror.query. rewrite Hone. destruct o. unfold Ror.call_api.
    cbn [emit_to]. rewrite HttpxOutcomes.started_call_run.
    destruct (transport 0 _) as [c [v|]|m];
      try destruct (Httpx.is_success c); eexists; reflexivity. }
  exists t. split; [exact Ht|]. split.
  - by apply ParamFacts.ror_single_request.
  - apply (ParamFactsMore.query_params_lookup (PList [a])).
Qed.

(** ** arXiv: the valves, recovery, the events *)

Module ArxivMore.
Import Arxiv Behaviour.

Lemma sent_lookup (offered : gmap string pyval) k :
  update ∅ (drop_None offered) !! k = offered !! k ≫= unless_None.
Proof.
  unfold update, drop_None.
  rewrite lookup_union_l by apply lookup_empty.
  rewrite map_lookup_filter. destruct (offered !! k) as [v|]; [|done].
  simpl. destruct v; simpl; by rewrite ?option_guard_True, ?option_guard_False
    by (simpl; tauto).
Qed.

(** Entries whose candidates are computed give their filtered records. *)
Lemma records_computed es cs ps t :
  Forall2 computes_to es cs →
  records es ps t = (Ret (ps ++ map drop_None cs), t).
Proof.
  intros Hcs. revert ps. induction Hcs as [|e c es cs He Hes IH]; intros ps.
  - simpl. by rewrite app_nil_r.
  - simpl. unfold record_of, mbind, M_bind, bind, mret, M_ret, ret.
    rewrite (He t). rewrite IH. by rewrite <- app_assoc.
Qed.

Section Loop.
Variable feedparser_parse : nat → request → feed_outcome.

(** The loop, when the first [k] attempts from here raise and the next one
    is handed a feed whose records are computed. *)
Lemma attempts_recover k f cs r : ∀ remaining t,
  k < remaining →
  (∀ j, j < k → attempt_raises (feedparser_parse (length (net_calls t) + j) r)) →
  feedparser_parse (length (net_calls t) + k) r = Parsed f →
  Forall2 computes_to (entries f) cs →
  ∃ t', attempts feedparser_parse remaining r t
        = (Ret (Papers (map drop_None cs)), t')
        ∧ length (net_calls t') = length (net_calls t) + S k
        ∧ length (emitted t') = length (emitted t) + k.
Proof.
  induction k as [|k IH]; intros remaining t Hlt Hraise Hfeed Hcs;
    (destruct remaining as [|remaining]; [lia|]); simpl;
    unfold try_except, mbind, M_bind, bind, parse.
  - rewrite Nat.add_0_r in Hfeed. rewrite Hfeed.
    rewrite (records_computed _ _ _ _ Hcs). simpl.
    eexists. split; [reflexivity|].
    rewrite net_calls_app, emitted_app, !length_app. simpl. lia.
  - pose proof (Hraise 0 ltac:(lia)) as H0. rewrite Nat.add_0_r in H0.
    assert (∀ e,
              ∃ t', attempts feedparser_parse remaining r
                      ((t ++ [Net r]) ++
                       [Emit (Status ("Exception: " +:+ str_of_exn e) false
                                (Some true))])
                    = (Ret (Papers (map drop_None cs)), t')
                    ∧ length (net_calls t') = length (net_calls t) + S (S k)
                    ∧ length (emitted t') = length (emitted t) + S k) as Hcont.
    { intros e.
      set (t2 := (t ++ [Net r]) ++ [Emit _]).
      assert (length (net_calls t2) = length (net_calls t) + 1) as Hn.
      { unfold t2. rewrite !net_calls_app, !length_app. simpl. lia. }
      destruct (IH remaining t2) as (t' & Hrun & Hcalls & Hev).
      + lia.
      + intros j Hj. rewrite Hn.
        replace (length (net_calls t) + 1 + j)
          with (length (net_calls t) + S j) by lia.
        apply Hraise. lia.
      + rewrite Hn.
        by replace (length (net_calls t) + 1 + k)
          with (length (net_calls t) + S k) by lia.
      + exact Hcs.
      + exists t'. split; [exact Hrun|]. rewrite Hcalls, Hev, Hn.
        unfold t2. rewrite !emitted_app, !length_app. simpl. lia. }
    destruct (feedparser_parse (length (net_calls t)) r) as [f0|e];
      simpl in H0.
    + destruct H0 as [e He]. rewrite He. unfold emit, log. apply Hcont.
    + unfold emit, log. apply Hcont.
Qed.

(** Every event of the loop has the shape of its exception event. *)
Lemma attempts_events (P : status_event → Prop) remaining r t :
  (∀ text, P (Status text false (Some true))) →
  Forall P (emitted t) →
  Forall P (emitted (attempts feedparser_parse remaining r t).2).
Proof.
  intros HP. revert t. induction remaining as [|k IH]; intros t Ht; simpl;
    [exact Ht|].
  unfold try_except, mbind, M_bind, bind, parse.
  assert (Forall P (emitted (t ++ [Net r]))) as Ht1.
  { rewrite emitted_app. simpl. by rewrite app_nil_r. }
  assert (∀ e, Forall P (emitted ((t ++ [Net r]) ++
            [Emit (Status ("Exception: " +:+ str_of_exn e) false (Some true))])))
    as Ht2.
  { intros e. rewrite emitted_app. apply Forall_app. split; [exact Ht1|].
    repeat constructor. apply HP. }
  destruct (feedparser_parse (length (net_calls t)) r) as [f|e].
  - destruct (ArxivFacts.records_pure (entries f) []) as [[ps|e] Hp];
      rewrite Hp; simpl; [exact Ht1|].
    unfold emit, log. apply IH, Ht2.
  - unfold emit, log. apply IH, Ht2.
Qed.
End Loop.

End ArxivMore.

(** With the valve [use_valves] off, as it is by default, the caller's
    [start], [max_results], [sort_by] and [sort_order] play no part in the
    search: every download carries the valves' own values under [start],
    [max_results], [sortBy] and [sortOrder], and the caller's
    [search_query] and [id_list] unless they are [None]. *)
Theorem arxiv_valves_off_ignore_the_caller
    (feedparser_parse : nat → request → Arxiv.feed_outcome)
    (repr : gmap string pyval → string) (self : Arxiv.Tools)
    (search_query id_list start max_results sort_by sort_order : pyval)
    (start' max_results' sort_by' sort_order' : pyval) :
  Arxiv.use_valves (Arxiv.user_valves self) = false →
  Arxiv.search feedparser_parse repr self search_query id_list start
    max_results sort_by sort_order
  = Arxiv.search feedparser_parse repr self search_query id_list start'
      max_results' sort_by' sort_order'
  ∧ ∀ r, r ∈ net_calls
               (run (Arxiv.search feedparser_parse repr self search_query
                       id_list start max_results sort_by sort_order)).2 →
      rparams r !! "search_query" = Behaviour.unless_None search_query
      ∧ rparams r !! "id_list" = Behaviour.unless_None id_list
      ∧ rparams r !! "start"
        = Behaviour.unless_None (Arxiv.start (Arxiv.user_valves self))
      ∧ rparams r !! "max_results"
        = Behaviour.unless_None (Arxiv.max_results (Arxiv.user_valves self))
      ∧ rparams r !! "sortBy"
        = Behaviour.unless_None (Arxiv.sort_by (Arxiv.user_valves self))
      ∧ rparams r !! "sortOrder"
        = Behaviour.unless_None (Arxiv.sort_order (Arxiv.user_valves self)).
Proof.
  intros Hoff. split.
  - unfold Arxiv.search, Arxiv.search_params, Arxiv.search_optional.
    by rewrite Hoff.
  - intros r Hr. rewrite (ParamFactsMore.search_requests _ _ _ _ _ _ _ _ _ _ Hr).
    unfold Arxiv.search_params. rewrite !ArxivMore.sent_lookup.
    unfold Arxiv.search_optional. rewrite Hoff. repeat split; reflexivity.
Qed.

Lemma arxiv_valves_off_ignore_the_caller_witness :
  Arxiv.use_valves (Arxiv.user_valves Arxiv.init) = false
  ∧ Arxiv.search Mock.feed_always_raises (λ _, "{...}") Arxiv.init
      (PStr "all:electron") PNone (PInt 50) (PInt 100) PNone PNone
    = Arxiv.search Mock.feed_always_raises (λ _, "{...}") Arxiv.init
        (PStr "all:electron") PNone PNone PNone PNone PNone.
Proof.
  split; [reflexivity|].
  apply (arxiv_valves_off_ignore_the_caller Mock.feed_always_raises
           (λ _, "{...}") Arxiv.init (PStr "all:electron") PNone (PInt 50)
           (PInt 100) PNone PNone PNone PNone PNone PNone).
  reflexivity.
Defined.

(** With the valve [use_valves] on, the caller's arguments are sent unless
    they are [None]; the sort order goes out under the key [sort_order],
    not under [sortOrder] as it does with the valve off. *)
Theorem arxiv_valves_on_send_the_caller
    (feedparser_parse : nat → request → Arxiv.feed_outcome)
    (repr : gmap string pyval → string) (self : Arxiv.Tools)
    (search_query id_list start max_results sort_by sort_order : pyval) :
  Arxiv.use_valves (Arxiv.user_valves self) = true →
  ∀ r, r ∈ net_calls
             (run (Arxiv.search feedparser_parse repr self search_query
                     id_list start max_results sort_by sort_order)).2 →
    rparams r !! "search_query" = Behaviour.unless_None search_query
    ∧ rparams r !! "id_list" = Behaviour.unless_None id_list
    ∧ rparams r !! "start" = Behaviour.unless_None start
    ∧ rparams r !! "max_results" = Behaviour.unless_None max_results
    ∧ rparams r !! "sortBy" = Behaviour.unless_None sort_by
    ∧ rparams r !! "sort_order" = Behaviour.unless_None sort_order
    ∧ rparams r !! "sortOrder" = None.
Proof.
  intros Hon r Hr. rewrite (ParamFactsMore.search_requests _ _ _ _ _ _ _ _ _ _ Hr).
  unfold Arxiv.search_params. rewrite !ArxivMore.sent_lookup.
  unfold Arxiv.search_optional. rewrite Hon. repeat split; reflexivity.
Qed.

Lemma arxiv_valves_on_send_the_caller_witness :
  Arxiv.use_valves (Arxiv.user_valves Mock.arxiv_with_valves) = true
  ∧ ∀ r, r ∈ net_calls
               (run (Arxiv.search Mock.feed_always_raises (λ _, "{...}")
                       Mock.arxiv_with_valves (PStr "all:electron") PNone
                       PNone (PInt 5) PNone (PStr "descending"))).2 →
      rparams r !! "max_results" = Some (PInt 5)
      ∧ rparams r !! "sort_order" = Some (PStr "descending")
      ∧ rparams r !! "sortOrder" = None.
Proof.
  split; [reflexivity|]. intros r Hr.
  destruct (arxiv_valves_on_send_the_caller Mock.feed_always_raises
              (λ _, "{...}") Mock.arxiv_with_valves (PStr "all:electron")
              PNone PNone (PInt 5) PNone (PStr "descending") eq_refl r Hr)
    as (_ & _ & _ & Hmax & _ & Horder & Hnone).
  split; [exact Hmax|]. split; [exact Horder|exact Hnone].
Defined.

(** Recovery.  When the first [k] attempts raise, [k] being less than
    [max_retries], and the next download hands back a feed whose records
    are computed, the search returns those records, having made [k + 1]
    downloads and sent [k + 1] status events (the starting one and one per
    failed attempt). *)
Theorem arxiv_search_recovers
    (feedparser_parse : nat → request → Arxiv.feed_outcome)
    (repr : gmap string pyval → string) (self : Arxiv.Tools)
    (search_query id_list start max_results sort_by sort_order : pyval)
    (k : nat) (f : Arxiv.feed) (candidates : list (gmap string pyval)) :
  k < Arxiv.max_retries self →
  (∀ j r, j < k → Arxiv.attempt_raises (feedparser_parse j r)) →
  (∀ r, feedparser_parse k r = Arxiv.Parsed f) →
  Forall2 Arxiv.computes_to (Arxiv.entries f) candidates →
  ∃ t, run (Arxiv.search feedparser_parse repr self search_query id_list
              start max_results sort_by sort_order)
       = (Ret (Arxiv.Papers (map drop_None candidates)), t)
       ∧ length (net_calls t) = S k
       ∧ length (emitted t) = S k.
Proof.
  intros Hk Hraise Hfeed Hcs.
  unfold run, Arxiv.search, mbind, M_bind, bind, emit, log. simpl.
  match goal with
  | |- context [Arxiv.attempts _ ?n ?r ?t] =>
      destruct (ArxivMore.attempts_recover feedparser_parse k f candidates r
                  n t Hk) as (t' & Hrun & Hcalls & Hev)
  end.
  - intros j Hj. by apply Hraise.
  - apply Hfeed.
  - exact Hcs.
  - exists t'. split; [exact Hrun|]. split; [exact Hcalls|exact Hev].
Qed.

Lemma arxiv_search_recovers_witness :
  2 < Arxiv.max_retries Arxiv.init
  ∧ (∀ j r, j < 2 → Arxiv.attempt_raises (Mock.feed_after 2 [] j r))
  ∧ (∀ r, Mock.feed_after 2 [] 2 r = Arxiv.Parsed (Arxiv.Feed (Some 200%Z) []))
  ∧ ∃ t, run (Arxiv.search (Mock.feed_after 2 []) (λ _, "{...}") Arxiv.init
                (PStr "all:electron") PNone PNone PNone PNone PNone)
         = (Ret (Arxiv.Papers []), t)
         ∧ length (net_calls t) = 3
         ∧ length (emitted t) = 3.
Proof.
  assert (∀ j r, j < 2 → Arxiv.attempt_raises (Mock.feed_after 2 [] j r))
    as Hraise.
  { intros j r Hj. unfold Mock.feed_after.
    destruct (decide (j < 2)) as [_|Hn]; [exact I|lia]. }
  split; [simpl; lia|]. split; [exact Hraise|]. split; [reflexivity|].
  apply (arxiv_search_recovers (Mock.feed_after 2 []) (λ _, "{...}")
           Arxiv.init (PStr "all:electron") PNone PNone PNone PNone PNone 2
           (Arxiv.Feed (Some 200%Z) []) []).
  - simpl. lia.
  - exact Hraise.
  - reflexivity.
  - constructor.
Defined.

(** The arXiv search never sends an event with [done=true]: every event it
    sends, whether the search succeeds or gives up, has [done=false] and
    [hidden=true]. *)
Theorem arxiv_events_are_never_done
    (feedparser_parse : nat → request → Arxiv.feed_outcome)
    (repr : gmap string pyval → string) (self : Arxiv.Tools)
    (search_query id_list start max_results sort_by sort_order : pyval) :
  Forall (λ e, done e = false ∧ hidden e = Some true)
    (emitted (run (Arxiv.search feedparser_parse repr self search_query
                     id_list start max_results sort_by sort_order)).2).
Proof.
  unfold run, Arxiv.search, mbind, M_bind, bind, emit, log. simpl.
  apply ArxivMore.attempts_events.
  - intros text. by split.
  - repeat constructor.
Qed.

(** ** Yahoo Finance: normalization, the extra, the events *)

Module YFinanceMore.
Import Contract Behaviour.

(** Induction over values, with the property known for the members of
    lists and dictionaries. *)
Lemma pyval_nested_ind (P : pyval → Prop) :
  P PNone → (∀ b, P (PBool b)) → (∀ z, P (PInt z)) → (∀ s, P (PStr s)) →
  (∀ l, Forall P l → P (PList l)) →
  (∀ d, Forall (λ kv, P kv.2) d → P (PDict d)) →
  (∀ df, P (PFrame df)) → (∀ s, P (PSeries s)) →
  (∀ class_name, P (PObject class_name)) →
  ∀ v, P v.
Proof.
  intros HNone HBool HInt HStr HList HDict HFrame HSeries HObject.
  fix IH 1. intros [|b|z|s|l|d|df|sr|c].
  - exact HNone.
  - apply HBool.
  - apply HInt.
  - apply HStr.
  - apply HList. induction l as [|x l IHl]; constructor; [apply IH|exact IHl].
  - apply HDict. induction d as [|[k x] d IHd]; constructor;
      [apply IH|exact IHd].
  - apply HFrame.
  - apply HSeries.
  - apply HObject.
Qed.

(** A value without pandas objects passes unchanged, and no pandas call is
    made for it. *)
Lemma plain_unchanged pd v :
  plain v = true → YFinance.make_json_serializable pd v = Ret v.
Proof.
  induction v as [|b|z|s|l IHl|d IHd|df|sr|c]
    using pyval_nested_ind; simpl; try done.
  - intros Hl.
    match goal with
    | |- YFinance.and_then (?members l) _ = _ =>
        assert (members l = Ret l) as ->; [|reflexivity]
    end.
    induction IHl as [|x l Hx _ IH]; simpl in *; [done|].
    apply andb_true_iff in Hl as [Hx' Hl]. by rewrite Hx, IH.
  - intros Hd.
    match goal with
    | |- YFinance.and_then (?items d) _ = _ =>
        assert (items d = Ret d) as ->; [|reflexivity]
    end.
    induction IHd as [|[k x] d Hx _ IH]; simpl in *; [done|].
    apply andb_true_iff in Hd as [Hx' Hd]. by rewrite Hx, IH.
Qed.

End YFinanceMore.

(** [make_json_serializable] hands back as it is a value that holds no
    pandas object, at any depth inside dictionaries and lists and whatever
    pandas would do: beside texts, numbers and [None] this goes for an
    object of any other class, such as a bound method, which [json.dumps]
    then still does not know. *)
Theorem make_json_serializable_keeps_other_values
    (pd : YFinance.Pandas) (v : pyval) :
  Behaviour.plain v = true →
  YFinance.make_json_serializable pd v = Ret v
  ∧ YFinance.unknown_to_json (Contract.or_error
                                (YFinance.make_json_serializable pd v))
    = YFinance.unknown_to_json v.
Proof.
  intros Hv. rewrite (YFinanceMore.plain_unchanged pd v Hv).
  split; reflexivity.
Qed.

Lemma make_json_serializable_keeps_other_values_witness :
  Behaviour.plain
    (PDict [ ("main", PList [PDict [("Close", PInt 101)]]);
             ("history", PObject "method") ]) = true
  ∧ YFinance.make_json_serializable Mock.pandas_one_row
      (PDict [ ("main", PList [PDict [("Close", PInt 101)]]);
               ("history", PObject "method") ])
    = Ret (PDict [ ("main", PList [PDict [("Close", PInt 101)]]);
                   ("history", PObject "method") ]).
Proof.
  split; [reflexivity|].
  apply (make_json_serializable_keeps_other_values Mock.pandas_one_row
           (PDict [ ("main", PList [PDict [("Close", PInt 101)]]);
                    ("history", PObject "method") ])).
  reflexivity.
Defined.

Module YFinanceSubCalls.
Import Contract Behaviour.

(** The encoder knows a mapping whose values it all knows. *)
Lemma dumps_known keys (combined : gmap string pyval) :
  (∀ k v, combined !! k = Some v → YFinance.unknown_to_json v = None) →
  YFinance.json_dumps keys combined = ret combined.
Proof.
  intros Hknown. unfold YFinance.json_dumps.
  assert (YFinance.first_unknown_to_json keys combined = None) as ->;
    [|reflexivity].
  induction keys as [|k keys IH]; simpl; [done|].
  destruct (combined !! k) as [v|] eqn:Hk; simpl; [|exact IH].
  by rewrite (Hknown k v Hk).
Qed.

Section SubCalls.
Variable user_valves : YFinance.UserValves.
Variable pd : YFinance.Pandas.
Variable yf : nat → string → string → gmap string pyval → YFinance.lib_outcome.
Variable days_ago : nat → string.
Variables start_date end_date : pyval.
Variable data_type : string.
Variables period interval extra : pyval.

#[local] Abbreviation single :=
  (SubCall.single user_valves pd yf days_ago start_date end_date data_type
     period interval extra).
#[local] Abbreviation start_event := (SubCall.start_event data_type).

(** A sub-call for a data type that is not known: one event, no access to
    the library, the error entry. *)
Lemma single_unknown ticker t0 :
  ¬ known_type data_type →
  single ticker t0
  = (Ret {[ ticker := unknown_type_error data_type ]},
     t0 ++ [Emit (start_event ticker)]).
Proof.
  intros Hunknown.
  assert (String.eqb data_type "history" = false) as Hhist.
  { apply String.eqb_neq. intros ->. apply Hunknown. by left. }
  assert (bool_decide (data_type ∈ YFinance.plain_types) = false) as Hplain.
  { apply bool_decide_eq_false. intros Hin. apply Hunknown. by right. }
  unfold SubCall.single, YFinance.fetch_single_ticker, YFinance.fetch_body.
  unfold try_except, mbind, M_bind, bind, emit, log.
  by rewrite Hhist, Hplain.
Qed.

Lemma gather_unknown tickers t0 :
  ¬ known_type data_type →
  YFinance.gather (map single tickers) t0
  = (Ret (map (λ ticker, {[ ticker := unknown_type_error data_type ]}) tickers),
     t0 ++ map (λ ticker, Emit (start_event ticker)) tickers).
Proof.
  intros Hunknown. revert t0.
  induction tickers as [|ticker tickers IH]; intros t0; simpl.
  - by rewrite app_nil_r.
  - unfold mbind, M_bind, bind. rewrite (single_unknown _ _ Hunknown).
    rewrite IH. unfold mret, M_ret, ret. by rewrite <- app_assoc.
Qed.
End SubCalls.

End YFinanceSubCalls.

(** A data type that is not known.  The fan-out still runs over every
    ticker, but the library is never asked: each ticker gets
    [{"error": "Unknown data_type '<data_type>'"}], and the events are the
    starting one, one per ticker, and the closing one that reports
    success. *)
Theorem yfinance_unknown_data_type
    (user_valves : YFinance.UserValves) (pd : YFinance.Pandas)
    (yf : nat → string → string → gmap string pyval → YFinance.lib_outcome)
    (days_ago : nat → string) (tickers : list string)
    (start_date end_date : pyval) (data_type : string)
    (period interval extra : pyval) :
  ¬ Contract.known_type data_type →
  ∃ combined t,
    run (YFinance.fetch_yfinance_data user_valves pd yf days_ago tickers
           start_date end_date data_type period interval extra)
    = (Ret combined, t)
    ∧ lib_calls t = []
    ∧ emitted t
      = Behaviour.fan_out_start data_type (length tickers)
        :: map (SubCall.start_event data_type) tickers
        ++ [Behaviour.fan_out_end]
    ∧ ∀ ticker, ticker ∈ tickers →
        combined !! ticker = Some (Behaviour.unknown_type_error data_type).
Proof.
  intros Hunknown. unfold run, YFinance.fetch_yfinance_data.
  unfold mbind at 1, M_bind at 1, bind at 1, emit at 1, log.
  unfold mbind at 1, M_bind at 1, bind at 1.
  pose proof (YFinanceSubCalls.gather_unknown user_valves pd yf days_ago
                start_date end_date data_type period interval extra tickers
                ([] ++ [Emit (Behaviour.fan_out_start data_type
                                (length tickers))]) Hunknown) as Hgather.
  unfold SubCall.single, Behaviour.fan_out_start in Hgather. rewrite Hgather.
  destruct (YFinanceFanOut.combine_spec
              (λ _ v, v = Behaviour.unknown_type_error data_type) tickers
              (map (λ ticker, {[ ticker := Behaviour.unknown_type_error
                                             data_type ]}) tickers) ∅)
    as [Hdom Hlook].
  { clear. induction tickers as [|x l IH]; simpl; constructor; eauto. }
  { intros k v Hk. by rewrite lookup_empty in Hk. }
  fold (YFinance.combine
          (map (λ ticker, {[ ticker := Behaviour.unknown_type_error
                                         data_type ]}) tickers)) in Hdom, Hlook.
  unfold mbind, M_bind, bind, emit, log.
  rewrite YFinanceSubCalls.dumps_known.
  2: { intros k v Hk. by rewrite (Hlook k v Hk). }
  eexists _, _. split; [reflexivity|].
  assert (∀ l : list string,
            lib_calls (map (λ ticker, Emit (SubCall.start_event data_type ticker)) l)
            = []
            ∧ emitted (map (λ ticker, Emit (SubCall.start_event data_type ticker)) l)
              = map (SubCall.start_event data_type) l) as Hevents.
  { induction l as [|x l [IH1 IH2]]; simpl; [done|].
    unfold lib_calls, emitted in *. simpl. by rewrite IH1, IH2. }
  destruct (Hevents tickers) as [Hlib Hemit].
  split; [|split].
  - rewrite !lib_calls_app, Hlib. reflexivity.
  - rewrite !emitted_app, Hemit. reflexivity.
  - intros ticker Hin.
    assert (ticker ∈ dom (YFinance.combine
              (map (λ ticker, {[ ticker := Behaviour.unknown_type_error
                                             data_type ]}) tickers))) as Hd.
    { rewrite Hdom. apply elem_of_union. right.
      by apply elem_of_list_to_set. }
    apply elem_of_dom in Hd as [v Hv].
    rewrite Hv. f_equal. by apply Hlook in Hv.
Qed.

Lemma yfinance_unknown_data_type_witness :
  ¬ Contract.known_type "dividends"
  ∧ ∃ combined t,
      run (YFinance.fetch_yfinance_data YFinance.default_valves Mock.pandas_one_row Mock.yf_one_row
             Mock.days_ago ["AAA"; "BBB"] PNone PNone "dividends" PNone
             (PStr "1d") PNone)
      = (Ret combined, t)
      ∧ lib_calls t = []
      ∧ combined !! "BBB"
        = Some (error_value "Unknown data_type 'dividends'").
Proof.
  assert (¬ Contract.known_type "dividends") as Hunknown.
  { intros [H|H]; [discriminate H|].
    unfold YFinance.plain_types in H.
    repeat (apply elem_of_cons in H as [H|H]; [discriminate H|]).
    by apply elem_of_nil in H. }
  split; [exact Hunknown|].
  destruct (yfinance_unknown_data_type YFinance.default_valves
              Mock.pandas_one_row Mock.yf_one_row
              Mock.days_ago ["AAA"; "BBB"] PNone PNone "dividends" PNone
              (PStr "1d") PNone Hunknown)
    as (combined & t & Hrun & Hlib & _ & Hall).
  exists combined, t. split; [exact Hrun|]. split; [exact Hlib|].
  apply Hall. apply list_elem_of_further, list_elem_of_here.
Defined.

(** The events of the fan-out.  Whatever happens to the tickers, the first
    event announces the number of tickers with [done=false] and the last
    one reports success with [done=true] and [hidden=false]; for an empty
    list these are the only events and the result is the empty mapping. *)
Theorem yfinance_events_frame_the_fan_out
    (user_valves : YFinance.UserValves) (pd : YFinance.Pandas)
    (yf : nat → string → string → gmap string pyval → YFinance.lib_outcome)
    (days_ago : nat → string) (tickers : list string)
    (start_date end_date : pyval) (data_type : string)
    (period interval extra : pyval) :
  (∃ between,
     emitted (run (YFinance.fetch_yfinance_data user_valves pd yf days_ago
                     tickers start_date end_date data_type period interval
                     extra)).2
     = Behaviour.fan_out_start data_type (length tickers)
       :: between ++ [Behaviour.fan_out_end])
  ∧ run (YFinance.fetch_yfinance_data user_valves pd yf days_ago [] start_date
           end_date data_type period interval extra)
    = (Ret ∅, [ Emit (Behaviour.fan_out_start data_type 0);
                Emit Behaviour.fan_out_end ]).
Proof.
  split; [|reflexivity].
  unfold run, YFinance.fetch_yfinance_data.
  unfold mbind at 1, M_bind at 1, bind at 1, emit at 1, log.
  unfold mbind at 1, M_bind at 1, bind at 1.
  match goal with
  | |- context [YFinance.gather _ ?t0] =>
      destruct (YFinanceFanOut.gather_spec user_valves pd yf days_ago start_date
                  end_date data_type period interval extra tickers t0)
        as (rs & ext & Hgather & _ & _)
  end.
  unfold SubCall.single in Hgather. rewrite Hgather.
  unfold mbind, M_bind, bind, emit, log, YFinance.json_dumps, raise, ret.
  exists (emitted ext).
  destruct (YFinance.first_unknown_to_json _ _); simpl;
    rewrite !emitted_app; reflexivity.
Qed.

(** The extra of a history fetch.  When the library has the history [d]
    and the extra is asked for by name, the sub-call stores the mapping
    with [main] and the named extra beside it when the library has the
    extra, the history alone when the ticker has no such attribute, and
    only the error when reading the extra raises: the history is then
    lost. *)
Theorem yfinance_extra_beside_history
    (user_valves : YFinance.UserValves) (pd : YFinance.Pandas)
    (yf : nat → string → string → gmap string pyval → YFinance.lib_outcome)
    (days_ago : nat → string) (ticker : string)
    (start_date end_date period interval : pyval) (name : string)
    (d : pyval) (found : YFinance.lib_outcome) (t0 : trace) :
  Contract.delivers_history yf ticker d →
  name ≠ "" → name ≠ "main" →
  (∀ n, yf n ticker name ∅ = found) →
  (YFinance.fetch_single_ticker user_valves pd yf days_ago ticker start_date
     end_date "history" period interval (PStr name) t0).1
  = Ret {[ ticker := Behaviour.history_with_extra pd name d found ]}.
Proof.
  intros Hd Hname Hmain Hfound.
  apply String.eqb_neq in Hname, Hmain.
  unfold YFinance.fetch_single_ticker, YFinance.fetch_body.
  rewrite String.eqb_refl.
  unfold try_except, mbind, M_bind, bind, YFinance.access, YFinance.lift,
    emit, log.
  rewrite Hd. cbn [default mret M_ret ret truthy]. rewrite Hname.
  cbn [negb]. rewrite Hfound. unfold Behaviour.history_with_extra.
  destruct found as [x|e|]; cbn [fst snd].
  - destruct (YFinance.through_to_json pd x) as [extra_data|e];
      cbn [YFinance.and_then]; [|reflexivity].
    rewrite Hmain. unfold ret.
    destruct (YFinance.make_json_serializable pd (PDict _)); reflexivity.
  - reflexivity.
  - unfold ret.
    destruct (YFinance.make_json_serializable pd (id d)) eqn:Hn;
      unfold id in Hn; rewrite Hn; reflexivity.
Qed.

Lemma yfinance_extra_beside_history_witness :
  Contract.delivers_history Mock.yf_with_dividends "AAA" Mock.one_row
  ∧ "dividends" ≠ "" ∧ "dividends" ≠ "main"
  ∧ (YFinance.fetch_single_ticker YFinance.default_valves Mock.pandas_one_row
       Mock.yf_with_dividends Mock.days_ago "AAA" PNone PNone "history"
       (PStr "1mo") (PStr "1d") (PStr "dividends") []).1
    = Ret {[ "AAA" := PDict [ ("main", PList [PDict [("Close", PInt 101)]]);
                              ("dividends", PList [PInt 24]) ] ]}.
Proof.
  split; [intros n kw; reflexivity|].
  split; [discriminate|]. split; [discriminate|].
  apply (yfinance_extra_beside_history YFinance.default_valves
           Mock.pandas_one_row Mock.yf_with_dividends Mock.days_ago "AAA"
           PNone PNone (PStr "1mo") (PStr "1d") "dividends" Mock.one_row
           (YFinance.LibValue (PSeries 0)) []).
  - intros n kw. reflexivity.
  - discriminate.
  - discriminate.
  - intros n. reflexivity.
Defined.

(** ** Semantic Scholar: further operations *)

Module SemanticScholarMore.
Import Behaviour.

Section Requests.
Variable transport : nat → request → net_outcome.

(** The one request of a started call. *)
Lemma started_call_request e r h :
  (∀ x t, net_calls (h x t).2 = net_calls t) →
  net_calls
    (run (emit e;;
          try_except
            (response ← Httpx.send transport r;
             Httpx.raise_for_status response;;
             Httpx.json response) h)).2
  = [r].
Proof.
  intros Hh. unfold run.
  unfold mbind at 1, M_bind at 1, bind at 1, emit at 1, log.
  by rewrite ParamFacts.guarded_request.
Qed.

Lemma started_call_fails_into_None msg e r h :
  first_fails transport msg → done e = false →
  h (RequestError msg)
  = (emit (Status ("Request error: " +:+ msg) true None);; mret PNone) →
  fails_into_None msg
    (emit e;;
     try_except
       (response ← Httpx.send transport r;
        Httpx.raise_for_status response;;
        Httpx.json response) h).
Proof.
  intros Hfails Hdone Hh. exists e, r.
  rewrite HttpxOutcomes.started_call_run, (Hfails r), Hh. by split.
Qed.
End Requests.

End SemanticScholarMore.

(** [fetch_paper_citations] sends [limit], [fields] and
    [publicationDateOrYear] unless they are [None], to
    [paper/<paper_id>/citations]; its parameter [offset] is never sent. *)
Theorem fetch_paper_citations_ignores_offset
    (transport : nat → request → net_outcome)
    (paper_id offset limit fields publicationDateOrYear : pyval) :
  ∃ sent,
    net_calls (run (SemanticScholar.fetch_paper_citations transport paper_id
                      offset limit fields publicationDateOrYear)).2
    = [ Request GET
          ("https://api.semanticscholar.org/graph/v1/paper/" +:+ fmt paper_id
           +:+ "/citations") sent None ]
    ∧ sent !! "limit" = Behaviour.unless_None limit
    ∧ sent !! "fields" = Behaviour.unless_None fields
    ∧ sent !! "publicationDateOrYear"
      = Behaviour.unless_None publicationDateOrYear
    ∧ sent !! "offset" = None.
Proof.
  eexists. split.
  - unfold SemanticScholar.fetch_paper_citations.
    apply SemanticScholarMore.started_call_request.
    HttpxOutcomes.quiet_handler.
  - rewrite !ArxivMore.sent_lookup. repeat split; reflexivity.
Qed.

(** The two batch operations are POST requests.  [fetch_papers_batch]
    sends [fields] as a parameter and the ids in the body as they are
    given, whatever they are; [fetch_author_batch] leaves out the [fields]
    parameter and the [ids] of the body when they are [None]. *)
Theorem batch_operations_post_the_ids
    (transport : nat → request → net_outcome) (ids fields : pyval) :
  net_calls (run (SemanticScholar.fetch_papers_batch transport ids fields)).2
  = [ Request POST "https://api.semanticscholar.org/graph/v1/paper/batch"
        {[ "fields" := fields ]} (Some (PDict [("ids", ids)])) ]
  ∧ ∃ sent,
      net_calls (run (SemanticScholar.fetch_author_batch transport fields
                        ids)).2
      = [ Request POST "https://api.semanticscholar.org/graph/v1/author/batch"
            sent
            (Some (PDict (if is_None ids then [] else [("ids", ids)]))) ]
      ∧ sent !! "fields" = Behaviour.unless_None fields
      ∧ ∀ k, k ≠ "fields" → sent !! k = None.
Proof.
  split.
  - unfold SemanticScholar.fetch_papers_batch.
    apply SemanticScholarMore.started_call_request.
    HttpxOutcomes.quiet_handler.
  - eexists. split.
    + unfold SemanticScholar.fetch_author_batch.
      rewrite SemanticScholarMore.started_call_request
        by HttpxOutcomes.quiet_handler.
      destruct (is_None ids); reflexivity.
    + unfold Behaviour.unless_None. destruct (is_None fields); split.
      * apply lookup_empty.
      * intros k _. apply lookup_empty.
      * apply lookup_insert_eq.
      * intros k Hk. rewrite lookup_insert_ne by done. apply lookup_empty.
Qed.

(** A transport failure in the operations that follow [fetch_paper] in the
    Semantic Scholar tool ends in [None]: the starting event, one network
    call, a [done=true] event, and no error value. *)
Theorem semantic_scholar_failures_end_in_None
    (transport : nat → request → net_outcome) (msg : string) :
  Behaviour.first_fails transport msg →
  (∀ query,
     Behaviour.fails_into_None msg
       (SemanticScholar.fetch_papers_partial_match transport query))
  ∧ (∀ ids fields,
       Behaviour.fails_into_None msg
         (SemanticScholar.fetch_papers_batch transport ids fields))
  ∧ (∀ paper_id offset limit fields publicationDateOrYear,
       Behaviour.fails_into_None msg
         (SemanticScholar.fetch_paper_citations transport paper_id offset
            limit fields publicationDateOrYear))
  ∧ (∀ fields ids,
       Behaviour.fails_into_None msg
         (SemanticScholar.fetch_author_batch transport fields ids))
  ∧ (∀ author_id fields,
       Behaviour.fails_into_None msg
         (SemanticScholar.fetch_author_details transport author_id fields)).
Proof.
  intros Hfails. repeat split; intros;
    by apply SemanticScholarMore.started_call_fails_into_None.
Qed.

Lemma semantic_scholar_failures_end_in_None_witness :
  Behaviour.first_fails (Mock.always (NoResponse "timed out")) "timed out"
  ∧ Behaviour.fails_into_None "timed out"
      (SemanticScholar.fetch_author_details
         (Mock.always (NoResponse "timed out")) (PStr "1741101") PNone).
Proof.
  split; [intros r; reflexivity|].
  apply (semantic_scholar_failures_end_in_None
           (Mock.always (NoResponse "timed out")) "timed out").
  intros r. reflexivity.
Defined.

(** ** Further edge behaviour *)

(** [get_congressional_record] sends the date as [y], [m] and [d], each
    when it is truthy; its parameter [format] is not used, so the request
    asks for [application/json] whatever format the caller names. *)
Theorem get_congressional_record_ignores_format
    (transport : nat → request → net_outcome) (api_key : pyval)
    (year month day format offset limit : pyval) :
  ∃ sent,
    net_calls (run (Congress.get_congressional_record transport api_key year
                      month day format offset limit)).2
    = [ Request GET "https://api.congress.gov/v3/congressional-record/" sent
          None ]
    ∧ sent !! "format" = Some (PStr "application/json")
    ∧ sent !! "y" = (if truthy year then Some year else None)
    ∧ sent !! "m" = (if truthy month then Some month else None)
    ∧ sent !! "d" = (if truthy day then Some day else None)
    ∧ sent !! "year" = None ∧ sent !! "month" = None ∧ sent !! "day" = None.
Proof.
  eexists. split; [apply CongressRequests.call_api_request|].
  unfold Congress.congressional_record_params. simpl default.
  destruct (truthy year), (truthy month), (truthy day), (truthy offset),
    (truthy limit); repeat split; reflexivity.
Qed.

(** A bill listing stops at the first date that does not parse and prints
    one line that names it: [fromDateTime] when that one is bad, whatever
    [toDateTime] is, and [toDateTime] when only that one is bad. *)
Theorem get_bills_names_the_bad_date
    (transport : nat → request → net_outcome) (api_key : pyval)
    (strptime_ok : string → bool)
    (offset limit fromDateTime toDateTime sort : pyval) :
  (Contract.date_fails strptime_ok fromDateTime →
   run (Congress.get_bills transport api_key strptime_ok offset limit
          fromDateTime toDateTime sort)
   = (Ret PNone,
      [Stdout "Incorrect fromDateTime format, should be YYYY-MM-DDT00:00:00Z"]))
  ∧ (Contract.date_passes strptime_ok fromDateTime →
     Contract.date_fails strptime_ok toDateTime →
     run (Congress.get_bills transport api_key strptime_ok offset limit
            fromDateTime toDateTime sort)
     = (Ret PNone,
        [Stdout "Incorrect toDateTime format, should be YYYY-MM-DDT00:00:00Z"])).
Proof.
  split.
  - intros Hfrom. unfold run, Congress.get_bills, Congress.bill_listing.
    unfold mbind at 1, M_bind at 1, bind at 1.
    by rewrite (CongressDates.checked_date_fails _ _ _ _ _ Hfrom).
  - intros Hfrom Hto. unfold run, Congress.get_bills, Congress.bill_listing.
    unfold mbind at 1, M_bind at 1, bind at 1.
    rewrite (CongressFacts.checked_date_passes _ _ _ _ _ Hfrom).
    unfold mbind at 1, M_bind at 1, bind at 1.
    by rewrite (CongressDates.checked_date_fails _ _ _ _ _ Hto).
Qed.

Lemma get_bills_names_the_bad_date_witness :
  Contract.date_fails Datetime.strptime_Ymd_HMS_Z (PStr "last week")
  ∧ run (Congress.get_bills (Mock.always (Response 200 (Some (PDict []))))
           (PStr "key") Datetime.strptime_Ymd_HMS_Z (PInt 0) (PInt 10)
           (PStr "last week") (PStr "tomorrow") PNone)
    = (Ret PNone,
       [Stdout "Incorrect fromDateTime format, should be YYYY-MM-DDT00:00:00Z"]).
Proof.
  assert (Contract.date_fails Datetime.strptime_Ymd_HMS_Z (PStr "last week"))
    as H.
  { exists "last week". repeat split; reflexivity. }
  split; [exact H|].
  exact (proj1 (get_bills_names_the_bad_date
                  (Mock.always (Response 200 (Some (PDict [])))) (PStr "key")
                  Datetime.strptime_Ymd_HMS_Z (PInt 0) (PInt 10)
                  (PStr "last week") (PStr "tomorrow") PNone) H).
Defined.

(** The keyword arguments of a history fetch always carry [interval] as
    given and the three valve settings ([actions] being on when dividends
    or splits are wanted), and of [start], [end] and [period] at least one
    and never all three. *)
Theorem history_kwargs_carry_one_or_two_window_keys
    (user_valves : YFinance.UserValves) (days_ago : nat → string)
    (start_date end_date period interval : pyval) :
  let kwargs := YFinance.history_kwargs user_valves days_ago start_date
                  end_date period interval in
  kwargs !! "interval" = Some interval
  ∧ kwargs !! "actions"
    = Some (PBool (YFinance.include_dividends user_valves
                   || YFinance.include_splits user_valves))
  ∧ kwargs !! "auto_adjust" = Some (PBool (YFinance.auto_adjust user_valves))
  ∧ kwargs !! "prepost" = Some (PBool (YFinance.include_prepost user_valves))
  ∧ (is_Some (kwargs !! "start") ∨ is_Some (kwargs !! "end")
     ∨ is_Some (kwargs !! "period"))
  ∧ ¬ (is_Some (kwargs !! "start") ∧ is_Some (kwargs !! "end")
       ∧ is_Some (kwargs !! "period")).
Proof.
  cbv zeta.
  pose proof (YFinanceWindow.history_window user_valves days_ago start_date
                end_date period interval) as Hwindow.
  unfold Contract.window in Hwindow.
  split; [|split; [|split; [|split]]].
  1-4: unfold YFinance.history_kwargs;
    destruct (truthy start_date), (truthy end_date), (truthy period);
    reflexivity.
  destruct (truthy start_date), (truthy end_date), (truthy period);
    simpl in Hwindow; injection Hwindow as -> -> ->;
    (split; [eauto|intros (Hs & He & Hp);
                   first [by destruct Hs|by destruct He|by destruct Hp]]).
Qed.
